(** * Drift-diffusion parameter inference: the simulator pipeline

    A shallow embedding of the code cells of
    [module1/week3/project1_week3_parameter_inference.ipynb]:
    [prior], [simulator], [find_rts_and_decisions],
    [calculate_histogram_stats] and [rejection_abc].

    Conventions of the embedding.
    - Python and NumPy floats are exact rationals ([Q]); NaN, infinities
      and rounding are outside the model, and so is the conversion of the
      results to [float32] tensors.
    - A two-dimensional array or tensor is the list of its rows.  An array
      without rows carries no number of columns here: it stands for an
      array of shape (0, k) with [k >= 1].
    - Where the releases of NumPy differ, the model follows 1.24 and later:
      [np.array] on rows of unequal length raises [ValueError].
    - An exception is a value of [exn]; a call returns [result].
    - The pseudo-random draws of the solver are an explicit argument. *)

From Stdlib Require Import List Bool Arith ZArith QArith Qabs Qround Lia Lqa.
From Stdlib Require Import Permutation Sorted.
Import ListNotations.

Local Open Scope nat_scope.
Local Open Scope list_scope.

(** ** Exceptions *)

Inductive exn : Set :=
| AssertionError
| IndexError
| ValueError
| ZeroDivisionError
| RuntimeError
| NameError
| SDEValueError.

Inductive result (A : Type) : Type :=
| Ok (a : A)
| Raise (e : exn).

Arguments Ok {A} a.
Arguments Raise {A} e.

Definition bind {A B : Type} (m : result A) (k : A -> result B) : result B :=
  match m with
  | Ok a => k a
  | Raise e => Raise e
  end.

Notation "x <- m ;; k" := (bind m (fun x => k))
  (at level 61, m at next level, right associativity).
Notation "' p <- m ;; k" := (bind m (fun p => k))
  (at level 61, p pattern, m at next level, right associativity).

Fixpoint mapM {A B : Type} (f : A -> result B) (l : list A) : result (list B) :=
  match l with
  | [] => Ok []
  | a :: l' => b <- f a ;; bs <- mapM f l' ;; Ok (b :: bs)
  end.

(** ** The NumPy operations the notebook uses *)

Module Np.

(** [np.sign] *)
Definition sign (x : Q) : Q := inject_Z (Z.sgn (Qnum x)).

(** [abs(x) >= a], element by element *)
Definition crossed (a v : Q) : bool := Qle_bool a (Qabs v).

Definition abs_ge (a : Q) (x : list (list Q)) : list (list bool) :=
  map (map (crossed a)) x.

(** [m.nonzero()] of a two-dimensional boolean array: the (row, column)
    positions of the true entries, in row-major order. *)
Fixpoint nonzero_row (i j : nat) (r : list bool) : list (nat * nat) :=
  match r with
  | [] => []
  | b :: r' => (if b then [(i, j)] else []) ++ nonzero_row i (S j) r'
  end.

Fixpoint nonzero_from (i : nat) (m : list (list bool)) : list (nat * nat) :=
  match m with
  | [] => []
  | r :: m' => nonzero_row i 0 r ++ nonzero_from (S i) m'
  end.

Definition nonzero (m : list (list bool)) : list nat * list nat :=
  let nz := nonzero_from 0 m in (map fst nz, map snd nz).

(** [np.unique]: the sorted distinct values. *)
Fixpoint insert_unique (n : nat) (l : list nat) : list nat :=
  match l with
  | [] => [n]
  | m :: l' =>
      match n ?= m with
      | Lt => n :: l
      | Eq => l
      | Gt => m :: insert_unique n l'
      end
  end.

Definition unique (l : list nat) : list nat := fold_right insert_unique [] l.

(** position of the first occurrence *)
Fixpoint index_of (n : nat) (l : list nat) : nat :=
  match l with
  | [] => 0
  | m :: l' => if n =? m then 0 else S (index_of n l')
  end.

(** [np.unique(l, return_index=True)] *)
Definition unique_return_index (l : list nat) : list nat * list nat :=
  let u := unique l in (u, map (fun v => index_of v l) u).

(** [i in l] for an integer array [l] *)
Definition contains (l : list nat) (i : nat) : bool := existsb (Nat.eqb i) l.

(** [l[idx]] for an integer index array: out of range raises. *)
Definition item {A : Type} (l : list A) (i : nat) : result A :=
  match nth_error l i with
  | Some v => Ok v
  | None => Raise IndexError
  end.

Definition take {A : Type} (l : list A) (idx : list nat) : result (list A) :=
  mapM (item l) idx.

(** [x[rows, cols]] for two integer index arrays of one length *)
Definition take2 {A : Type} (x : list (list A)) (rows cols : list nat)
  : result (list A) :=
  mapM (fun rc => r <- item x (fst rc) ;; item r (snd rc)) (combine rows cols).

(** [r[-1] = v] on one row *)
Fixpoint set_last {A : Type} (v : A) (r : list A) : list A :=
  match r with
  | [] => []
  | [_] => [v]
  | u :: r' => u :: set_last v r'
  end.

Fixpoint imap_from {A B : Type} (i : nat) (f : nat -> A -> B) (l : list A)
  : list B :=
  match l with
  | [] => []
  | a :: l' => f i a :: imap_from (S i) f l'
  end.

(** [x[idx, -1] = g(x[idx, -1])]: the right-hand side is read from the
    array before anything is written, so every selected row gets [g] of its
    own old last entry.  An index past the last row, or a selected row
    without columns, raises.  NumPy checks the column index [-1] against
    the number of columns even when [idx] selects no row; with rows in the
    array that changes nothing, since a row without columns has no
    crossing and is selected, and an array without rows is taken to have
    columns. *)
Definition update_last_col (x : list (list Q)) (idx : list nat) (g : Q -> Q)
  : result (list (list Q)) :=
  if existsb (fun i => length x <=? i) idx then Raise IndexError
  else if existsb (fun i => match nth i x [] with
                            | [] => true
                            | _ :: _ => false
                            end) idx
  then Raise IndexError
  else Ok (imap_from 0
             (fun i r =>
                if contains idx i then set_last (g (last r 0%Q)) r else r)
             x).

(** [np.array(rows)] for a list of one-dimensional arrays.  Rows of one
    length make a two-dimensional array, and no row makes an empty array.
    Rows of unequal length raise [ValueError] (NumPy 1.24 and later; the
    releases before build an array of objects, from 1.19 on with a
    warning). *)
Definition array {A : Type} (rows : list (list A)) : result (list (list A)) :=
  match rows with
  | [] => Ok []
  | r :: rows' =>
      if forallb (fun r' => length r' =? length r) rows' then Ok rows
      else Raise ValueError
  end.

(** [x[lo:hi]]: slices clamp, they never raise. *)
Definition slice {A : Type} (x : list A) (lo hi : nat) : list A :=
  firstn (hi - lo) (skipn lo x).

(** writing through the view [x[lo:hi]] *)
Definition write_slice {A : Type} (x : list A) (lo : nat) (v : list A)
  : list A :=
  firstn lo x ++ v ++ skipn (lo + length v) x.

End Np.

(** ** [find_rts_and_decisions] *)

Definition traces : Type := list (list Q).

(** One turn of the loop over [param_idx], on the view [x_traces_param].
    Returns the view after the forced decisions, [rt_param] and
    [decisions_param]. *)
Definition decide_param (x_traces_param : traces) (num_trials : nat)
  (tspan : list Q) (a : Q) : result (traces * list Q * list Q) :=
  let '(rows, _) := Np.nonzero (Np.abs_ge a x_traces_param) in
  let unique_rows := Np.unique rows in
  let undecided_idx :=
    filter (fun i => negb (Np.contains unique_rows i)) (seq 0 num_trials) in
  x_traces_param <-
    Np.update_last_col x_traces_param undecided_idx
      (fun v => (a * Np.sign v)%Q) ;;
  let '(rows, cols) := Np.nonzero (Np.abs_ge a x_traces_param) in
  let '(unique_rows, trial_idx) := Np.unique_return_index rows in
  decision_idx <- Np.take cols trial_idx ;;
  at_decision <- Np.take2 x_traces_param unique_rows decision_idx ;;
  let decisions_param := map Np.sign at_decision in
  rt_param <- Np.take tspan decision_idx ;;
  Ok (x_traces_param, rt_param, decisions_param).

Fixpoint find_loop (params : list nat) (x_traces : traces) (num_trials : nat)
  (tspan : list Q) (a : Q) (rts decisions : list (list Q))
  : result (traces * list (list Q) * list (list Q)) :=
  match params with
  | [] => Ok (x_traces, rts, decisions)
  | param_idx :: params' =>
      let lo := param_idx * num_trials in
      let hi := (param_idx + 1) * num_trials in
      '(x_param, rt_param, decisions_param) <-
        decide_param (Np.slice x_traces lo hi) num_trials tspan a ;;
      find_loop params' (Np.write_slice x_traces lo x_param) num_trials tspan a
        (rts ++ [rt_param]) (decisions ++ [decisions_param])
  end.

(** The function up to its last line: the assertion and the loop.  The
    array is updated in place, so the result carries the array after the
    call along with the lists [rts] and [decisions] as the loop has built
    them, one entry per parameter. *)
Definition find_rts_and_decisions (x_traces : traces)
  (num_parameters num_trials : nat) (tspan : list Q) (a : Q)
  : result (traces * list (list Q) * list (list Q)) :=
  if length x_traces =? num_parameters * num_trials
  then find_loop (seq 0 num_parameters) x_traces num_trials tspan a [] []
  else Raise AssertionError.

(** The whole call, with its last line
    [return np.array(rts), np.array(decisions)]: the two lists are made
    arrays, which fails when the parameters differ in their number of
    outcomes.  With one parameter, as [simulator] calls the function, the
    conversion cannot fail and changes nothing. *)
Definition find_rts_and_decisions_arrays (x_traces : traces)
  (num_parameters num_trials : nat) (tspan : list Q) (a : Q)
  : result (traces * list (list Q) * list (list Q)) :=
  '(x_traces, rts, decisions) <-
    find_rts_and_decisions x_traces num_parameters num_trials tspan a ;;
  rts <- Np.array rts ;;
  decisions <- Np.array decisions ;;
  Ok (x_traces, rts, decisions).

(** ** Grids and histograms *)

Module NpHist.

(** [np.linspace(start, stop, num)]: [arange(0, num) * step + start] with
    [step = (stop - start) / (num - 1)], the last point set to [stop]. *)
Definition linspace (start stop : Q) (num : Z) : result (list Q) :=
  if (num <? 0)%Z then Raise ValueError
  else
    match Z.to_nat num with
    | 0 => Ok []
    | 1 => Ok [start]
    | S div =>
        let step := ((stop - start) / inject_Z (Z.of_nat div))%Q in
        Ok (map (fun i => (inject_Z (Z.of_nat i) * step + start)%Q) (seq 0 div)
              ++ [stop])
    end.

(** [sa.searchsorted(v, 'left')] and [sa.searchsorted(v, 'right')] on the
    sorted sample: how many entries lie strictly below, resp. not above. *)
Definition searchsorted_left (a : list Q) (v : Q) : Z :=
  Z.of_nat (length (filter (fun x => negb (Qle_bool v x)) a)).

Definition searchsorted_right (a : list Q) (v : Q) : Z :=
  Z.of_nat (length (filter (fun x => Qle_bool x v) a)).

(** [np.diff] *)
Fixpoint diff (l : list Z) : list Z :=
  match l with
  | x :: ((y :: _) as l') => (y - x)%Z :: diff l'
  | _ => []
  end.

Fixpoint increasing (bins : list Q) : bool :=
  match bins with
  | x :: ((y :: _) as bins') => Qle_bool x y && increasing bins'
  | _ => true
  end.

(** [np.histogram(a, bins=bins)[0]] for an array of bin edges: the edges
    must not decrease; the counts are the differences of the cumulative
    counts, the last bin closed on the right. *)
Definition histogram (a : list Q) (bins : list Q) : result (list Z) :=
  if increasing bins then
    let cum_n :=
      map (searchsorted_left a) (removelast bins)
      ++ map (searchsorted_right a) (skipn (length bins - 1) bins) in
    Ok (diff cum_n)
  else Raise ValueError.

End NpHist.

(** ** [calculate_histogram_stats] *)

Definition calculate_histogram_stats (rts decisions : list (list Q)) (T : Q)
  (nbins : Z) : result (list (list Z)) :=
  let sign_rts :=
    map (fun rd => map (fun p => (fst p * snd p)%Q) (combine (fst rd) (snd rd)))
        (combine rts decisions) in
  bins <- NpHist.linspace (- T) T nbins ;;
  mapM (fun row => NpHist.histogram row bins) sign_rts.

(** ** The Euler-Maruyama solver [sdeint.itoEuler]

    The solver belongs to the [sdeint] package, which the notebook imports;
    the model follows the package.  It checks its arguments, then fills
    [y[0] = y0] and
    [y[n+1] = y[n] + f(y[n], t[n]) * h + G(y[n], t[n]).dot(dW[n])] with
    [h = (tspan[N-1] - tspan[0]) / (N - 1)].  The Wiener increments [dW] are
    drawn by the package; here they are the argument [dW], indexed by step
    and by component.  The drift [f] of the notebook does not depend on its
    arguments, so it is passed as its value; [G] is passed through its
    product with an increment vector. *)

Module Sdeint.

Fixpoint diff (l : list Q) : list Q :=
  match l with
  | x :: ((y :: _) as l') => (y - x)%Q :: diff l'
  | _ => []
  end.

(** Python's [min] and [max] on a non-empty sequence, its head apart *)
Definition py_min (x : Q) (l : list Q) : Q :=
  fold_left (fun m v => if Qle_bool m v then m else v) l x.

Definition py_max (x : Q) (l : list Q) : Q :=
  fold_left (fun m v => if Qle_bool v m then m else v) l x.

(** [np.isclose(u, v)] with the default tolerances *)
Definition isclose (u v : Q) : bool :=
  Qle_bool (Qabs (u - v)) ((1 # 100000000) + (1 # 100000) * Qabs v).

Definition euler_step (fy : list Q) (G_dot : list Q -> list Q) (h : Q)
  (dWn : list Q) (yn : list Q) : list Q :=
  map (fun p => (fst p + fst (snd p) * h + snd (snd p))%Q)
      (combine yn (combine fy (G_dot dWn))).

Fixpoint euler_rows (fy : list Q) (G_dot : list Q -> list Q) (h : Q)
  (dW : nat -> nat -> Q) (m n steps : nat) (yn : list Q) : list (list Q) :=
  match steps with
  | 0 => [yn]
  | S steps' =>
      yn :: euler_rows fy G_dot h dW m (S n) steps'
              (euler_step fy G_dot h (map (dW n) (seq 0 m)) yn)
  end.

(** The checks, in the order the package makes them: [min(np.diff(tspan))]
    raises [ValueError] on an empty difference; unequal steps and a drift of
    the wrong length raise [SDEValueError]; [y0[0]] raises [IndexError] on
    an empty [y0]. *)
Definition itoEuler (f : result (list Q)) (G_dot : list Q -> list Q)
  (y0 tspan : list Q) (dW : nat -> nat -> Q) : result (list (list Q)) :=
  match diff tspan with
  | [] => Raise ValueError
  | d0 :: ds =>
      if negb (isclose (py_min d0 ds) (py_max d0 ds)) then Raise SDEValueError
      else
        fy <- f ;;
        if negb (length fy =? length y0) then Raise SDEValueError
        else
          match y0 with
          | [] => Raise IndexError
          | _ :: _ =>
              let N := length tspan in
              let h := ((last tspan 0 - hd 0 tspan)
                        / inject_Z (Z.of_nat (N - 1)))%Q in
              Ok (euler_rows fy G_dot h dW (length y0) 0 (N - 1) y0)
          end
  end.

End Sdeint.

(** ** [simulator] *)

(** What the notebook passes as [parameters]: a Python float or a tensor of
    rank 0, 1 or 2. *)
Inductive tensor : Type :=
| Tensor0 (x : Q)
| Tensor1 (v : list Q)
| Tensor2 (m : list (list Q)).

Inductive py_parameters : Type :=
| PyFloat (x : Q)
| PyTensor (t : tensor).

Definition ndim (t : tensor) : nat :=
  match t with
  | Tensor0 _ => 0
  | Tensor1 _ => 1
  | Tensor2 _ => 2
  end.

(** [t.reshape(1, -1)] *)
Definition reshape_row (t : tensor) : tensor :=
  match t with
  | Tensor0 x => Tensor2 [[x]]
  | Tensor1 v => Tensor2 [v]
  | Tensor2 m => Tensor2 [concat m]
  end.

(** The first four lines of [simulator]. *)
Definition coerce_parameters (parameters : py_parameters) : tensor :=
  let parameters :=
    match parameters with
    | PyFloat x => Tensor1 [x]
    | PyTensor t => t
    end in
  if ndim parameters =? 1 then reshape_row parameters else parameters.

(** [parameters.shape[0]] and the rows [parameters[idx_param].numpy()] *)
Definition rows_of (t : tensor) : result (list (list Q)) :=
  match t with
  | Tensor0 _ => Raise IndexError
  | Tensor1 v => Ok (map (fun x => [x]) v)
  | Tensor2 m => Ok m
  end.

(** [int(T/dt)] on Python numbers *)
Definition int_quotient (T dt : Q) : result Z :=
  if Qeq_bool dt 0 then Raise ZeroDivisionError
  else let q := (T / dt)%Q in Ok (Z.quot (Qnum q) (Zpos (Qden q))).

(** [y.T] for an array with [d] columns *)
Definition transpose (d : nat) (y : list (list Q)) : list (list Q) :=
  map (fun i => map (fun row => nth i row 0%Q) y) (seq 0 d).

(** The body of the loop over [idx_param]; [dW] holds the Wiener increments
    of this parameter's run. *)
Definition simulate_param (mu : list Q) (num_trials : nat) (sigma T y0 a : Q)
  (nbins : Z) (dt : Q) (dW : nat -> nat -> Q)
  : result (traces * list (list Z)) :=
  let num_simulations := num_trials in
  let mu_expanded := flat_map (fun m => repeat m num_trials) mu in
  steps <- int_quotient T dt ;;
  tspan <- NpHist.linspace 0 T steps ;;
  let y0_expanded := repeat (y0 * 1)%Q num_simulations in
  (* np.eye(num_simulations).dot(mu_expanded) *)
  let f :=
    if length mu_expanded =? num_simulations then Ok mu_expanded
    else Raise ValueError in
  (* (sigma * np.eye(num_simulations)).dot(dW[n]) *)
  let G_dot := map (Qmult sigma) in
  y <- Sdeint.itoEuler f G_dot y0_expanded tspan dW ;;
  let x_traces_param := transpose num_simulations y in
  '(x_traces_param, rts, decisions) <-
    find_rts_and_decisions x_traces_param 1 num_trials tspan a ;;
  stats_param <- calculate_histogram_stats rts decisions T nbins ;;
  Ok (x_traces_param, stats_param).

Fixpoint simulator_loop (idx_param : nat) (rows : list (list Q))
  (num_trials : nat) (sigma T y0 a : Q) (nbins : Z) (dt : Q)
  (dW : nat -> nat -> nat -> Q)
  : result (list traces * list (list (list Z))) :=
  match rows with
  | [] => Ok ([], [])
  | mu :: rows' =>
      '(x_traces_param, stats_param) <-
        simulate_param mu num_trials sigma T y0 a nbins dt (dW idx_param) ;;
      '(x_traces, stats) <-
        simulator_loop (S idx_param) rows' num_trials sigma T y0 a nbins dt
          dW ;;
      Ok (x_traces_param :: x_traces, stats_param :: stats)
  end.

(** [torch.cat] of a list of tensors: an empty list raises. *)
Definition torch_cat {A : Type} (l : list (list A)) : result (list A) :=
  match l with
  | [] => Raise RuntimeError
  | _ :: _ => Ok (concat l)
  end.

Inductive sim_output : Type :=
| Stats (stats : list (list Z))
| TracesAndStats (x_traces : traces) (stats : list (list Z)).

Definition stats_of (o : sim_output) : list (list Z) :=
  match o with
  | Stats s => s
  | TracesAndStats _ s => s
  end.

(** [simulator(parameters, num_trials, sigma, T, y0, a, return_traces,
    nbins, dt)]; [dW idx_param n i] is the Wiener increment of trial [i] at
    step [n] in the run of parameter [idx_param]. *)
Definition simulator (parameters : py_parameters) (num_trials : nat)
  (sigma T y0 a : Q) (return_traces : bool) (nbins : Z) (dt : Q)
  (dW : nat -> nat -> nat -> Q) : result sim_output :=
  let parameters := coerce_parameters parameters in
  rows <- rows_of parameters ;;
  '(x_traces, stats) <-
    simulator_loop 0 rows num_trials sigma T y0 a nbins dt dW ;;
  x_traces <- torch_cat x_traces ;;
  stats <- torch_cat stats ;;
  if return_traces then Ok (TracesAndStats x_traces stats)
  else Ok (Stats stats).

(** The defaults of the signature. *)
Definition default_num_trials : nat := 100.
Definition default_sigma : Q := 0.2.
Definition default_T : Q := 5.
Definition default_y0 : Q := 0.
Definition default_a : Q := 1.
Definition default_nbins : Z := 20.
Definition default_dt : Q := 0.01.

(** * The extractor and the simulator, in closed form

    The definitions the properties below are stated with. *)

(** ** Crossings, row by row *)

Fixpoint first_true (r : list bool) : option nat :=
  match r with
  | [] => None
  | b :: r' => if b then Some 0 else option_map S (first_true r')
  end.

(** the first time index with [|X(t)| >= a] *)
Definition first_crossing (a : Q) (r : list Q) : option nat :=
  first_true (map (Np.crossed a) r).

(** the forced decision of a trial without crossing *)
Definition force_row (a : Q) (r : list Q) : list Q :=
  match first_crossing a r with
  | Some _ => r
  | None => Np.set_last (a * Np.sign (last r 0%Q))%Q r
  end.

(** reaction time and decision read off a row, when it has a crossing *)
Definition rt_row (a : Q) (tspan r : list Q) : list Q :=
  match first_crossing a r with
  | Some j => [nth j tspan 0%Q]
  | None => []
  end.

Definition decision_row (a : Q) (r : list Q) : list Q :=
  match first_crossing a r with
  | Some j => [Np.sign (nth j r 0%Q)]
  | None => []
  end.

(** the rows of a mask holding a true entry, numbered from [i] *)
Fixpoint decided_from (i : nat) (m : list (list bool)) : list nat :=
  match m with
  | [] => []
  | r :: m' =>
      match first_true r with
      | Some _ => [i]
      | None => []
      end ++ decided_from (S i) m'
  end.

(** the first true column of each such row *)
Definition first_cols (m : list (list bool)) : list nat :=
  flat_map (fun r => match first_true r with Some j => [j] | None => [] end) m.

(** The rows the extractor can index: at least one column, and no more
    columns than the time grid has points. *)
Definition row_ok (tspan r : list Q) : Prop :=
  r <> [] /\ length r <= length tspan.

(** block [k] of a batch cut into blocks of [n] rows *)
Definition block (x : traces) (n k : nat) : traces :=
  firstn n (skipn (k * n) x).

(** A trial is decided once its row, after the forced assignment, has a
    crossing. *)
Definition decided (a : Q) (r : list Q) : Prop :=
  first_crossing a (force_row a r) <> None.

(** The ways the function could surface a degenerate forced decision: it
    raises, or it keeps the trial among the outcomes with the zero decision
    as its flag. *)
Definition surfaces_degeneracy
  (res : result (traces * list (list Q) * list (list Q))) : Prop :=
  match res with
  | Raise _ => True
  | Ok (_, _, decisions) => exists d, In d (concat decisions) /\ (d == 0)%Q
  end.

(** ** Grids, histograms and runs *)

(** the shape of a [linspace] result from its [k]-th point on *)
Definition ramp (start step stop : Q) (k m : nat) : list Q :=
  map (fun i => (inject_Z (Z.of_nat i) * step + start)%Q) (seq k m) ++ [stop].

Fixpoint sumZ (l : list Z) : Z :=
  match l with
  | [] => 0
  | x :: l' => x + sumZ l'
  end.

(** the cumulative counts, edge by edge *)
Fixpoint cum_counts (a : list Q) (bins : list Q) : list Z :=
  match bins with
  | [] => []
  | [b] => [NpHist.searchsorted_right a b]
  | b :: bins' => NpHist.searchsorted_left a b :: cum_counts a bins'
  end.

(** the time grid of a run with [n >= 2] steps *)
Definition time_grid (T : Q) (n : Z) : list Q :=
  ramp 0 ((T - 0) / inject_Z (Z.of_nat (Z.to_nat n - 1))) T 0 (Z.to_nat n - 1).

(** the trajectories of one parameter before the decisions are forced, one
    row per trial *)
Definition euler_paths (mu0 : Q) (num_trials : nat) (sigma T y0 : Q) (n : Z)
  (dW : nat -> nat -> Q) : traces :=
  let tspan := time_grid T n in
  let h := ((last tspan 0 - hd 0 tspan)
            / inject_Z (Z.of_nat (length tspan - 1)))%Q in
  transpose num_trials
    (Sdeint.euler_rows (repeat mu0 num_trials) (map (Qmult sigma)) h dW
       num_trials 0 (length tspan - 1) (repeat (y0 * 1)%Q num_trials)).

(** reaction times marked with the sign of the decision *)
Definition signed_rts (a : Q) (tspan : list Q) (x : traces) : list Q :=
  map (fun p => (fst p * snd p)%Q)
      (combine (flat_map (rt_row a tspan) x) (flat_map (decision_row a) x)).

Definition all_zero (r : list Q) : Prop := Forall (fun v => (v == 0)%Q) r.

(** the counts of one parameter: one per bin, none negative, [num_trials]
    in total *)
Definition conserved (num_trials : nat) (nbins : Z) (h : list Z) : Prop :=
  length h = Z.to_nat nbins - 1
  /\ Forall (fun c => (0 <= c)%Z) h
  /\ sumZ h = Z.of_nat num_trials.

(** ** Rejection ABC *)

(** [rejection_abc] as the notebook has it: a signature, a comment that
    leaves the body to the reader, and [return samples], which reads a name
    that nothing binds.  [prior n] stands for the batch drawn by [prior(n)],
    [simulator ps] for the summary vectors simulated for the batch [ps]. *)
Definition rejection_abc_stub {Param Summary : Type}
  (prior : nat -> list Param) (simulator : list Param -> list Summary)
  (observed_data : Summary) (num_simulations : Z)
  (distance_fun : Summary -> Summary -> Q) (q : Q) : result (list Param) :=
  Raise NameError.

Inductive abc_error : Set := InvalidConfiguration.

Inductive abc_outcome (Param : Type) : Type :=
| Accepted (samples : list Param)
| Failed (e : abc_error).

Arguments Accepted {Param} samples.
Arguments Failed {Param} e.

(** What a call does with the callables: [prior(n)], [simulator] on a
    batch of [n] parameters, [distance_fun] on [n] summary vectors. *)
Inductive abc_step : Set :=
| DrawPrior (n : nat)
| Simulate (n : nat)
| Score (n : nat).

(** The steps of the modelled body are computations that call the
    callables: from the calls made so far, oldest first, to a value and the
    calls made once it is there. *)
Definition abc_run (A : Type) : Type := list abc_step -> A * list abc_step.

Definition abc_ret {A : Type} (v : A) : abc_run A := fun log => (v, log).

Definition abc_bind {A B : Type} (m : abc_run A) (k : A -> abc_run B)
  : abc_run B :=
  fun log => let '(v, log') := m log in k v log'.

Definition draw_prior {Param : Type} (prior : nat -> list Param) (n : nat)
  : abc_run (list Param) :=
  fun log => (prior n, log ++ [DrawPrior n]).

Definition simulate_batch {Param Summary : Type}
  (simulator : list Param -> list Summary) (params : list Param)
  : abc_run (list Summary) :=
  fun log => (simulator params, log ++ [Simulate (length params)]).

Definition score_batch {Param Summary : Type}
  (distance_fun : Summary -> Summary -> Q) (observed : Summary)
  (params : list Param) (summaries : list Summary)
  : abc_run (list (Param * Q)) :=
  fun log =>
    (combine params (map (distance_fun observed) summaries),
     log ++ [Score (length summaries)]).

Definition valid_configuration (budget : Z) (q : Q) : bool :=
  (1 <=? budget)%Z && negb (Qle_bool q 0) && Qle_bool q 1.

(** a stable sort, ascending in the distance *)
Fixpoint insert_by_distance {Param : Type} (x : Param * Q)
  (l : list (Param * Q)) : list (Param * Q) :=
  match l with
  | [] => [x]
  | y :: l' =>
      if Qle_bool (snd x) (snd y) then x :: l
      else y :: insert_by_distance x l'
  end.

Definition sort_by_distance {Param : Type} (l : list (Param * Q))
  : list (Param * Q) :=
  fold_right insert_by_distance [] l.

(** every drawn parameter with its distance to the observation, in the
    order of simulation *)
Definition scored {Param Summary : Type} (prior : nat -> list Param)
  (simulator : list Param -> list Summary) (observed : Summary) (budget : Z)
  (distance_fun : Summary -> Summary -> Q) : list (Param * Q) :=
  let params := prior (Z.to_nat budget) in
  combine params (map (distance_fun observed) (simulator params)).

Definition acceptance_count (budget : Z) (q : Q) : nat :=
  Z.to_nat (Qfloor (inject_Z budget * q)).

(** Modelled from the spec: the body of [rejection_abc], which the notebook
    leaves to the reader.  A budget below 1 or a quantile outside (0, 1]
    fails with [InvalidConfiguration] before anything is drawn.  Otherwise
    [budget] parameters are drawn from the prior, summary statistics are
    simulated for all of them, the distance of each to the observation is
    computed with the caller's metric, the parameters are sorted by
    ascending distance with a stable sort, and the first
    [floor(budget * q)] are returned.  The second component is the record
    of the calls made to the three callables, as they were made. *)
Definition rejection_abc {Param Summary : Type} (prior : nat -> list Param)
  (simulator : list Param -> list Summary) (observed : Summary) (budget : Z)
  (distance_fun : Summary -> Summary -> Q) (q : Q)
  : abc_outcome Param * list abc_step :=
  if valid_configuration budget q then
    abc_bind (draw_prior prior (Z.to_nat budget)) (fun params =>
    abc_bind (simulate_batch simulator params) (fun summaries =>
    abc_bind (score_batch distance_fun observed params summaries)
      (fun distances =>
    abc_ret
      (Accepted
         (map fst
            (firstn (acceptance_count budget q)
               (sort_by_distance distances)))))))
      []
  else (Failed InvalidConfiguration, []).

Definition closer {Param : Type} (x y : Param * Q) : Prop :=
  (snd x <= snd y)%Q.

Definition at_distance {Param : Type} (d : Q) (x : Param * Q) : bool :=
  Qeq_bool (snd x) d.

(** The notebook's Euclidean metric returns a square root; the examples
    score with the absolute difference of scalar summaries. *)
Definition ramp_prior (n : nat) : list Q :=
  map (fun i => inject_Z (Z.of_nat i)) (seq 0 n).

Definition identity_simulator (ps : list Q) : list Q := ps.

Definition abs_distance (observed simulated : Q) : Q :=
  Qabs (observed - simulated).

(** ** [prior]

    [torch.distributions.Uniform(low, high).sample] draws [rand] uniformly
    in [0, 1) and returns [low + rand * (high - low)]; after [expand([1])],
    [sample((num_samples,))] has one row of one entry per sample.  [rand i]
    is the draw of sample [i]. *)
Definition prior (num_samples : nat) (rand : nat -> Q) : list (list Q) :=
  map (fun i => [(- (2) + rand i * (2 - - (2)))%Q]) (seq 0 num_samples).

(** ** Counting trials and samples *)

(** a trial with some [|X(t)| >= a] *)
Definition has_crossing (a : Q) (r : list Q) : bool :=
  existsb (Np.crossed a) r.

(** a trial that crosses by itself or ends away from zero *)
Definition decides (a : Q) (r : list Q) : bool :=
  has_crossing a r || negb (Qeq_bool (last r 0%Q) 0).

(** [rts * decisions] on one row *)
Definition sign_rts_row (rt decision : list Q) : list Q :=
  map (fun p => (fst p * snd p)%Q) (combine rt decision).

(** a sample between the outer bin edges [-T] and [T] *)
Definition within (T v : Q) : bool := Qle_bool (- T) v && Qle_bool v T.

(** Two arrays of the same shape: as many rows, every row of both of
    length [m]. *)
Definition same_shape (m : nat) (rts decisions : list (list Q)) : Prop :=
  Forall2 (fun r d => length r = m /\ length d = m) rts decisions.

(** a sample of the bin with the edges [lo] and [hi]: closed on the left,
    open on the right unless the bin is the last one *)
Definition in_bin (last_bin : bool) (lo hi v : Q) : bool :=
  Qle_bool lo v && (if last_bin then Qle_bool v hi else negb (Qle_bool hi v)).

(** * Properties *)

(** ** The model on small inputs *)

Example find_decided :
  find_rts_and_decisions [[0; 0.5; 1.2; 0.3]; [0; -0.4; -0.9; -1]]%Q 1 2
                         [0; 1; 2; 3]%Q 1
  = Ok ([[0; 0.5; 1.2; 0.3]; [0; -0.4; -0.9; -1]]%Q, [[2; 3]]%Q, [[1; -1]]%Q).
Proof. reflexivity. Qed.

Example find_forced :
  find_rts_and_decisions [[0; 0.5; 0.2]; [0; -0.4; -0.9]]%Q 1 2
                         [0; 1; 2]%Q 1
  = Ok ([[0; 0.5; 1 * 1]; [0; -0.4; 1 * -1]]%Q, [[2; 2]]%Q, [[1; -1]]%Q).
Proof. reflexivity. Qed.

Example find_two_parameters :
  find_rts_and_decisions
    [[0; 1.5]; [0; 0.2]; [-2; 0]; [0; -0.1]]%Q 2 2 [0; 1]%Q 1
  = Ok ([[0; 1.5]; [0; 1 * 1]; [-2; 0]; [0; 1 * -1]]%Q,
        [[1; 1]; [0; 1]]%Q, [[1; 1]; [-1; -1]]%Q).
Proof. reflexivity. Qed.

Example unique_sorts :
  Np.unique_return_index [3; 1; 3; 0; 1] = ([0; 1; 3], [3; 1; 0]).
Proof. reflexivity. Qed.

Example histogram_example :
  calculate_histogram_stats [[2; 3; 5]]%Q [[1; -1; 1]]%Q 5 5
  = Ok [[1; 0; 1; 1]%Z].
Proof. reflexivity. Qed.

Example simulator_small :
  simulator (PyTensor (Tensor2 [[0.5]; [-0.5]]%Q)) 2 0 4 0 1 false 5 1
            (fun _ _ _ => 0%Q)
  = Ok (Stats [[0; 0; 0; 2]; [2; 0; 0; 0]]%Z).
Proof. vm_compute. reflexivity. Qed.

(** ** Lists and results *)

Section ListFacts.

Context {A B : Type}.

Lemma mapM_app (f : A -> result B) (l1 l2 : list A) (r1 r2 : list B) :
  mapM f l1 = Ok r1 -> mapM f l2 = Ok r2 -> mapM f (l1 ++ l2) = Ok (r1 ++ r2).
Proof.
  revert r1; induction l1 as [|x l1 IH]; intros r1 H1 H2; simpl in *.
  - injection H1 as <-. exact H2.
  - destruct (f x) as [b|e]; simpl in *; [|discriminate].
    destruct (mapM f l1) as [bs|e]; simpl in *; [|discriminate].
    injection H1 as <-. rewrite (IH bs eq_refl H2). reflexivity.
Qed.

Lemma mapM_ext_in (f g : A -> result B) (l : list A) :
  (forall x, In x l -> f x = g x) -> mapM f l = mapM g l.
Proof.
  induction l as [|x l IH]; intros H; simpl; [reflexivity|].
  rewrite (H x (or_introl eq_refl)), IH; [reflexivity|].
  intros y Hy. apply H. right. exact Hy.
Qed.

Lemma mapM_map {C : Type} (f : A -> result B) (g : C -> A) (l : list C) :
  mapM f (map g l) = mapM (fun c => f (g c)) l.
Proof.
  induction l as [|x l IH]; simpl; [reflexivity|]. rewrite IH. reflexivity.
Qed.

Lemma mapM_Ok_map (f : A -> result B) (g : A -> B) (l : list A) :
  (forall x, In x l -> f x = Ok (g x)) -> mapM f l = Ok (map g l).
Proof.
  induction l as [|x l IH]; intros H; simpl; [reflexivity|].
  rewrite (H x (or_introl eq_refl)). simpl.
  rewrite IH; [reflexivity|]. intros y Hy. apply H. right. exact Hy.
Qed.

Lemma mapM_length (f : A -> result B) (l : list A) (r : list B) :
  mapM f l = Ok r -> length r = length l.
Proof.
  revert r; induction l as [|x l IH]; intros r H; simpl in *.
  - injection H as <-. reflexivity.
  - destruct (f x) as [b|e]; simpl in *; [|discriminate].
    destruct (mapM f l) as [bs|e]; simpl in *; [|discriminate].
    injection H as <-. simpl. f_equal. apply IH. reflexivity.
Qed.

Lemma item_app_l (l1 l2 : list A) (i : nat) :
  i < length l1 -> Np.item (l1 ++ l2) i = Np.item l1 i.
Proof.
  intros H. unfold Np.item. rewrite nth_error_app1 by exact H. reflexivity.
Qed.

Lemma item_app_r (l1 l2 : list A) (i : nat) :
  Np.item (l1 ++ l2) (length l1 + i) = Np.item l2 i.
Proof.
  unfold Np.item. rewrite nth_error_app2 by lia.
  replace (length l1 + i - length l1) with i by lia. reflexivity.
Qed.

Lemma item_nth (l : list A) (i : nat) (d : A) :
  i < length l -> Np.item l i = Ok (nth i l d).
Proof.
  intros H. unfold Np.item.
  rewrite (nth_error_nth' l d H). reflexivity.
Qed.

Lemma imap_from_nth (f : nat -> A -> B) (g : A -> B) (d : A) (l : list A) :
  forall i,
    (forall k, k < length l -> f (i + k) (nth k l d) = g (nth k l d)) ->
    Np.imap_from i f l = map g l.
Proof.
  induction l as [|x l IH]; intros i H; simpl; [reflexivity|].
  f_equal.
  - specialize (H 0). simpl in H. rewrite Nat.add_0_r in H. apply H. lia.
  - apply IH. intros k Hk. specialize (H (S k)). simpl in H.
    rewrite Nat.add_succ_r in H. apply H. lia.
Qed.

Lemma set_last_length (v : A) (r : list A) :
  length (Np.set_last v r) = length r.
Proof.
  induction r as [|u r IH]; [reflexivity|].
  destruct r as [|w r]; [reflexivity|].
  change (S (length (Np.set_last v (w :: r))) = S (length (w :: r))).
  rewrite IH. reflexivity.
Qed.

Lemma set_last_snoc (v : A) (r : list A) :
  r <> [] -> Np.set_last v r = removelast r ++ [v].
Proof.
  induction r as [|u r IH]; intros H; [contradiction|].
  destruct r as [|w r]; [reflexivity|].
  change (u :: Np.set_last v (w :: r) = u :: (removelast (w :: r) ++ [v])).
  rewrite IH by discriminate. reflexivity.
Qed.

End ListFacts.

(** ** Crossings, row by row *)

Lemma first_true_lt (r : list bool) (j : nat) :
  first_true r = Some j -> j < length r.
Proof.
  revert j; induction r as [|b r IH]; intros j H; simpl in *; [discriminate|].
  destruct b.
  - injection H as <-. lia.
  - destruct (first_true r) as [k|]; simpl in H; [|discriminate].
    injection H as <-. specialize (IH k eq_refl). lia.
Qed.

Lemma first_true_nth (r : list bool) (j : nat) :
  first_true r = Some j -> nth j r false = true.
Proof.
  revert j; induction r as [|b r IH]; intros j H; simpl in *; [discriminate|].
  destruct b.
  - injection H as <-. reflexivity.
  - destruct (first_true r) as [k|]; simpl in H; [|discriminate].
    injection H as <-. apply IH. reflexivity.
Qed.

Lemma first_true_before (r : list bool) (j k : nat) :
  first_true r = Some j -> k < j -> nth k r false = false.
Proof.
  revert j k; induction r as [|b r IH]; intros j k H Hk; simpl in *;
    [discriminate|].
  destruct b.
  - injection H as <-. lia.
  - destruct (first_true r) as [j'|]; simpl in H; [|discriminate].
    injection H as <-. destruct k as [|k]; [reflexivity|].
    apply (IH j'); [reflexivity|lia].
Qed.

Lemma first_true_None (r : list bool) :
  first_true r = None <-> forall k, nth k r false = false.
Proof.
  induction r as [|b r IH]; simpl.
  - split; [intros _ [|k]; reflexivity|reflexivity].
  - destruct b.
    + split; [discriminate|]. intros H. specialize (H 0). discriminate.
    + destruct (first_true r) as [j|]; simpl.
      * split; [discriminate|]. intros H.
        assert (Hn : Some j = None); [|discriminate Hn].
        apply IH. intros k. apply (H (S k)).
      * split; [|reflexivity]. intros _ [|k]; [reflexivity|].
        apply IH. reflexivity.
Qed.

Lemma nonzero_row_None (i j : nat) (r : list bool) :
  first_true r = None -> Np.nonzero_row i j r = [].
Proof.
  revert j; induction r as [|b r IH]; intros j H; simpl in *; [reflexivity|].
  destruct b; [discriminate|].
  destruct (first_true r); [discriminate|]. apply IH. reflexivity.
Qed.

Lemma nonzero_row_Some (i j0 : nat) (r : list bool) (j : nat) :
  first_true r = Some j ->
  exists rest, Np.nonzero_row i j0 r = (i, j0 + j) :: rest.
Proof.
  revert j0 j; induction r as [|b r IH]; intros j0 j H; simpl in *;
    [discriminate|].
  destruct b.
  - injection H as <-. rewrite Nat.add_0_r. eexists. reflexivity.
  - destruct (first_true r) as [k|]; simpl in H; [|discriminate].
    injection H as <-. destruct (IH (S j0) k eq_refl) as [rest Hr].
    exists rest. simpl. rewrite Hr. f_equal. f_equal. lia.
Qed.

Lemma nonzero_row_fst (i j : nat) (r : list bool) :
  Forall (fun v => v = i) (map fst (Np.nonzero_row i j r)).
Proof.
  revert j; induction r as [|b r IH]; intros j; simpl; [constructor|].
  destruct b; simpl; [constructor; [reflexivity|]|]; apply IH.
Qed.

Lemma decided_from_ge (i : nat) (m : list (list bool)) :
  Forall (fun v => i <= v) (decided_from i m).
Proof.
  revert i; induction m as [|r m IH]; intros i; simpl; [constructor|].
  apply Forall_app; split.
  - destruct (first_true r); repeat constructor.
  - eapply Forall_impl; [|apply (IH (S i))]. simpl. intros; lia.
Qed.

Lemma decided_from_In (m : list (list bool)) :
  forall i v,
    In v (decided_from i m) <->
    exists k, v = i + k /\ k < length m /\ first_true (nth k m []) <> None.
Proof.
  induction m as [|r m IH]; intros i v; simpl.
  - split; [contradiction|]. intros (k & _ & Hk & _). lia.
  - rewrite in_app_iff, IH. split.
    + intros [H|(k & -> & Hk & Hn)].
      * destruct (first_true r) as [j|] eqn:E; [|contradiction].
        destruct H as [<-|[]]. exists 0. rewrite Nat.add_0_r.
        repeat split; [lia|]. rewrite E. discriminate.
      * exists (S k). repeat split; [lia|lia|exact Hn].
    + intros (k & -> & Hk & Hn). destruct k as [|k].
      * left. destruct (first_true r); [|contradiction].
        left. lia.
      * right. exists k. repeat split; [lia|lia|exact Hn].
Qed.

(** [np.unique] of the row indices is the list of decided rows. *)
Lemma insert_unique_below (i : nat) (u : list nat) :
  Forall (fun v => i < v) u -> Np.insert_unique i u = i :: u.
Proof.
  intros H. destruct u as [|m u]; [reflexivity|]. simpl.
  inversion H as [|? ? Hm _]; subst.
  destruct (Nat.compare_spec i m); [lia|reflexivity|lia].
Qed.

Lemma insert_unique_head (i : nat) (u : list nat) :
  Np.insert_unique i (i :: u) = i :: u.
Proof. simpl. rewrite Nat.compare_refl. reflexivity. Qed.

Lemma unique_app (l1 l2 : list nat) :
  Np.unique (l1 ++ l2) = fold_right Np.insert_unique (Np.unique l2) l1.
Proof. unfold Np.unique. apply fold_right_app. Qed.

Lemma unique_block (i : nat) (l1 : list nat) (u : list nat) :
  Forall (fun v => v = i) l1 -> Forall (fun v => i < v) u ->
  fold_right Np.insert_unique u l1 =
    match l1 with [] => u | _ :: _ => i :: u end.
Proof.
  intros H1 Hu. induction H1 as [|x l1 -> _ IH]; [reflexivity|].
  simpl. rewrite IH. destruct l1.
  - apply insert_unique_below. exact Hu.
  - apply insert_unique_head.
Qed.

Lemma unique_nonzero (m : list (list bool)) :
  forall i, Np.unique (map fst (Np.nonzero_from i m)) = decided_from i m.
Proof.
  induction m as [|r m IH]; intros i; simpl; [reflexivity|].
  rewrite map_app, unique_app, IH.
  rewrite (unique_block i).
  - destruct (first_true r) as [j|] eqn:E.
    + destruct (nonzero_row_Some i 0 r j E) as [rest ->]. reflexivity.
    + rewrite (nonzero_row_None i 0 r E). reflexivity.
  - apply nonzero_row_fst.
  - eapply Forall_impl; [|apply (decided_from_ge (S i))]. simpl. intros; lia.
Qed.

(** [cols[trial_idx]]: the first true column of every decided row. *)
Lemma index_of_app_r (v : nat) (l1 l2 : list nat) :
  ~ In v l1 -> Np.index_of v (l1 ++ l2) = length l1 + Np.index_of v l2.
Proof.
  induction l1 as [|x l1 IH]; intros H; simpl; [reflexivity|].
  destruct (Nat.eqb_spec v x) as [->|_].
  - exfalso. apply H. left. reflexivity.
  - rewrite IH; [reflexivity|]. intros Hi. apply H. right. exact Hi.
Qed.

Lemma take_first_cols (m : list (list bool)) :
  forall i,
    let nz := Np.nonzero_from i m in
    Np.take (map snd nz)
      (map (fun v => Np.index_of v (map fst nz)) (decided_from i m))
    = Ok (first_cols m).
Proof.
  induction m as [|r m IH]; intros i; simpl; [reflexivity|].
  unfold Np.take in *. rewrite !map_app.
  set (rr := map fst (Np.nonzero_row i 0 r)).
  set (cr := map snd (Np.nonzero_row i 0 r)).
  set (rows' := map fst (Np.nonzero_from (S i) m)).
  set (cols' := map snd (Np.nonzero_from (S i) m)).
  assert (Hlen : length rr = length cr)
    by (unfold rr, cr; rewrite !length_map; reflexivity).
  apply mapM_app.
  - destruct (first_true r) as [j|] eqn:E; [|reflexivity].
    destruct (nonzero_row_Some i 0 r j E) as [rest Hr].
    unfold rr, cr. rewrite Hr. simpl. rewrite Nat.eqb_refl. reflexivity.
  - rewrite mapM_map. rewrite <- (IH (S i)). fold rows' cols'.
    rewrite mapM_map. apply mapM_ext_in. intros v Hv.
    assert (Hge : S i <= v).
    { pose proof (decided_from_ge (S i) m) as F.
      rewrite Forall_forall in F. apply F. exact Hv. }
    rewrite index_of_app_r.
    + rewrite Hlen. apply item_app_r.
    + intros Hin. pose proof (nonzero_row_fst i 0 r) as F.
      rewrite Forall_forall in F. specialize (F v Hin). lia.
Qed.

(** [x[unique_rows, decision_idx]]: the entry at the first crossing. *)
Lemma combine_app {A B : Type} (l1 l2 : list A) (k1 k2 : list B) :
  length l1 = length k1 ->
  combine (l1 ++ l2) (k1 ++ k2) = combine l1 k1 ++ combine l2 k2.
Proof.
  revert k1; induction l1 as [|x l1 IH]; intros [|y k1] H; simpl in *;
    try discriminate; [reflexivity|].
  rewrite IH by lia. reflexivity.
Qed.

Lemma take2_first_cols (a : Q) (x : traces) :
  forall pre : traces,
    Np.take2 (pre ++ x) (decided_from (length pre) (Np.abs_ge a x))
      (first_cols (Np.abs_ge a x))
    = Ok (flat_map
            (fun r => match first_crossing a r with
                      | Some j => [nth j r 0%Q]
                      | None => []
                      end) x).
Proof.
  induction x as [|r x IH]; intros pre; [reflexivity|].
  unfold Np.take2 in *. simpl.
  rewrite combine_app
    by (destruct (first_true (map (Np.crossed a) r)); reflexivity).
  apply mapM_app.
  - unfold first_crossing.
    destruct (first_true (map (Np.crossed a) r)) as [j|] eqn:E; [|reflexivity].
    simpl. replace (length pre) with (length pre + 0) by lia.
    rewrite item_app_r. simpl.
    apply first_true_lt in E. rewrite length_map in E.
    rewrite (item_nth r j 0%Q E). reflexivity.
  - specialize (IH (pre ++ [r])).
    rewrite <- app_assoc, length_app in IH. simpl in IH.
    rewrite Nat.add_1_r in IH. exact IH.
Qed.

(** [tspan[decision_idx]] *)
Lemma take_tspan (a : Q) (tspan : list Q) (x : traces) :
  Forall (fun r => length r <= length tspan) x ->
  Np.take tspan (first_cols (Np.abs_ge a x)) = Ok (flat_map (rt_row a tspan) x).
Proof.
  intros H. induction H as [|r x Hr _ IH]; [reflexivity|].
  unfold Np.take in *. simpl. apply mapM_app; [|exact IH].
  unfold rt_row, first_crossing.
  destruct (first_true (map (Np.crossed a) r)) as [j|] eqn:E; [|reflexivity].
  simpl. apply first_true_lt in E. rewrite length_map in E.
  rewrite (item_nth tspan j 0%Q) by lia. reflexivity.
Qed.

(** The forced assignment rewrites exactly the rows without crossing. *)
Lemma contains_In (l : list nat) (i : nat) :
  Np.contains l i = true <-> In i l.
Proof.
  unfold Np.contains. rewrite existsb_exists. split.
  - intros (v & Hv & E). apply Nat.eqb_eq in E. subst. exact Hv.
  - intros H. exists i. split; [exact H|apply Nat.eqb_refl].
Qed.

Lemma undecided_In (a : Q) (x : traces) (num_trials k : nat) :
  length x = num_trials ->
  In k (filter (fun i => negb (Np.contains (decided_from 0 (Np.abs_ge a x)) i))
          (seq 0 num_trials))
  <-> k < length x /\ first_crossing a (nth k x []) = None.
Proof.
  intros Hlen. rewrite filter_In, in_seq, negb_true_iff.
  rewrite <- Hlen. unfold first_crossing, Np.abs_ge.
  assert (Hc : forall k, k < length x ->
            (Np.contains (decided_from 0 (map (map (Np.crossed a)) x)) k = false
             <-> first_true (map (Np.crossed a) (nth k x [])) = None)).
  { clear k. intros k Hk. rewrite <- not_true_iff_false, contains_In.
    rewrite decided_from_In, length_map. split.
    - intros Hn. destruct (first_true _) eqn:E; [|reflexivity].
      exfalso. apply Hn. exists k. repeat split; [exact Hk|].
      change (@nil bool) with (map (Np.crossed a) []).
      rewrite map_nth, E. discriminate.
    - intros E (k' & Hk' & _ & Hn). simpl in Hk'. subst k'.
      apply Hn. change (@nil bool) with (map (Np.crossed a) []).
      rewrite map_nth. exact E. }
  split.
  - intros [[_ Hk] Hn]. simpl in Hk. split; [exact Hk|].
    apply Hc; assumption.
  - intros [Hk Hn]. split; [lia|]. apply Hc; assumption.
Qed.

Lemma update_last_col_undecided (a : Q) (x : traces) (num_trials : nat) :
  length x = num_trials ->
  Forall (fun r => r <> []) x ->
  Np.update_last_col x
    (filter (fun i => negb (Np.contains (decided_from 0 (Np.abs_ge a x)) i))
       (seq 0 num_trials))
    (fun v => (a * Np.sign v)%Q)
  = Ok (map (force_row a) x).
Proof.
  intros Hlen Hne. unfold Np.update_last_col.
  set (idx := filter _ _).
  assert (Hidx : forall k, In k idx <->
                   k < length x /\ first_crossing a (nth k x []) = None)
    by (intros k; apply undecided_In; exact Hlen).
  replace (existsb (fun i => length x <=? i) idx) with false.
  2:{ symmetry. apply not_true_iff_false. rewrite existsb_exists.
      intros (k & Hk & Hle). apply Hidx in Hk. apply Nat.leb_le in Hle. lia. }
  replace (existsb _ idx) with false.
  2:{ symmetry. apply not_true_iff_false. rewrite existsb_exists.
      intros (k & Hk & He). apply Hidx in Hk. destruct Hk as [Hk _].
      rewrite Forall_forall in Hne.
      specialize (Hne (nth k x []) (nth_In x [] Hk)).
      destruct (nth k x []); [contradiction|discriminate]. }
  f_equal. apply (imap_from_nth _ _ []). intros k Hk. simpl.
  unfold force_row.
  destruct (Np.contains idx k) eqn:E.
  - apply contains_In, Hidx in E. destruct E as [_ ->]. reflexivity.
  - destruct (first_crossing a (nth k x [])) eqn:F; [reflexivity|].
    exfalso. apply not_true_iff_false in E. apply E, contains_In, Hidx.
    split; assumption.
Qed.

(** ** One parameter's block *)

Lemma force_row_length (a : Q) (r : list Q) :
  length (force_row a r) = length r.
Proof.
  unfold force_row. destruct (first_crossing a r); [reflexivity|].
  apply set_last_length.
Qed.

Lemma decide_param_spec (x : traces) (num_trials : nat) (tspan : list Q)
  (a : Q) :
  length x = num_trials ->
  Forall (row_ok tspan) x ->
  decide_param x num_trials tspan a
  = Ok (map (force_row a) x,
        flat_map (rt_row a tspan) (map (force_row a) x),
        flat_map (decision_row a) (map (force_row a) x)).
Proof.
  intros Hlen Hok. unfold decide_param, Np.nonzero.
  rewrite unique_nonzero.
  rewrite update_last_col_undecided;
    [|exact Hlen|eapply Forall_impl; [|exact Hok]; intros r [H _]; exact H].
  simpl. set (x' := map (force_row a) x).
  unfold Np.unique_return_index. rewrite unique_nonzero.
  pose proof (take_first_cols (Np.abs_ge a x') 0) as Hcols.
  pose proof (take2_first_cols a x' []) as Hvals.
  cbn zeta in Hcols. cbn [app length] in Hvals.
  rewrite Hcols. cbn [bind]. rewrite Hvals. cbn [bind].
  rewrite take_tspan.
  - simpl. f_equal. f_equal.
    unfold decision_row. clear. induction x' as [|r x' IH]; [reflexivity|].
    simpl. rewrite map_app, IH. destruct (first_crossing a r); reflexivity.
  - unfold x'. rewrite Forall_map. eapply Forall_impl; [|exact Hok].
    intros r [_ H]. rewrite force_row_length. exact H.
Qed.

(** ** The loop over parameters *)

Lemma slice_block {A : Type} (x : list A) (k n : nat) :
  Np.slice x (k * n) ((k + 1) * n) = firstn n (skipn (k * n) x).
Proof. unfold Np.slice. f_equal. lia. Qed.

Lemma firstn_succ_block {A : Type} (x : list A) (k n : nat) :
  firstn ((k + 1) * n) x = firstn (k * n) x ++ firstn n (skipn (k * n) x).
Proof.
  replace ((k + 1) * n) with (k * n + n) by lia.
  rewrite <- (firstn_skipn (k * n) x) at 1.
  rewrite firstn_app. rewrite length_firstn.
  destruct (Nat.le_gt_cases (k * n) (length x)) as [H|H].
  - rewrite Nat.min_l by exact H.
    rewrite firstn_all2 by (rewrite length_firstn; lia).
    f_equal. f_equal. lia.
  - rewrite Nat.min_r by lia.
    rewrite (skipn_all2 x) by lia. rewrite !firstn_nil, !app_nil_r.
    apply firstn_all2. rewrite length_firstn. lia.
Qed.

Lemma block_In (x : traces) (n k : nat) (r : list Q) :
  In r (block x n k) -> In r x.
Proof.
  unfold block. intros H.
  rewrite <- (firstn_skipn (k * n) x). apply in_or_app. right.
  rewrite <- (firstn_skipn n (skipn (k * n) x)). apply in_or_app. left.
  exact H.
Qed.

Lemma find_loop_spec (x0 : traces) (num_trials : nat) (tspan : list Q) (a : Q) :
  Forall (row_ok tspan) x0 ->
  forall count k rts decisions,
    length x0 = (k + count) * num_trials ->
    find_loop (seq k count)
      (map (force_row a) (firstn (k * num_trials) x0)
         ++ skipn (k * num_trials) x0)
      num_trials tspan a rts decisions
    = Ok (map (force_row a) x0,
          rts ++ map (fun p => flat_map (rt_row a tspan)
                                 (map (force_row a) (block x0 num_trials p)))
                     (seq k count),
          decisions ++ map (fun p => flat_map (decision_row a)
                                 (map (force_row a) (block x0 num_trials p)))
                     (seq k count)).
Proof.
  intros Hok. induction count as [|count IH]; intros k rts decisions Hlen.
  - simpl. rewrite !app_nil_r.
    replace (k * num_trials) with (length x0) by lia.
    rewrite firstn_all, skipn_all, app_nil_r. reflexivity.
  - simpl seq. cbn [find_loop].
    set (lo := k * num_trials).
    set (done := map (force_row a) (firstn lo x0)).
    assert (Hlo : lo <= length x0) by (unfold lo; nia).
    assert (Hdone : length done = lo).
    { unfold done. rewrite length_map, length_firstn. lia. }
    assert (Hslice : Np.slice (done ++ skipn lo x0) lo ((k + 1) * num_trials)
                     = block x0 num_trials k).
    { unfold lo. rewrite slice_block. fold lo. unfold block. fold lo.
      rewrite skipn_app, Hdone, Nat.sub_diag.
      rewrite skipn_all2 by lia. reflexivity. }
    rewrite Hslice.
    assert (Hblen : length (block x0 num_trials k) = num_trials).
    { unfold block. rewrite length_firstn, length_skipn. nia. }
    rewrite decide_param_spec; [|exact Hblen|].
    2:{ apply Forall_forall. intros r Hr.
        rewrite Forall_forall in Hok. apply Hok.
        eapply block_In. exact Hr. }
    cbn [bind].
    assert (Hw : Np.write_slice (done ++ skipn lo x0) lo
                   (map (force_row a) (block x0 num_trials k))
                 = map (force_row a) (firstn (S k * num_trials) x0)
                     ++ skipn (S k * num_trials) x0).
    { unfold Np.write_slice. rewrite length_map, Hblen.
      rewrite firstn_app, Hdone, Nat.sub_diag. simpl firstn at 2.
      rewrite app_nil_r. rewrite firstn_all2 by lia.
      rewrite skipn_app, Hdone.
      replace (lo + num_trials - lo) with num_trials by lia.
      rewrite (skipn_all2 done) by lia. simpl app at 2.
      rewrite skipn_skipn.
      replace (S k * num_trials) with ((k + 1) * num_trials) by lia.
      rewrite firstn_succ_block, map_app. fold lo. unfold block. fold lo.
      rewrite <- app_assoc. f_equal. f_equal. f_equal. lia. }
    rewrite Hw. rewrite IH by lia.
    rewrite <- !app_assoc. reflexivity.
Qed.

(** The extractor in closed form: under the shape assertion and on rows it
    can index, it returns the batch with every trial forced, and per block
    the reaction times and decisions of the trials that have a crossing. *)
Lemma find_rts_and_decisions_spec (x : traces) (num_parameters num_trials : nat)
  (tspan : list Q) (a : Q) :
  length x = num_parameters * num_trials ->
  Forall (row_ok tspan) x ->
  find_rts_and_decisions x num_parameters num_trials tspan a
  = Ok (map (force_row a) x,
        map (fun p => flat_map (rt_row a tspan)
                        (map (force_row a) (block x num_trials p)))
            (seq 0 num_parameters),
        map (fun p => flat_map (decision_row a)
                        (map (force_row a) (block x num_trials p)))
            (seq 0 num_parameters)).
Proof.
  intros Hlen Hok. unfold find_rts_and_decisions.
  rewrite Hlen, Nat.eqb_refl.
  exact (find_loop_spec x num_trials tspan a Hok num_parameters 0 [] [] Hlen).
Qed.

(** With one parameter, as [simulator] calls the function, the conversion
    of the two lists to arrays changes nothing, whatever the call does. *)
Lemma find_rts_and_decisions_arrays_one (x : traces) (num_trials : nat)
  (tspan : list Q) (a : Q) :
  find_rts_and_decisions_arrays x 1 num_trials tspan a
  = find_rts_and_decisions x 1 num_trials tspan a.
Proof.
  unfold find_rts_and_decisions_arrays, find_rts_and_decisions.
  destruct (length x =? 1 * num_trials); [|reflexivity].
  cbn [seq find_loop].
  destruct (decide_param (Np.slice x (0 * num_trials) ((0 + 1) * num_trials))
              num_trials tspan a) as [[[xp rt] dec]|e]; reflexivity.
Qed.

(** ** What the extractor can raise *)

Lemma mapM_Raise {A B : Type} (f : A -> result B) (l : list A) (e : exn) :
  mapM f l = Raise e -> exists x, In x l /\ f x = Raise e.
Proof.
  induction l as [|x l IH]; simpl; [discriminate|].
  destruct (f x) as [b|e'] eqn:E; simpl.
  - destruct (mapM f l) as [bs|e'']; simpl; [discriminate|].
    intros H. injection H as ->. destruct (IH eq_refl) as (y & Hy & Ey).
    exists y. split; [right; exact Hy|exact Ey].
  - intros H. injection H as ->. exists x. split; [left; reflexivity|exact E].
Qed.

Lemma item_Raise {A : Type} (l : list A) (i : nat) (e : exn) :
  Np.item l i = Raise e -> e = IndexError.
Proof.
  unfold Np.item. destruct (nth_error l i); [discriminate|].
  intros H. injection H as <-. reflexivity.
Qed.

Lemma take_Raise {A : Type} (l : list A) (idx : list nat) (e : exn) :
  Np.take l idx = Raise e -> e = IndexError.
Proof.
  intros H. apply mapM_Raise in H. destruct H as (i & _ & H).
  eapply item_Raise. exact H.
Qed.

Lemma take2_Raise {A : Type} (x : list (list A)) (rows cols : list nat)
  (e : exn) :
  Np.take2 x rows cols = Raise e -> e = IndexError.
Proof.
  intros H. apply mapM_Raise in H. destruct H as (rc & _ & H).
  destruct (Np.item x (fst rc)) as [r|e'] eqn:E; simpl in H.
  - eapply item_Raise. exact H.
  - injection H as <-. eapply item_Raise. exact E.
Qed.

Lemma decide_param_Raise (x : traces) (num_trials : nat) (tspan : list Q)
  (a : Q) (e : exn) :
  decide_param x num_trials tspan a = Raise e -> e = IndexError.
Proof.
  unfold decide_param, Np.nonzero, Np.unique_return_index.
  match goal with |- context [Np.update_last_col ?y ?i ?g] =>
    destruct (Np.update_last_col y i g) as [x'|e'] eqn:U end; simpl.
  - match goal with |- context [Np.take ?c ?i] =>
      destruct (Np.take c i) as [d|e'] eqn:T1 end; simpl.
    + match goal with |- context [Np.take2 ?y ?r ?c] =>
        destruct (Np.take2 y r c) as [v|e'] eqn:T2 end; simpl.
      * destruct (Np.take tspan d) as [t|e'] eqn:T3; simpl; [discriminate|].
        intros H. injection H as <-. eapply take_Raise. exact T3.
      * intros H. injection H as <-. eapply take2_Raise. exact T2.
    + intros H. injection H as <-. eapply take_Raise. exact T1.
  - intros H. injection H as <-. unfold Np.update_last_col in U.
    repeat match type of U with
           | (if ?c then _ else _) = _ => destruct c
           end; try discriminate; injection U as <-; reflexivity.
Qed.

Lemma find_loop_Raise (params : list nat) (num_trials : nat) (tspan : list Q)
  (a : Q) (e : exn) :
  forall x rts decisions,
    find_loop params x num_trials tspan a rts decisions = Raise e ->
    e = IndexError.
Proof.
  induction params as [|p params IH]; intros x rts decisions; simpl;
    [discriminate|].
  destruct (decide_param _ num_trials tspan a) as [[[x' rt] dec]|e'] eqn:D;
    simpl.
  - apply IH.
  - intros H. injection H as <-. eapply decide_param_Raise. exact D.
Qed.

(** ** The claims on [find_rts_and_decisions] *)

(** C9.  [find_rts_and_decisions] asserts that the number of trajectory rows
    equals [num_parameters * num_trials].  On every input that violates this
    it raises [AssertionError], with no outcome and no update of the array;
    on every input that satisfies it the assertion does not fire: the call
    is the loop over the parameters, which never raises [AssertionError]. *)
Theorem find_rts_and_decisions_shape_assertion
  (x : traces) (num_parameters num_trials : nat) (tspan : list Q) (a : Q) :
  (length x <> num_parameters * num_trials ->
   find_rts_and_decisions x num_parameters num_trials tspan a
   = Raise AssertionError)
  /\
  (length x = num_parameters * num_trials ->
   find_rts_and_decisions x num_parameters num_trials tspan a
   = find_loop (seq 0 num_parameters) x num_trials tspan a [] []
   /\ find_rts_and_decisions x num_parameters num_trials tspan a
      <> Raise AssertionError).
Proof.
  unfold find_rts_and_decisions. split; intros H.
  - apply Nat.eqb_neq in H. rewrite H. reflexivity.
  - rewrite H, Nat.eqb_refl. split; [reflexivity|].
    intros E. apply find_loop_Raise in E. discriminate.
Qed.

Lemma find_rts_and_decisions_shape_assertion_witness :
  (length [[0]; [1]]%Q <> 1 * 1 /\ length [[0]; [1]]%Q = 2 * 1)
  /\ find_rts_and_decisions [[0]; [1]]%Q 1 1 [0]%Q 1 = Raise AssertionError
  /\ find_rts_and_decisions [[0]; [1]]%Q 2 1 [0]%Q 1 <> Raise AssertionError.
Proof.
  split; [split; [discriminate|reflexivity]|]. split.
  - apply (proj1 (find_rts_and_decisions_shape_assertion
                    [[0]; [1]]%Q 1 1 [0]%Q 1)).
    discriminate.
  - apply (proj2 (find_rts_and_decisions_shape_assertion
                    [[0]; [1]]%Q 2 1 [0]%Q 1)).
    reflexivity.
Defined.

Lemma first_crossing_spec (a : Q) (r : list Q) (j : nat) :
  first_crossing a r = Some j ->
  j < length r
  /\ (a <= Qabs (nth j r 0))%Q
  /\ forall k, k < j -> ~ (a <= Qabs (nth k r 0))%Q.
Proof.
  unfold first_crossing. intros H. split; [|split].
  - apply first_true_lt in H. rewrite length_map in H. exact H.
  - pose proof (first_true_lt _ _ H) as Hj. rewrite length_map in Hj.
    apply first_true_nth in H.
    rewrite (nth_indep _ false (Np.crossed a 0)) in H
      by (rewrite length_map; exact Hj).
    rewrite map_nth in H. apply Qle_bool_iff. exact H.
  - intros k Hk Hle.
    pose proof (first_true_lt _ _ H) as Hj. rewrite length_map in Hj.
    pose proof (first_true_before _ _ k H Hk) as Hb.
    rewrite (nth_indep _ false (Np.crossed a 0)) in Hb
      by (rewrite length_map; lia).
    rewrite map_nth in Hb. apply Qle_bool_iff in Hle.
    unfold Np.crossed in Hb. congruence.
Qed.

Lemma first_crossing_None (a : Q) (r : list Q) :
  first_crossing a r = None ->
  forall k, k < length r -> ~ (a <= Qabs (nth k r 0))%Q.
Proof.
  unfold first_crossing. intros H k Hk Hle.
  pose proof (proj1 (first_true_None _) H k) as Hb.
  rewrite (nth_indep _ false (Np.crossed a 0)) in Hb
    by (rewrite length_map; exact Hk).
  rewrite map_nth in Hb. apply Qle_bool_iff in Hle.
  unfold Np.crossed in Hb. congruence.
Qed.

Lemma block_map (f : list Q -> list Q) (x : traces) (n k : nat) :
  block (map f x) n k = map f (block x n k).
Proof. unfold block. rewrite skipn_map, firstn_map. reflexivity. Qed.

Lemma nth_map_seq {A : Type} (f : nat -> A) (n p : nat) (d : A) :
  p < n -> nth p (map f (seq 0 n)) d = f p.
Proof.
  intros H. rewrite (nth_indep _ d (f 0))
    by (rewrite length_map, length_seq; exact H).
  rewrite map_nth, seq_nth by exact H. reflexivity.
Qed.

Lemma nth_force_row (a : Q) (x : traces) (i : nat) :
  nth i (map (force_row a) x) [] = force_row a (nth i x []).
Proof. exact (map_nth (force_row a) x [] i). Qed.

(** C5.  The decision-extraction algorithm, trial by trial.  On a batch that
    passes the shape assertion and whose rows the time grid covers, the call
    returns.  A trial with no time index where [|X(t)| >= a] has the value
    at its final time index replaced by [a * sign(X(T))], every other trial
    is left as it is.  Then, for each parameter, the reaction times and
    decisions are read off the trials of its block in order: a trial whose
    first index with [|X| >= a] is [j] gives the reaction time [tspan[j]]
    and the decision [sign(X[j])]. *)
Theorem decision_extraction_algorithm
  (x : traces) (num_parameters num_trials : nat) (tspan : list Q) (a : Q) :
  length x = num_parameters * num_trials ->
  Forall (row_ok tspan) x ->
  exists x' rts decisions,
    find_rts_and_decisions x num_parameters num_trials tspan a
    = Ok (x', rts, decisions)
    /\ length x' = length x
    /\ (forall i, i < length x ->
          match first_crossing a (nth i x []) with
          | None =>
              (forall k, k < length (nth i x []) ->
                         ~ (a <= Qabs (nth k (nth i x []) 0))%Q)
              /\ nth i x' []
                 = removelast (nth i x [])
                     ++ [(a * Np.sign (last (nth i x []) 0))%Q]
          | Some _ => nth i x' [] = nth i x []
          end)
    /\ (forall p, p < num_parameters ->
          nth p rts [] = flat_map (rt_row a tspan) (block x' num_trials p)
          /\ nth p decisions []
             = flat_map (decision_row a) (block x' num_trials p))
    /\ (forall r j, In r x' -> first_crossing a r = Some j ->
          (a <= Qabs (nth j r 0))%Q
          /\ (forall k, k < j -> ~ (a <= Qabs (nth k r 0))%Q)
          /\ rt_row a tspan r = [nth j tspan 0%Q]
          /\ decision_row a r = [Np.sign (nth j r 0%Q)]).
Proof.
  intros Hlen Hok.
  rewrite (find_rts_and_decisions_spec x num_parameters num_trials tspan a
             Hlen Hok).
  eexists _, _, _. split; [reflexivity|]. split; [apply length_map|].
  split; [|split].
  - intros i Hi. rewrite nth_force_row. unfold force_row.
    destruct (first_crossing a (nth i x [])) eqn:E; [reflexivity|].
    split; [apply first_crossing_None; exact E|].
    apply set_last_snoc. rewrite Forall_forall in Hok.
    apply (Hok (nth i x [])). apply nth_In. exact Hi.
  - intros p Hp. rewrite !nth_map_seq by exact Hp. rewrite block_map.
    split; reflexivity.
  - intros r j _ E. destruct (first_crossing_spec a r j E) as (_ & H1 & H2).
    unfold rt_row, decision_row. rewrite E. repeat split; assumption.
Qed.

Lemma decision_extraction_algorithm_witness :
  (length [[0; 0.5; 0.2]; [0; -0.4; -1.3]]%Q = 1 * 2
   /\ Forall (row_ok [0; 1; 2]%Q) [[0; 0.5; 0.2]; [0; -0.4; -1.3]]%Q)
  /\ exists x' rts decisions,
      find_rts_and_decisions [[0; 0.5; 0.2]; [0; -0.4; -1.3]]%Q 1 2
        [0; 1; 2]%Q 1
      = Ok (x', rts, decisions)
      /\ nth 0 rts [] = flat_map (rt_row 1 [0; 1; 2]%Q) (block x' 2 0).
Proof.
  assert (Hok : Forall (row_ok [0; 1; 2]%Q) [[0; 0.5; 0.2]; [0; -0.4; -1.3]]%Q).
  { repeat constructor; simpl; try discriminate; lia. }
  split; [split; [reflexivity|exact Hok]|].
  destruct (decision_extraction_algorithm
              [[0; 0.5; 0.2]; [0; -0.4; -1.3]]%Q 1 2 [0; 1; 2]%Q 1
              eq_refl Hok)
    as (x' & rts & decisions & E & _ & _ & Hb & _).
  exists x', rts, decisions. split; [exact E|].
  apply (Hb 0). lia.
Defined.

(** ** Decisive and undecided trials *)

Lemma first_true_app_r (l1 l2 : list bool) :
  first_true l2 <> None -> first_true (l1 ++ l2) <> None.
Proof.
  intros H. induction l1 as [|b l1 IH]; [exact H|]. simpl.
  destruct b; [discriminate|].
  destruct (first_true (l1 ++ l2)); [discriminate|contradiction].
Qed.

Lemma sign_cases (v : Q) :
  (v == 0 /\ Np.sign v = 0)%Q
  \/ (0 < v /\ Np.sign v = 1)%Q
  \/ (v < 0 /\ Np.sign v = inject_Z (-1))%Q.
Proof.
  destruct v as [n d]. unfold Np.sign, Qeq, Qlt. simpl.
  destruct n; simpl; [left|right; left|right; right]; split;
    try reflexivity; lia.
Qed.

Lemma crossed_forced (a v : Q) :
  ~ (v == 0)%Q -> Np.crossed a (a * Np.sign v)%Q = true.
Proof.
  intros Hv. unfold Np.crossed. apply Qle_bool_iff.
  rewrite Qabs_Qmult.
  destruct (sign_cases v) as [[H _]|[[_ ->]|[_ ->]]]; [contradiction| |].
  - change (Qabs 1) with 1%Q. rewrite Qmult_1_r. apply Qle_Qabs.
  - change (Qabs (inject_Z (-1))) with 1%Q. rewrite Qmult_1_r. apply Qle_Qabs.
Qed.

Lemma crossed_forced_zero (a v : Q) :
  (0 < a)%Q -> (v == 0)%Q -> Np.crossed a (a * Np.sign v)%Q = false.
Proof.
  intros Ha Hv. unfold Np.crossed. apply not_true_iff_false.
  rewrite Qle_bool_iff.
  destruct (sign_cases v) as [[_ ->]|[[H _]|[H _]]]; [|lra|lra].
  rewrite Qmult_0_r. change (Qabs 0) with 0%Q. lra.
Qed.

Lemma first_true_app_None (l1 l2 : list bool) :
  first_true (l1 ++ l2) = None <->
  first_true l1 = None /\ first_true l2 = None.
Proof.
  induction l1 as [|b l1 IH]; simpl.
  - intuition congruence.
  - destruct b; [intuition congruence|].
    destruct (first_true (l1 ++ l2)), (first_true l1); simpl;
      intuition congruence.
Qed.

Lemma first_crossing_app_None (a : Q) (l1 l2 : list Q) :
  first_crossing a (l1 ++ l2) = None <->
  first_crossing a l1 = None /\ first_crossing a l2 = None.
Proof.
  unfold first_crossing. rewrite map_app. apply first_true_app_None.
Qed.

Lemma removelast_snoc_last (r : list Q) :
  r <> [] -> r = removelast r ++ [last r 0%Q].
Proof. intros H. apply app_removelast_last. exact H. Qed.

(** A trial is decided exactly when it crosses by itself or ends away from
    zero; with a positive boundary, an undecided trial that ends at exactly
    zero stays without crossing. *)
Lemma decided_iff (a : Q) (r : list Q) :
  r <> [] -> (0 < a)%Q ->
  (decided a r <-> first_crossing a r <> None \/ ~ (last r 0 == 0)%Q).
Proof.
  intros Hr Ha. unfold decided, force_row.
  destruct (first_crossing a r) eqn:E.
  - rewrite E. split; [left; discriminate|discriminate].
  - rewrite set_last_snoc by exact Hr.
    rewrite (removelast_snoc_last r Hr) in E.
    apply first_crossing_app_None in E. destruct E as [E1 _].
    split.
    + intros H. right. intros Hz. apply H.
      apply first_crossing_app_None. split; [exact E1|].
      unfold first_crossing. simpl.
      rewrite (crossed_forced_zero a _ Ha Hz). reflexivity.
    + intros [H|H]; [contradiction|].
      unfold first_crossing. rewrite map_app. apply first_true_app_r.
      simpl. rewrite (crossed_forced a _ H). discriminate.
Qed.

Lemma rt_row_length (a : Q) (tspan r : list Q) :
  length (rt_row a tspan r)
  = match first_crossing a r with Some _ => 1 | None => 0 end.
Proof. unfold rt_row. destruct (first_crossing a r); reflexivity. Qed.

Lemma decision_row_length (a : Q) (tspan r : list Q) :
  length (decision_row a r) = length (rt_row a tspan r).
Proof.
  unfold rt_row, decision_row. destruct (first_crossing a r); reflexivity.
Qed.

Lemma outcomes_all_decided (a : Q) (tspan : list Q) (x : traces) :
  Forall (decided a) x ->
  length (flat_map (rt_row a tspan) (map (force_row a) x)) = length x.
Proof.
  induction 1 as [|r x Hr _ IH]; [reflexivity|].
  simpl. rewrite length_app, IH, rt_row_length.
  unfold decided in Hr. destruct (first_crossing a (force_row a r));
    [reflexivity|contradiction].
Qed.

Lemma rt_row_In (a : Q) (tspan r : list Q) (t : Q) :
  length r <= length tspan -> In t (rt_row a tspan r) -> In t tspan.
Proof.
  intros Hlen. unfold rt_row.
  destruct (first_crossing a r) as [j|] eqn:E; [|contradiction].
  intros [<-|[]]. apply nth_In.
  destruct (first_crossing_spec a r j E) as [Hj _]. lia.
Qed.

(** Decisiveness, for the batches in which every trial is decided: one
    reaction time and one decision per trial of each block, every reaction
    time a point of the time grid. *)
Lemma find_rts_and_decisions_decisive (x : traces)
  (num_parameters num_trials : nat) (tspan : list Q) (a : Q) :
  length x = num_parameters * num_trials ->
  Forall (row_ok tspan) x ->
  Forall (decided a) x ->
  exists x' rts decisions,
    find_rts_and_decisions x num_parameters num_trials tspan a
    = Ok (x', rts, decisions)
    /\ length rts = num_parameters
    /\ length decisions = num_parameters
    /\ Forall (fun rt => length rt = num_trials
                         /\ Forall (fun t => In t tspan) rt) rts
    /\ Forall (fun d => length d = num_trials) decisions.
Proof.
  intros Hlen Hok Hdec.
  rewrite (find_rts_and_decisions_spec x num_parameters num_trials tspan a
             Hlen Hok).
  eexists _, _, _. split; [reflexivity|].
  rewrite !length_map, length_seq. split; [reflexivity|].
  split; [reflexivity|].
  assert (Hblock : forall p, p < num_parameters ->
            length (block x num_trials p) = num_trials
            /\ Forall (decided a) (block x num_trials p)
            /\ Forall (row_ok tspan) (block x num_trials p)).
  { intros p Hp. split; [|split].
    - unfold block. rewrite length_firstn, length_skipn. nia.
    - apply Forall_forall. intros r Hr. rewrite Forall_forall in Hdec.
      apply Hdec. eapply block_In. exact Hr.
    - apply Forall_forall. intros r Hr. rewrite Forall_forall in Hok.
      apply Hok. eapply block_In. exact Hr. }
  split; apply Forall_forall; intros l Hl; apply in_map_iff in Hl;
    destruct Hl as (p & <- & Hp); apply in_seq in Hp;
    destruct (Hblock p) as (Hb1 & Hb2 & Hb3); try lia.
  - split.
    + rewrite outcomes_all_decided by exact Hb2. exact Hb1.
    + apply Forall_forall. intros t Ht. apply in_flat_map in Ht.
      destruct Ht as (r & Hr & Ht). apply in_map_iff in Hr.
      destruct Hr as (r0 & <- & Hr0).
      rewrite Forall_forall in Hb3. destruct (Hb3 r0 Hr0) as [_ Hle].
      apply (rt_row_In a tspan (force_row a r0) t);
        [rewrite force_row_length; exact Hle|exact Ht].
  - transitivity (length (flat_map (rt_row a tspan)
                            (map (force_row a) (block x num_trials p)))).
    + clear. induction (map (force_row a) (block x num_trials p))
        as [|r l IH]; [reflexivity|].
      simpl. rewrite !length_app, IH, (decision_row_length a tspan).
      reflexivity.
    + rewrite outcomes_all_decided by exact Hb2. exact Hb1.
Qed.

Lemma block_succ (x : traces) (n p : nat) :
  block x n (S p) = block (skipn n x) n p.
Proof.
  unfold block. rewrite skipn_skipn. f_equal. f_equal. lia.
Qed.

Lemma concat_blocks (n : nat) :
  forall count x,
    length x = count * n -> concat (map (block x n) (seq 0 count)) = x.
Proof.
  induction count as [|count IH]; intros x Hlen.
  - destruct x; [reflexivity|discriminate].
  - cbn [seq map concat]. rewrite <- seq_shift, map_map.
    rewrite (map_ext _ (block (skipn n x) n) (block_succ x n)).
    rewrite IH by (rewrite length_skipn; lia).
    unfold block. simpl skipn. apply firstn_skipn.
Qed.

Lemma concat_flat_map_blocks {A : Type} (g : list Q -> list A)
  (h : list Q -> list Q) (l : list traces) :
  concat (map (fun b => flat_map g (map h b)) l)
  = flat_map g (map h (concat l)).
Proof.
  induction l as [|b l IH]; [reflexivity|].
  simpl. rewrite IH, map_app, flat_map_app. reflexivity.
Qed.

Lemma outcomes_le (a : Q) (tspan : list Q) (x : traces) :
  length (flat_map (rt_row a tspan) (map (force_row a) x)) <= length x.
Proof.
  induction x as [|r x IH]; [reflexivity|].
  simpl. rewrite length_app, rt_row_length.
  destruct (first_crossing a (force_row a r)); lia.
Qed.

Lemma outcomes_lt (a : Q) (tspan : list Q) (x : traces) (r : list Q) :
  In r x -> ~ decided a r ->
  length (flat_map (rt_row a tspan) (map (force_row a) x)) < length x.
Proof.
  intros Hin Hr. induction x as [|r' x IH]; [contradiction|].
  simpl. rewrite length_app, rt_row_length.
  pose proof (outcomes_le a tspan x) as Hle.
  destruct Hin as [->|Hin].
  - unfold decided in Hr.
    destruct (first_crossing a (force_row a r)); [|lia].
    exfalso. apply Hr. discriminate.
  - specialize (IH Hin).
    destruct (first_crossing a (force_row a r')); lia.
Qed.

(** C1.  Decisiveness fails on the code.  On a batch that passes the shape
    assertion, with rows the time grid covers and a positive boundary:
    whenever some trial never reaches the boundary and ends at exactly 0,
    its forced value is [a * sign(0) = 0], the second scan finds no
    crossing for it, and the call returns fewer reaction times, and fewer
    decisions, than there are trials. *)
Theorem undecided_zero_trial_yields_no_outcome
  (x : traces) (num_parameters num_trials : nat) (tspan : list Q) (a : Q)
  (i : nat) :
  length x = num_parameters * num_trials ->
  Forall (row_ok tspan) x ->
  (0 < a)%Q ->
  i < length x ->
  first_crossing a (nth i x []) = None ->
  (last (nth i x []) 0 == 0)%Q ->
  exists x' rts decisions,
    find_rts_and_decisions x num_parameters num_trials tspan a
    = Ok (x', rts, decisions)
    /\ length (concat rts) < length x
    /\ length (concat decisions) < length x.
Proof.
  intros Hlen Hok Ha Hi Hnone Hzero.
  rewrite (find_rts_and_decisions_spec x num_parameters num_trials tspan a
             Hlen Hok).
  eexists _, _, _. split; [reflexivity|].
  assert (Hr : ~ decided a (nth i x [])).
  { intros Hd. apply decided_iff in Hd; [|
      rewrite Forall_forall in Hok; apply (Hok (nth i x []));
      apply nth_In; exact Hi|exact Ha].
    destruct Hd as [Hd|Hd]; [apply Hd; exact Hnone|apply Hd; exact Hzero]. }
  rewrite <- (map_map (block x num_trials)
                (fun b => flat_map (rt_row a tspan) (map (force_row a) b))).
  rewrite <- (map_map (block x num_trials)
                (fun b => flat_map (decision_row a) (map (force_row a) b))).
  rewrite !concat_flat_map_blocks, concat_blocks by exact Hlen.
  assert (Hlt : length (flat_map (rt_row a tspan) (map (force_row a) x))
                < length x)
    by (apply (outcomes_lt a tspan x (nth i x []));
        [apply nth_In; exact Hi|exact Hr]).
  split; [exact Hlt|].
  replace (length (flat_map (decision_row a) (map (force_row a) x)))
    with (length (flat_map (rt_row a tspan) (map (force_row a) x)));
    [exact Hlt|].
  clear. induction (map (force_row a) x) as [|r l IH]; [reflexivity|].
  simpl. rewrite !length_app, IH, (decision_row_length a tspan). reflexivity.
Qed.

(** The same on a batch of two trials on the grid [0, 2.5, 5] with
    [a = 1]: the first crosses at the last index, the second ends at
    exactly 0 without crossing, and the call returns one reaction time and
    one decision. *)
Example two_trials_one_outcome :
  find_rts_and_decisions [[0; 0.5; 1.2]; [0; 0.3; 0]]%Q 1 2 [0; 2.5; 5]%Q 1
  = Ok ([[0; 0.5; 1.2]; [0; 0.3; 0]]%Q, [[5]]%Q, [[1]]%Q).
Proof. reflexivity. Qed.

Lemma undecided_zero_trial_yields_no_outcome_witness :
  (length [[0; 0.5; 1.2]; [0; 0.3; 0]]%Q = 1 * 2
   /\ Forall (row_ok [0; 2.5; 5]%Q) [[0; 0.5; 1.2]; [0; 0.3; 0]]%Q
   /\ (0 < 1)%Q
   /\ 1 < length [[0; 0.5; 1.2]; [0; 0.3; 0]]%Q
   /\ first_crossing 1 (nth 1 [[0; 0.5; 1.2]; [0; 0.3; 0]]%Q []) = None
   /\ (last (nth 1 [[0; 0.5; 1.2]; [0; 0.3; 0]]%Q []) 0 == 0)%Q)
  /\ exists x' rts decisions,
      find_rts_and_decisions [[0; 0.5; 1.2]; [0; 0.3; 0]]%Q 1 2
        [0; 2.5; 5]%Q 1
      = Ok (x', rts, decisions)
      /\ length (concat rts) < 2
      /\ length (concat decisions) < 2.
Proof.
  assert (Hok : Forall (row_ok [0; 2.5; 5]%Q)
                  [[0; 0.5; 1.2]; [0; 0.3; 0]]%Q).
  { repeat constructor; simpl; try discriminate; lia. }
  assert (Ha : (0 < 1)%Q) by reflexivity.
  assert (Hi : 1 < length [[0; 0.5; 1.2]; [0; 0.3; 0]]%Q) by (simpl; lia).
  split.
  - repeat split; try reflexivity; assumption.
  - exact (undecided_zero_trial_yields_no_outcome
             [[0; 0.5; 1.2]; [0; 0.3; 0]]%Q 1 2 [0; 2.5; 5]%Q 1 1
             eq_refl Hok Ha Hi eq_refl eq_refl).
Defined.

(** ** The degenerate forced decision *)

(** C8, as stated, fails.  A single trial that never reaches the boundary
    [a = 1] and ends at exactly 0: the call returns normally, with no
    reaction time and no decision for the trial, so nothing is raised and
    nothing is flagged. *)
Lemma degenerate_trial_not_surfaced :
  first_crossing 1 [0; 0.3; 0]%Q = None
  /\ (last [0; 0.3; 0] 0 == 0)%Q
  /\ find_rts_and_decisions [[0; 0.3; 0]]%Q 1 1 [0; 2.5; 5]%Q 1
     = Ok ([[0; 0.3; 0]]%Q, [[]], [[]])
  /\ ~ surfaces_degeneracy
         (find_rts_and_decisions [[0; 0.3; 0]]%Q 1 1 [0; 2.5; 5]%Q 1)
  /\ find_rts_and_decisions_arrays [[0; 0.3; 0]]%Q 1 1 [0; 2.5; 5]%Q 1
     = Ok ([[0; 0.3; 0]]%Q, [[]], [[]])
  /\ ~ surfaces_degeneracy
         (find_rts_and_decisions_arrays [[0; 0.3; 0]]%Q 1 1 [0; 2.5; 5]%Q 1).
Proof.
  split; [reflexivity|]. split; [reflexivity|]. split; [reflexivity|].
  split; [intros [d [[] _]]|]. split; [reflexivity|].
  intros [d [[] _]].
Qed.

Lemma sign_of_crossing (a v : Q) :
  (0 < a)%Q -> (a <= Qabs v)%Q ->
  Np.sign v = 1%Q \/ Np.sign v = inject_Z (-1).
Proof.
  intros Ha Hv.
  destruct (sign_cases v) as [[H _]|[[_ H]|[_ H]]];
    [|left; exact H|right; exact H].
  exfalso. rewrite H in Hv. change (Qabs 0) with 0%Q in Hv. lra.
Qed.

Lemma array_one_row {A : Type} (r : list A) : Np.array [r] = Ok [r].
Proof. reflexivity. Qed.

Lemma decisions_are_not_zero (a : Q) (l : traces) (d : Q) :
  (0 < a)%Q -> In d (flat_map (decision_row a) l) -> ~ (d == 0)%Q.
Proof.
  intros Ha Hd. apply in_flat_map in Hd. destruct Hd as (r & _ & Hd).
  unfold decision_row in Hd.
  destruct (first_crossing a r) as [j|] eqn:E; [|contradiction].
  destruct Hd as [<-|[]].
  destruct (first_crossing_spec a r j E) as (_ & Hj & _).
  destruct (sign_of_crossing a _ Ha Hj) as [-> | ->]; discriminate.
Qed.

(** C8, amended.  The code has no channel for a numerical degeneracy.  In a
    call with one parameter, as the simulator makes it, on an array that
    passes the shape assertion and whose rows the time grid covers: when a
    trial without crossing ends at exactly 0, the call returns normally,
    the conversion to arrays included; nothing is raised and no decision
    it returns is 0, so nothing is flagged; and the value it has written
    at the final time index of that trial is [a * sign(0)], which is 0. *)
Theorem degenerate_forced_value_is_zero
  (x : traces) (num_trials : nat) (tspan : list Q) (a : Q) (i : nat) :
  length x = 1 * num_trials ->
  Forall (row_ok tspan) x ->
  i < length x ->
  first_crossing a (nth i x []) = None ->
  (last (nth i x []) 0 == 0)%Q ->
  exists x' rts decisions,
    find_rts_and_decisions x 1 num_trials tspan a = Ok (x', rts, decisions)
    /\ find_rts_and_decisions_arrays x 1 num_trials tspan a
       = Ok (x', rts, decisions)
    /\ ~ surfaces_degeneracy
           (find_rts_and_decisions_arrays x 1 num_trials tspan a)
    /\ nth i x' []
       = removelast (nth i x []) ++ [(a * Np.sign (last (nth i x []) 0))%Q]
    /\ (last (nth i x' []) 0 == 0)%Q.
Proof.
  intros Hlen Hok Hi Hnone Hzero.
  assert (Hne : nth i x [] <> []).
  { rewrite Forall_forall in Hok. apply (Hok (nth i x [])).
    apply nth_In. exact Hi. }
  assert (Ha : (0 < a)%Q).
  { destruct (nth i x []) as [|v r] eqn:E; [contradiction|].
    pose proof (first_crossing_None a (v :: r) Hnone 0) as H0.
    cbn [nth length] in H0. pose proof (Qabs_nonneg v) as Hv.
    destruct (Qlt_le_dec 0 a) as [H|H]; [exact H|].
    exfalso. apply H0; [lia|lra]. }
  unfold find_rts_and_decisions_arrays.
  rewrite (find_rts_and_decisions_spec x 1 num_trials tspan a Hlen Hok).
  cbn [seq map bind]. rewrite !array_one_row. cbn [bind].
  eexists _, _, _. split; [reflexivity|]. split; [reflexivity|]. split.
  - cbn [surfaces_degeneracy concat]. rewrite app_nil_r.
    intros (d & Hd & Hd0).
    exact (decisions_are_not_zero a _ d Ha Hd Hd0).
  - rewrite nth_force_row. unfold force_row. rewrite Hnone.
    rewrite set_last_snoc by exact Hne. split; [reflexivity|].
    rewrite last_last.
    destruct (sign_cases (last (nth i x []) 0%Q)) as [[_ ->]|[[H _]|[H _]]];
      [|lra|lra].
    apply Qmult_0_r.
Qed.

Lemma degenerate_forced_value_is_zero_witness :
  (length [[0; 0.5; 1.2]; [0; 0.3; 0]]%Q = 1 * 2
   /\ Forall (row_ok [0; 2.5; 5]%Q) [[0; 0.5; 1.2]; [0; 0.3; 0]]%Q
   /\ 1 < length [[0; 0.5; 1.2]; [0; 0.3; 0]]%Q
   /\ first_crossing 1 (nth 1 [[0; 0.5; 1.2]; [0; 0.3; 0]]%Q []) = None
   /\ (last (nth 1 [[0; 0.5; 1.2]; [0; 0.3; 0]]%Q []) 0 == 0)%Q)
  /\ exists x' rts decisions,
      find_rts_and_decisions_arrays [[0; 0.5; 1.2]; [0; 0.3; 0]]%Q 1 2
        [0; 2.5; 5]%Q 1
      = Ok (x', rts, decisions)
      /\ ~ surfaces_degeneracy
             (find_rts_and_decisions_arrays [[0; 0.5; 1.2]; [0; 0.3; 0]]%Q
                1 2 [0; 2.5; 5]%Q 1)
      /\ (last (nth 1 x' []) 0 == 0)%Q.
Proof.
  assert (Hok : Forall (row_ok [0; 2.5; 5]%Q) [[0; 0.5; 1.2]; [0; 0.3; 0]]%Q).
  { repeat constructor; simpl; try discriminate; lia. }
  assert (Hi : 1 < length [[0; 0.5; 1.2]; [0; 0.3; 0]]%Q) by (simpl; lia).
  split.
  - repeat split; try reflexivity; try exact Hok. exact Hi.
  - destruct (degenerate_forced_value_is_zero
                [[0; 0.5; 1.2]; [0; 0.3; 0]]%Q 2 [0; 2.5; 5]%Q 1 1
                eq_refl Hok Hi eq_refl eq_refl)
      as (x' & rts & decisions & _ & E & Hs & _ & Hz).
    exists x', rts, decisions. split; [exact E|]. split; [exact Hs|exact Hz].
Defined.

(** ** The time grid and the bin edges *)

Section Ramp.

Variables (start step stop : Q).

Lemma inject_succ (k : nat) :
  (inject_Z (Z.of_nat (S k)) == inject_Z (Z.of_nat k) + 1)%Q.
Proof.
  rewrite Nat2Z.inj_succ, <- Z.add_1_r, inject_Z_plus. reflexivity.
Qed.

Lemma inject_add (k m : nat) :
  (inject_Z (Z.of_nat (k + m))
   == inject_Z (Z.of_nat k) + inject_Z (Z.of_nat m))%Q.
Proof. rewrite Nat2Z.inj_add, inject_Z_plus. reflexivity. Qed.

Lemma ramp_length (k m : nat) : length (ramp start step stop k m) = S m.
Proof. unfold ramp. rewrite length_app, length_map, length_seq. simpl. lia. Qed.

Lemma ramp_cons (k m : nat) :
  ramp start step stop k (S m)
  = (inject_Z (Z.of_nat k) * step + start)%Q :: ramp start step stop (S k) m.
Proof. reflexivity. Qed.

Lemma ramp_head (k m : nat) :
  (stop == inject_Z (Z.of_nat (k + m)) * step + start)%Q ->
  (hd 0 (ramp start step stop k m) == inject_Z (Z.of_nat k) * step + start)%Q.
Proof.
  intros H. destruct m as [|m].
  - simpl. rewrite H, Nat.add_0_r. reflexivity.
  - reflexivity.
Qed.

Lemma ramp_diff (m : nat) :
  forall k,
    (stop == inject_Z (Z.of_nat (k + m)) * step + start)%Q ->
    Forall (fun d => (d == step)%Q) (Sdeint.diff (ramp start step stop k m)).
Proof.
  induction m as [|m IH]; intros k H; [constructor|].
  rewrite ramp_cons.
  assert (H' : (stop == inject_Z (Z.of_nat (S k + m)) * step + start)%Q).
  { rewrite H. replace (k + S m) with (S k + m) by lia. reflexivity. }
  pose proof (ramp_head (S k) m H') as Hh.
  pose proof (ramp_length (S k) m) as Hl.
  destruct (ramp start step stop (S k) m) as [|y l] eqn:E; [discriminate|].
  simpl. constructor.
  - simpl in Hh. rewrite Hh, (inject_succ k). ring.
  - rewrite <- E in *. specialize (IH (S k) H'). rewrite E in IH. exact IH.
Qed.

Lemma ramp_increasing (m : nat) :
  (0 <= step)%Q ->
  forall k,
    (stop == inject_Z (Z.of_nat (k + m)) * step + start)%Q ->
    NpHist.increasing (ramp start step stop k m) = true.
Proof.
  intros Hs. induction m as [|m IH]; intros k H; [reflexivity|].
  rewrite ramp_cons.
  assert (H' : (stop == inject_Z (Z.of_nat (S k + m)) * step + start)%Q).
  { rewrite H. replace (k + S m) with (S k + m) by lia. reflexivity. }
  pose proof (ramp_head (S k) m H') as Hh.
  specialize (IH (S k) H').
  destruct (ramp start step stop (S k) m) as [|y l] eqn:E; [reflexivity|].
  simpl in *. rewrite IH, andb_true_r. apply Qle_bool_iff.
  rewrite Hh, (inject_succ k). lra.
Qed.

Lemma ramp_bounds (m : nat) :
  (0 <= step)%Q ->
  forall k,
    (stop == inject_Z (Z.of_nat (k + m)) * step + start)%Q ->
    Forall (fun v => (inject_Z (Z.of_nat k) * step + start <= v <= stop)%Q)
           (ramp start step stop k m).
Proof.
  intros Hs. induction m as [|m IH]; intros k H.
  - unfold ramp. simpl. constructor; [|constructor].
    rewrite H, Nat.add_0_r. lra.
  - rewrite ramp_cons.
    assert (H' : (stop == inject_Z (Z.of_nat (S k + m)) * step + start)%Q).
    { rewrite H. replace (k + S m) with (S k + m) by lia. reflexivity. }
    assert (Hm : (0 <= inject_Z (Z.of_nat (S m)))%Q).
    { change 0%Q with (inject_Z 0). rewrite <- Zle_Qle. lia. }
    constructor.
    + rewrite H, (inject_add k (S m)). nra.
    + eapply Forall_impl; [|apply (IH (S k) H')]. simpl.
      intros v [Hv1 Hv2]. split; [|exact Hv2].
      rewrite (inject_succ k) in Hv1. nra.
Qed.

End Ramp.

Lemma linspace_ge2 (start stop : Q) (num : Z) :
  (2 <= num)%Z ->
  let div := Z.to_nat num - 1 in
  let step := ((stop - start) / inject_Z (Z.of_nat div))%Q in
  NpHist.linspace start stop num = Ok (ramp start step stop 0 div)
  /\ (stop == inject_Z (Z.of_nat (0 + div)) * step + start)%Q.
Proof.
  intros Hnum div step. unfold NpHist.linspace.
  destruct (Z.ltb_spec num 0) as [H|_]; [lia|].
  assert (Hdiv : Z.to_nat num = S div) by (unfold div; lia).
  rewrite Hdiv. destruct div as [|d] eqn:Ed; [lia|].
  split; [reflexivity|].
  unfold step. simpl Nat.add. field.
  change 0%Q with (inject_Z 0). rewrite inject_Z_injective. lia.
Qed.

Lemma linspace_length (start stop : Q) (num : Z) :
  (0 <= num)%Z ->
  exists l, NpHist.linspace start stop num = Ok l /\ length l = Z.to_nat num.
Proof.
  intros Hnum. unfold NpHist.linspace.
  destruct (Z.ltb_spec num 0) as [H|_]; [lia|].
  destruct (Z.to_nat num) as [|[|d]].
  - exists []. split; reflexivity.
  - exists [start]. split; reflexivity.
  - eexists. split; [reflexivity|].
    rewrite length_app, length_map, length_seq. simpl. lia.
Qed.

Lemma linspace_negative (start stop : Q) (num : Z) :
  (num < 0)%Z -> NpHist.linspace start stop num = Raise ValueError.
Proof.
  intros H. unfold NpHist.linspace.
  destruct (Z.ltb_spec num 0); [reflexivity|lia].
Qed.

(** Equal steps pass the solver's spacing check. *)
Lemma py_min_eq (s : Q) (l : list Q) :
  Forall (fun d => (d == s)%Q) l ->
  forall x, (x == s)%Q -> (Sdeint.py_min x l == s)%Q.
Proof.
  induction 1 as [|v l Hv _ IH]; intros x Hx; [exact Hx|].
  simpl. apply IH. destruct (Qle_bool x v); assumption.
Qed.

Lemma py_max_eq (s : Q) (l : list Q) :
  Forall (fun d => (d == s)%Q) l ->
  forall x, (x == s)%Q -> (Sdeint.py_max x l == s)%Q.
Proof.
  induction 1 as [|v l Hv _ IH]; intros x Hx; [exact Hx|].
  simpl. apply IH. destruct (Qle_bool v x); assumption.
Qed.

Lemma isclose_eq (u v : Q) : (u == v)%Q -> Sdeint.isclose u v = true.
Proof.
  intros H. unfold Sdeint.isclose. apply Qle_bool_iff.
  assert (E : (u - v == 0)%Q) by (rewrite H; ring).
  rewrite E. change (Qabs 0) with 0%Q.
  pose proof (Qabs_nonneg v). lra.
Qed.

(** ** Histograms *)

Lemma cum_counts_eq (a : list Q) (bins : list Q) :
  map (NpHist.searchsorted_left a) (removelast bins)
  ++ map (NpHist.searchsorted_right a) (skipn (length bins - 1) bins)
  = cum_counts a bins.
Proof.
  induction bins as [|b bins IH]; [reflexivity|].
  destruct bins as [|b' bins]; [reflexivity|].
  change (removelast (b :: b' :: bins)) with (b :: removelast (b' :: bins)).
  replace (length (b :: b' :: bins) - 1) with (S (length (b' :: bins) - 1))
    by (simpl; lia).
  change (skipn (S (length (b' :: bins) - 1)) (b :: b' :: bins))
    with (skipn (length (b' :: bins) - 1) (b' :: bins)).
  rewrite map_cons, <- app_comm_cons, IH. reflexivity.
Qed.

Lemma cum_counts_length (a bins : list Q) :
  length (cum_counts a bins) = length bins.
Proof.
  induction bins as [|b bins IH]; [reflexivity|].
  destruct bins as [|b' bins]; [reflexivity|].
  change (S (length (cum_counts a (b' :: bins))) = S (length (b' :: bins))).
  rewrite IH. reflexivity.
Qed.

Lemma diff_length (l : list Z) : length (NpHist.diff l) = length l - 1.
Proof.
  induction l as [|x l IH]; [reflexivity|].
  destruct l as [|y l]; [reflexivity|].
  change (S (length (NpHist.diff (y :: l))) = S (length (y :: l)) - 1).
  rewrite IH. simpl. lia.
Qed.

Lemma diff_sum (l : list Z) :
  sumZ (NpHist.diff l) = (last l 0 - hd 0 l)%Z.
Proof.
  induction l as [|x l IH]; [reflexivity|].
  destruct l as [|y l]; [simpl; lia|].
  change (sumZ (NpHist.diff (x :: y :: l)))
    with ((y - x) + sumZ (NpHist.diff (y :: l)))%Z.
  rewrite IH. change (last (x :: y :: l) 0%Z) with (last (y :: l) 0%Z).
  simpl hd. lia.
Qed.

Lemma filter_length_le {A : Type} (p q : A -> bool) (l : list A) :
  (forall x, p x = true -> q x = true) ->
  length (filter p l) <= length (filter q l).
Proof.
  intros H. induction l as [|x l IH]; [reflexivity|]. simpl.
  destruct (p x) eqn:P.
  - rewrite (H x P). simpl. lia.
  - destruct (q x); simpl; lia.
Qed.

Lemma searchsorted_left_mono (a : list Q) (u v : Q) :
  (u <= v)%Q ->
  (NpHist.searchsorted_left a u <= NpHist.searchsorted_left a v)%Z.
Proof.
  intros H. unfold NpHist.searchsorted_left. apply inj_le.
  apply filter_length_le. intros x Hx.
  apply negb_true_iff, not_true_iff_false in Hx.
  apply negb_true_iff, not_true_iff_false. intros Hv. apply Hx.
  apply Qle_bool_iff in Hv. apply Qle_bool_iff. lra.
Qed.

Lemma searchsorted_left_right (a : list Q) (u v : Q) :
  (u <= v)%Q ->
  (NpHist.searchsorted_left a u <= NpHist.searchsorted_right a v)%Z.
Proof.
  intros H. unfold NpHist.searchsorted_left, NpHist.searchsorted_right.
  apply inj_le. apply filter_length_le. intros x Hx.
  apply negb_true_iff, not_true_iff_false in Hx.
  apply Qle_bool_iff. destruct (Qlt_le_dec x u) as [Hlt|Hge]; [lra|].
  exfalso. apply Hx. apply Qle_bool_iff. exact Hge.
Qed.

Lemma cum_counts_head (a : list Q) (b b' : Q) (bins : list Q) :
  (b <= b')%Q ->
  (NpHist.searchsorted_left a b <= hd 0 (cum_counts a (b' :: bins)))%Z.
Proof.
  intros H. destruct bins as [|b'' bins]; simpl.
  - apply searchsorted_left_right. exact H.
  - apply searchsorted_left_mono. exact H.
Qed.

Lemma diff_cum_counts_nonneg (a bins : list Q) :
  NpHist.increasing bins = true ->
  Forall (fun c => (0 <= c)%Z) (NpHist.diff (cum_counts a bins)).
Proof.
  induction bins as [|b bins IH]; intros H; [constructor|].
  destruct bins as [|b' bins]; [constructor|].
  change (NpHist.increasing (b :: b' :: bins))
    with (Qle_bool b b' && NpHist.increasing (b' :: bins)) in H.
  apply andb_true_iff in H. destruct H as [Hb H].
  apply Qle_bool_iff in Hb. specialize (IH H).
  pose proof (cum_counts_head a b b' bins Hb) as Hh.
  pose proof (cum_counts_length a (b' :: bins)) as Hl.
  change (cum_counts a (b :: b' :: bins))
    with (NpHist.searchsorted_left a b :: cum_counts a (b' :: bins)).
  destruct (cum_counts a (b' :: bins)) as [|c l]; [discriminate|].
  simpl in Hh. simpl. constructor; [lia|exact IH].
Qed.

Lemma cum_counts_last (a : list Q) (bins : list Q) :
  bins <> [] ->
  last (cum_counts a bins) 0%Z = NpHist.searchsorted_right a (last bins 0%Q).
Proof.
  induction bins as [|b bins IH]; intros H; [contradiction|].
  destruct bins as [|b' bins]; [reflexivity|].
  change (cum_counts a (b :: b' :: bins))
    with (NpHist.searchsorted_left a b :: cum_counts a (b' :: bins)).
  pose proof (cum_counts_length a (b' :: bins)) as Hl.
  destruct (cum_counts a (b' :: bins)) as [|c l] eqn:E; [discriminate|].
  change (last (NpHist.searchsorted_left a b :: c :: l) 0%Z)
    with (last (c :: l) 0%Z).
  rewrite IH by discriminate. reflexivity.
Qed.

(** The counts of [np.histogram] over increasing edges: one per bin, none
    negative, and in total the number of samples between the first and the
    last edge. *)
Lemma histogram_spec (a bins : list Q) :
  NpHist.increasing bins = true ->
  exists h,
    NpHist.histogram a bins = Ok h
    /\ length h = length bins - 1
    /\ Forall (fun c => (0 <= c)%Z) h
    /\ (2 <= length bins ->
        sumZ h = (NpHist.searchsorted_right a (last bins 0%Q)
                  - NpHist.searchsorted_left a (hd 0%Q bins))%Z).
Proof.
  intros H. unfold NpHist.histogram. rewrite H, cum_counts_eq.
  eexists. split; [reflexivity|]. split; [|split].
  - rewrite diff_length, cum_counts_length. reflexivity.
  - apply diff_cum_counts_nonneg. exact H.
  - intros Hlen. rewrite diff_sum.
    destruct bins as [|b [|b' bins]]; simpl in Hlen; try lia.
    rewrite cum_counts_last by discriminate. reflexivity.
Qed.

Lemma searchsorted_all (a : list Q) (lo hi : Q) :
  Forall (fun v => (lo <= v <= hi)%Q) a ->
  NpHist.searchsorted_left a lo = 0%Z
  /\ NpHist.searchsorted_right a hi = Z.of_nat (length a).
Proof.
  unfold NpHist.searchsorted_left, NpHist.searchsorted_right.
  induction 1 as [|v a [Hlo Hhi] _ [IH1 IH2]]; [split; reflexivity|].
  simpl. apply Qle_bool_iff in Hlo, Hhi. rewrite Hlo, Hhi. simpl.
  split; [exact IH1|]. f_equal. f_equal.
  apply Nat2Z.inj. exact IH2.
Qed.

(** ** The solver on the notebook's grid *)

Lemma euler_step_length (fy : list Q) (G_dot : list Q -> list Q) (h : Q)
  (dWn yn : list Q) (d : nat) :
  length yn = d -> length fy = d -> length (G_dot dWn) = d ->
  length (Sdeint.euler_step fy G_dot h dWn yn) = d.
Proof.
  intros H1 H2 H3. unfold Sdeint.euler_step.
  rewrite length_map, !length_combine. lia.
Qed.

Lemma euler_rows_length (fy : list Q) (G_dot : list Q -> list Q) (h : Q)
  (dW : nat -> nat -> Q) (m steps : nat) :
  forall n yn, length (Sdeint.euler_rows fy G_dot h dW m n steps yn) = S steps.
Proof.
  induction steps as [|steps IH]; intros n yn; [reflexivity|].
  simpl. rewrite IH. reflexivity.
Qed.

(** [y.T] has one row per column of [y], as long as [y] has rows. *)
Lemma transpose_shape (d : nat) (y : list (list Q)) :
  length (transpose d y) = d
  /\ Forall (fun r => length r = length y) (transpose d y).
Proof.
  unfold transpose. split.
  - rewrite length_map, length_seq. reflexivity.
  - apply Forall_forall. intros r Hr. apply in_map_iff in Hr.
    destruct Hr as (i & <- & _). apply length_map.
Qed.

Lemma ramp_diff_nonempty (start step stop : Q) (k m : nat) :
  Sdeint.diff (ramp start step stop k (S m)) <> [].
Proof.
  rewrite ramp_cons. pose proof (ramp_length start step stop (S k) m) as Hl.
  destruct (ramp start step stop (S k) m); [discriminate|]. discriminate.
Qed.

Lemma itoEuler_ramp (fy : list Q) (G_dot : list Q -> list Q) (y0 : list Q)
  (start step stop : Q) (m : nat) (dW : nat -> nat -> Q) :
  (stop == inject_Z (Z.of_nat (0 + S m)) * step + start)%Q ->
  length fy = length y0 -> y0 <> [] ->
  let tspan := ramp start step stop 0 (S m) in
  let h := ((last tspan 0 - hd 0 tspan)
            / inject_Z (Z.of_nat (length tspan - 1)))%Q in
  Sdeint.itoEuler (Ok fy) G_dot y0 tspan dW
  = Ok (Sdeint.euler_rows fy G_dot h dW (length y0) 0 (length tspan - 1) y0).
Proof.
  intros Hstop Hfy Hy0 tspan h. unfold Sdeint.itoEuler. fold tspan.
  pose proof (ramp_diff start step stop (S m) 0 Hstop) as Hd. fold tspan in Hd.
  pose proof (ramp_diff_nonempty start step stop 0 m) as Hne. fold tspan in Hne.
  destruct (Sdeint.diff tspan) as [|d0 ds]; [contradiction|].
  inversion Hd as [|? ? Hd0 Hds]; subst.
  rewrite isclose_eq.
  2:{ rewrite (py_min_eq step ds Hds d0 Hd0), (py_max_eq step ds Hds d0 Hd0).
      reflexivity. }
  cbn [negb bind]. rewrite Hfy, Nat.eqb_refl. cbn [negb].
  destruct y0 as [|v y0]; [contradiction|]. reflexivity.
Qed.

Lemma itoEuler_ramp_Raise (e : exn) (G_dot : list Q -> list Q) (y0 : list Q)
  (start step stop : Q) (m : nat) (dW : nat -> nat -> Q) :
  (stop == inject_Z (Z.of_nat (0 + S m)) * step + start)%Q ->
  Sdeint.itoEuler (Raise e) G_dot y0 (ramp start step stop 0 (S m)) dW
  = Raise e.
Proof.
  intros Hstop. unfold Sdeint.itoEuler.
  pose proof (ramp_diff start step stop (S m) 0 Hstop) as Hd.
  pose proof (ramp_diff_nonempty start step stop 0 m) as Hne.
  destruct (Sdeint.diff (ramp start step stop 0 (S m))) as [|d0 ds];
    [contradiction|].
  inversion Hd as [|? ? Hd0 Hds]; subst.
  rewrite isclose_eq; [reflexivity|].
  rewrite (py_min_eq step ds Hds d0 Hd0), (py_max_eq step ds Hds d0 Hd0).
  reflexivity.
Qed.

Lemma repeat_each_length (v : list Q) (n : nat) :
  length (flat_map (fun m => repeat m n) v) = length v * n.
Proof.
  induction v as [|x v IH]; [reflexivity|].
  simpl. rewrite length_app, repeat_length, IH. reflexivity.
Qed.

(** A parameter row of a dimension other than 1 is repeated into a drift of
    the wrong length, and the run fails in the product with the identity
    matrix. *)
Lemma simulate_param_dimension (mu : list Q) (num_trials : nat)
  (sigma T y0 a : Q) (nbins : Z) (dt : Q) (dW : nat -> nat -> Q) (n : Z) :
  int_quotient T dt = Ok n -> (2 <= n)%Z -> 1 <= num_trials ->
  length mu <> 1 ->
  simulate_param mu num_trials sigma T y0 a nbins dt dW = Raise ValueError.
Proof.
  intros Hq Hn Htrials Hmu. unfold simulate_param.
  rewrite Hq. cbn [bind].
  destruct (linspace_ge2 0 T n Hn) as [Hlin Hstop].
  rewrite Hlin. cbn [bind].
  rewrite repeat_each_length.
  destruct (Nat.eqb_spec (length mu * num_trials) num_trials) as [E|_];
    [exfalso; nia|].
  assert (Hdiv : exists m, Z.to_nat n - 1 = S m)
    by (exists (Z.to_nat n - 2); lia).
  destruct Hdiv as [m Hm]. rewrite Hm in *.
  rewrite itoEuler_ramp_Raise by exact Hstop. reflexivity.
Qed.

Lemma time_grid_length (T : Q) (n : Z) :
  (2 <= n)%Z -> length (time_grid T n) = Z.to_nat n.
Proof. intros H. unfold time_grid. rewrite ramp_length. lia. Qed.

Lemma euler_paths_shape (mu0 : Q) (num_trials : nat) (sigma T y0 : Q) (n : Z)
  (dW : nat -> nat -> Q) :
  (2 <= n)%Z ->
  length (euler_paths mu0 num_trials sigma T y0 n dW) = num_trials
  /\ Forall (fun r => length r = Z.to_nat n)
            (euler_paths mu0 num_trials sigma T y0 n dW).
Proof.
  intros Hn. unfold euler_paths.
  match goal with |- context [transpose ?d ?y] =>
    destruct (transpose_shape d y) as [H1 H2] end.
  split; [exact H1|]. eapply Forall_impl; [|exact H2]. simpl.
  intros r ->. rewrite euler_rows_length, time_grid_length by exact Hn. lia.
Qed.

Lemma block_whole (x : traces) (n : nat) : length x = n -> block x n 0 = x.
Proof. intros H. unfold block. simpl. apply firstn_all2. lia. Qed.

(** One parameter's run in closed form, for a parameter of dimension 1, at
    least one trial and a grid of at least two points. *)
Lemma simulate_param_spec (mu0 : Q) (num_trials : nat) (sigma T y0 a : Q)
  (nbins : Z) (dt : Q) (dW : nat -> nat -> Q) (n : Z) :
  int_quotient T dt = Ok n -> (2 <= n)%Z -> 1 <= num_trials ->
  let tspan := time_grid T n in
  let x := map (force_row a) (euler_paths mu0 num_trials sigma T y0 n dW) in
  simulate_param [mu0] num_trials sigma T y0 a nbins dt dW
  = (bins <- NpHist.linspace (- T) T nbins ;;
     h <- NpHist.histogram (signed_rts a tspan x) bins ;;
     Ok (x, [h])).
Proof.
  intros Hq Hn Htrials tspan x. unfold simulate_param.
  rewrite Hq. cbn [bind].
  destruct (linspace_ge2 0 T n Hn) as [Hlin Hstop].
  rewrite Hlin. cbn [bind].
  cbn [flat_map]. rewrite app_nil_r, repeat_length, Nat.eqb_refl.
  assert (Hdiv : exists m, Z.to_nat n - 1 = S m)
    by (exists (Z.to_nat n - 2); lia).
  destruct Hdiv as [m Hm].
  pose proof (itoEuler_ramp (repeat mu0 num_trials) (map (Qmult sigma))
                (repeat (y0 * 1)%Q num_trials) 0
                ((T - 0) / inject_Z (Z.of_nat (Z.to_nat n - 1))) T m dW) as He.
  rewrite <- Hm in He. cbn zeta in He.
  rewrite He; clear He.
  2:{ exact Hstop. }
  2:{ rewrite !repeat_length. reflexivity. }
  2:{ destruct num_trials; [lia|discriminate]. }
  cbn [bind]. rewrite repeat_length.
  fold (time_grid T n). fold tspan.
  change (transpose num_trials _)
    with (euler_paths mu0 num_trials sigma T y0 n dW).
  destruct (euler_paths_shape mu0 num_trials sigma T y0 n dW Hn)
    as [Hlen Hrows].
  rewrite find_rts_and_decisions_spec.
  2:{ rewrite Hlen. lia. }
  2:{ eapply Forall_impl; [|exact Hrows]. simpl. intros r Hr.
      unfold row_ok, tspan. rewrite time_grid_length by exact Hn.
      split; [|lia]. destruct r; [simpl in Hr; lia|discriminate]. }
  cbn [bind seq map]. rewrite (block_whole _ num_trials Hlen). fold x.
  unfold calculate_histogram_stats. cbn [combine map fst snd].
  destruct (NpHist.linspace (- T) T nbins) as [bins|e]; [|reflexivity].
  cbn [bind mapM]. fold (signed_rts a tspan x).
  destruct (NpHist.histogram (signed_rts a tspan x) bins); reflexivity.
Qed.

(** ** Runs that stay at zero *)

Lemma euler_step_zero (fy : list Q) (G_dot : list Q -> list Q) (h : Q)
  (dWn yn : list Q) :
  all_zero fy -> all_zero (G_dot dWn) -> all_zero yn ->
  all_zero (Sdeint.euler_step fy G_dot h dWn yn).
Proof.
  unfold all_zero. rewrite !Forall_forall. intros Hf Hg Hy v Hv.
  unfold Sdeint.euler_step in Hv. apply in_map_iff in Hv.
  destruct Hv as ([y [fv g]] & <- & Hin). simpl.
  pose proof (in_combine_l _ _ _ _ Hin) as Hy'.
  pose proof (in_combine_r _ _ _ _ Hin) as Hin'.
  pose proof (in_combine_l _ _ _ _ Hin') as Hf'.
  pose proof (in_combine_r _ _ _ _ Hin') as Hg'.
  rewrite (Hy _ Hy'), (Hf _ Hf'), (Hg _ Hg'). ring.
Qed.

Lemma euler_rows_zero (fy : list Q) (G_dot : list Q -> list Q) (h : Q)
  (dW : nat -> nat -> Q) (m steps : nat) :
  all_zero fy -> (forall v, all_zero (G_dot v)) ->
  forall n yn, all_zero yn ->
               Forall all_zero (Sdeint.euler_rows fy G_dot h dW m n steps yn).
Proof.
  intros Hf Hg. induction steps as [|steps IH]; intros n yn Hy; simpl.
  - constructor; [exact Hy|constructor].
  - constructor; [exact Hy|]. apply IH. apply euler_step_zero; auto.
Qed.

Lemma transpose_zero (d : nat) (y : list (list Q)) :
  Forall all_zero y -> Forall all_zero (transpose d y).
Proof.
  intros H. unfold transpose. apply Forall_forall. intros r Hr.
  apply in_map_iff in Hr. destruct Hr as (i & <- & _).
  unfold all_zero. apply Forall_forall. intros v Hv.
  apply in_map_iff in Hv. destruct Hv as (row & <- & Hrow).
  rewrite Forall_forall in H. specialize (H row Hrow).
  destruct (Nat.lt_ge_cases i (length row)) as [Hi|Hi].
  - unfold all_zero in H. rewrite Forall_forall in H.
    apply H. apply nth_In. exact Hi.
  - rewrite nth_overflow by exact Hi. reflexivity.
Qed.

Lemma euler_paths_zero (mu0 : Q) (num_trials : nat) (sigma T y0 : Q) (n : Z)
  (dW : nat -> nat -> Q) :
  (mu0 == 0)%Q -> (sigma == 0)%Q -> (y0 == 0)%Q ->
  Forall all_zero (euler_paths mu0 num_trials sigma T y0 n dW).
Proof.
  intros Hmu Hsigma Hy0. unfold euler_paths.
  apply transpose_zero. apply euler_rows_zero.
  - apply Forall_forall. intros v Hv. apply repeat_spec in Hv. subst.
    exact Hmu.
  - intros v. apply Forall_forall. intros w Hw. apply in_map_iff in Hw.
    destruct Hw as (u & <- & _). rewrite Hsigma. ring.
  - apply Forall_forall. intros v Hv. apply repeat_spec in Hv. subst.
    rewrite Hy0. ring.
Qed.

Lemma all_zero_no_crossing (a : Q) (r : list Q) :
  (0 < a)%Q -> all_zero r -> first_crossing a r = None.
Proof.
  intros Ha H. unfold first_crossing.
  induction H as [|v r Hv _ IH]; [reflexivity|]. simpl.
  replace (Np.crossed a v) with false; [rewrite IH; reflexivity|].
  symmetry. unfold Np.crossed. apply not_true_iff_false.
  rewrite Qle_bool_iff, Hv. change (Qabs 0) with 0%Q. lra.
Qed.

Lemma all_zero_last (r : list Q) : all_zero r -> (last r 0 == 0)%Q.
Proof.
  induction 1 as [|v r Hv H IH]; [reflexivity|].
  destruct r as [|w r]; [exact Hv|]. exact IH.
Qed.

Lemma all_zero_undecided (a : Q) (r : list Q) :
  (0 < a)%Q -> r <> [] -> all_zero r -> ~ decided a r.
Proof.
  intros Ha Hr H Hd. apply (decided_iff a r Hr Ha) in Hd.
  destruct Hd as [Hd|Hd].
  - apply Hd. apply all_zero_no_crossing; assumption.
  - apply Hd. apply all_zero_last. exact H.
Qed.

Lemma signed_rts_undecided (a : Q) (tspan : list Q) (x : traces) :
  Forall (fun r => ~ decided a r) x ->
  signed_rts a tspan (map (force_row a) x) = [].
Proof.
  intros H. unfold signed_rts.
  replace (flat_map (rt_row a tspan) (map (force_row a) x)) with (@nil Q);
    [reflexivity|].
  induction H as [|r x Hr _ IH]; [reflexivity|].
  simpl. rewrite <- IH, app_nil_r. unfold rt_row.
  unfold decided in Hr.
  destruct (first_crossing a (force_row a r)); [|reflexivity].
  exfalso. apply Hr. discriminate.
Qed.

(** With zero drift, zero diffusion and a start at zero every trial stays at
    zero, no trial is decided, and the histogram is taken of no sample at
    all. *)
Lemma simulator_stays_at_zero (mu0 : Q) (num_trials : nat) (sigma T y0 a : Q)
  (return_traces : bool) (nbins : Z) (dt : Q) (dW : nat -> nat -> nat -> Q)
  (n : Z) :
  int_quotient T dt = Ok n -> (2 <= n)%Z -> 1 <= num_trials ->
  (0 < a)%Q -> (mu0 == 0)%Q -> (sigma == 0)%Q -> (y0 == 0)%Q ->
  simulator (PyTensor (Tensor2 [[mu0]])) num_trials sigma T y0 a return_traces
    nbins dt dW
  = (bins <- NpHist.linspace (- T) T nbins ;;
     h <- NpHist.histogram [] bins ;;
     if return_traces
     then Ok (TracesAndStats
                (map (force_row a)
                   (euler_paths mu0 num_trials sigma T y0 n (dW 0)) ++ [])
                ([h] ++ []))
     else Ok (Stats ([h] ++ []))).
Proof.
  intros Hq Hn Htrials Ha Hmu Hsigma Hy0.
  unfold simulator. cbn [coerce_parameters ndim Nat.eqb rows_of bind].
  cbn [simulator_loop].
  rewrite (simulate_param_spec mu0 num_trials sigma T y0 a nbins dt (dW 0) n
             Hq Hn Htrials).
  rewrite signed_rts_undecided.
  - destruct (NpHist.linspace (- T) T nbins) as [bins|e]; [|reflexivity].
    cbn [bind]. destruct (NpHist.histogram [] bins) as [h|e]; [|reflexivity].
    cbn [bind torch_cat concat]. reflexivity.
  - destruct (euler_paths_shape mu0 num_trials sigma T y0 n (dW 0) Hn)
      as [_ Hrows].
    pose proof (euler_paths_zero mu0 num_trials sigma T y0 n (dW 0)
                  Hmu Hsigma Hy0) as Hz.
    rewrite Forall_forall in *. intros r Hr.
    apply all_zero_undecided; [exact Ha| |apply Hz; exact Hr].
    specialize (Hrows r Hr). destruct r; [simpl in Hrows; lia|discriminate].
Qed.

(** ** The claims on [simulator]: summary statistics and shapes *)

(** C2.  Conservation fails on the code.  With the defaults of the
    signature (100 trials, [T = 5], [dt = 0.01], [a = 1], [y0 = 0], 20 bin
    edges), drift 0 and [sigma = 0], whatever the random draws: no trial
    leaves zero, the forced value of every trial is [a * sign(0) = 0], no
    trial is counted, and the summary vector of the parameter is the zero
    vector of length 19.  Its components sum to 0, not to [num_trials]. *)
Theorem simulator_counts_lost_at_zero (dW : nat -> nat -> nat -> Q) :
  simulator (PyTensor (Tensor2 [[0%Q]])) default_num_trials 0 default_T
    default_y0 default_a false default_nbins default_dt dW
  = Ok (Stats [repeat 0%Z 19])
  /\ sumZ (repeat 0%Z 19) = 0%Z
  /\ sumZ (repeat 0%Z 19) <> Z.of_nat default_num_trials.
Proof.
  split; [|split; [reflexivity|discriminate]].
  rewrite (simulator_stays_at_zero 0 default_num_trials 0 default_T default_y0
             default_a false default_nbins default_dt dW 500).
  - vm_compute. reflexivity.
  - reflexivity.
  - lia.
  - unfold default_num_trials. lia.
  - reflexivity.
  - reflexivity.
  - reflexivity.
  - reflexivity.
Qed.

(** C6.  On the scenario of the claim (50 trials, [T = 5], [dt = 0.01], the
    other arguments at their defaults) with drift 0 and [sigma = 0], whatever
    the random draws: the trajectory array has 50 rows of 500 entries and
    the summary vector has length 19, as claimed, but its components sum to
    0, not to 50. *)
Theorem scenario_shapes_hold_sum_fails (dW : nat -> nat -> nat -> Q) :
  exists x_traces stats,
    simulator (PyTensor (Tensor2 [[0%Q]])) 50 0 5 default_y0 default_a true
      default_nbins 0.01 dW
    = Ok (TracesAndStats x_traces [stats])
    /\ length x_traces = 50
    /\ Forall (fun r => length r = 500) x_traces
    /\ Z.to_nat (Qfloor (5 / 0.01)) = 500
    /\ length stats = 19
    /\ sumZ stats = 0%Z.
Proof.
  rewrite (simulator_stays_at_zero 0 50 0 5 default_y0 default_a true
             default_nbins 0.01 dW 500);
    [|reflexivity|lia|lia|reflexivity|reflexivity|reflexivity|reflexivity].
  set (L := NpHist.linspace _ _ _). vm_compute in L. subst L. cbn [bind].
  set (H := NpHist.histogram _ _). vm_compute in H. subst H. cbn [bind app].
  eexists _, _. split; [reflexivity|].
  destruct (euler_paths_shape 0 50 0 5 default_y0 500 (dW 0)) as [Hlen Hrows];
    [lia|].
  rewrite app_nil_r. split; [rewrite length_map; exact Hlen|].
  split; [|repeat split].
  rewrite Forall_map. eapply Forall_impl; [|exact Hrows]. simpl.
  intros r Hr. rewrite force_row_length. exact Hr.
Qed.

(** ** Shapes of whatever the simulator returns *)

(** [int(T/dt)] is the floor of the quotient as soon as it is positive. *)
Lemma int_quotient_floor (T dt : Q) (n : Z) :
  int_quotient T dt = Ok n -> (1 <= n)%Z -> n = Qfloor (T / dt).
Proof.
  unfold int_quotient. destruct (Qeq_bool dt 0); [discriminate|].
  cbv zeta. generalize (T / dt)%Q. intros [p q] H Hn.
  injection H as <-. cbn [Qnum Qden Qfloor] in *.
  destruct (Z.le_gt_cases 0 p) as [Hp|Hp].
  - apply Z.quot_div_nonneg; lia.
  - exfalso. rewrite Z.quot_div in Hn by lia.
    assert (Hd : (0 <= Z.abs p / Z.abs (Z.pos q))%Z)
      by (apply Z.div_pos; lia).
    assert (Hs : Z.sgn p = (-1)%Z) by lia.
    rewrite Hs in Hn. change (Z.sgn (Z.pos q)) with 1%Z in Hn. lia.
Qed.

Lemma histogram_Ok_length (a bins : list Q) (h : list Z) :
  NpHist.histogram a bins = Ok h -> length h = length bins - 1.
Proof.
  unfold NpHist.histogram. destruct (NpHist.increasing bins); [|discriminate].
  intros H. injection H as <-.
  rewrite cum_counts_eq, diff_length, cum_counts_length. reflexivity.
Qed.

Lemma diff_nonempty_length (l : list Q) :
  Sdeint.diff l <> [] -> 2 <= length l.
Proof.
  destruct l as [|x [|y l]]; simpl; [contradiction|contradiction|lia].
Qed.

Lemma itoEuler_Ok_length (f : result (list Q)) (G_dot : list Q -> list Q)
  (y0 tspan : list Q) (dW : nat -> nat -> Q) (y : list (list Q)) :
  Sdeint.itoEuler f G_dot y0 tspan dW = Ok y ->
  2 <= length tspan /\ length y = length tspan.
Proof.
  unfold Sdeint.itoEuler.
  destruct (Sdeint.diff tspan) as [|d0 ds] eqn:E; [discriminate|].
  assert (Hl : 2 <= length tspan)
    by (apply diff_nonempty_length; rewrite E; discriminate).
  destruct (negb _); [discriminate|].
  destruct f as [fy|e]; [|discriminate]. cbn [bind].
  destruct (negb _); [discriminate|].
  destruct y0 as [|v y0]; [discriminate|].
  intros H. injection H as <-. split; [exact Hl|].
  rewrite euler_rows_length. lia.
Qed.

Lemma simulate_param_Ok_shape (mu : list Q) (num_trials : nat)
  (sigma T y0 a : Q) (nbins : Z) (dt : Q) (dW : nat -> nat -> Q)
  (x : traces) (stats : list (list Z)) :
  simulate_param mu num_trials sigma T y0 a nbins dt dW = Ok (x, stats) ->
  (2 <= Qfloor (T / dt))%Z
  /\ length x = num_trials
  /\ Forall (fun r => length r = Z.to_nat (Qfloor (T / dt))) x
  /\ length stats = 1
  /\ Forall (fun h => length h = Z.to_nat nbins - 1) stats.
Proof.
  unfold simulate_param.
  destruct (int_quotient T dt) as [n|e] eqn:Hq; [|discriminate]. cbn [bind].
  destruct (NpHist.linspace 0 T n) as [tspan|e] eqn:Hlin; [|discriminate].
  cbn [bind].
  assert (Hn0 : (0 <= n)%Z).
  { destruct (Z.le_gt_cases 0 n) as [H|H]; [exact H|].
    rewrite linspace_negative in Hlin by exact H. discriminate. }
  destruct (linspace_length 0 T n Hn0) as (l & Hl & Hlen).
  rewrite Hlin in Hl. injection Hl as <-.
  match goal with |- context [Sdeint.itoEuler ?f ?g ?v ?t ?w] =>
    destruct (Sdeint.itoEuler f g v t w) as [y|e] eqn:He end; [|discriminate].
  cbn [bind]. apply itoEuler_Ok_length in He. destruct He as [Ht Hy].
  assert (Hn : (2 <= n)%Z) by lia.
  assert (Hfloor : n = Qfloor (T / dt))
    by (apply int_quotient_floor; [exact Hq|lia]).
  destruct (transpose_shape num_trials y) as [Hx Hrows].
  rewrite find_rts_and_decisions_spec.
  2:{ rewrite Hx. lia. }
  2:{ eapply Forall_impl; [|exact Hrows]. simpl. intros r Hr.
      unfold row_ok. split; [|lia].
      destruct r; [simpl in Hr; lia|discriminate]. }
  cbn [bind seq map].
  unfold calculate_histogram_stats. cbn [combine map fst snd].
  destruct (NpHist.linspace (- T) T nbins) as [bins|e] eqn:Hb; [|discriminate].
  cbn [bind mapM].
  match goal with |- context [NpHist.histogram ?s bins] =>
    destruct (NpHist.histogram s bins) as [h|e] eqn:Hh end; [|discriminate].
  cbn [bind]. intros H. injection H as <- <-.
  rewrite <- Hfloor. split; [exact Hn|]. split; [rewrite length_map; exact Hx|].
  split; [|split; [reflexivity|]].
  - rewrite Forall_map. eapply Forall_impl; [|exact Hrows]. simpl.
    intros r Hr. rewrite force_row_length. lia.
  - constructor; [|constructor]. apply histogram_Ok_length in Hh.
    rewrite Hh. f_equal.
    assert (Hnb : (0 <= nbins)%Z).
    { destruct (Z.le_gt_cases 0 nbins) as [H|H]; [exact H|].
      rewrite linspace_negative in Hb by exact H. discriminate. }
    destruct (linspace_length (- T) T nbins Hnb) as (l & Hl & Hlen').
    rewrite Hb in Hl. injection Hl as <-. exact Hlen'.
Qed.

Lemma simulator_loop_shape (rows : list (list Q)) (num_trials : nat)
  (sigma T y0 a : Q) (nbins : Z) (dt : Q) (dW : nat -> nat -> nat -> Q) :
  forall idx xs ss,
    simulator_loop idx rows num_trials sigma T y0 a nbins dt dW = Ok (xs, ss) ->
    length (concat xs) = length rows * num_trials
    /\ Forall (fun r => length r = Z.to_nat (Qfloor (T / dt))) (concat xs)
    /\ length (concat ss) = length rows
    /\ Forall (fun h => length h = Z.to_nat nbins - 1) (concat ss).
Proof.
  induction rows as [|mu rows IH]; intros idx xs ss; simpl.
  - intros H. injection H as <- <-. repeat split; constructor.
  - destruct (simulate_param mu num_trials sigma T y0 a nbins dt (dW idx))
      as [[x s]|e] eqn:Hp; [|discriminate]. cbn [bind].
    destruct (simulator_loop (S idx) rows num_trials sigma T y0 a nbins dt dW)
      as [[xs' ss']|e] eqn:Hl; [|discriminate]. cbn [bind].
    intros H. injection H as <- <-.
    apply simulate_param_Ok_shape in Hp.
    destruct Hp as (_ & Hx & Hr & Hs & Hh).
    destruct (IH _ _ _ Hl) as (IH1 & IH2 & IH3 & IH4).
    simpl. rewrite !length_app, IH1, IH3, Hx, Hs.
    repeat split; try lia; apply Forall_app; split; assumption.
Qed.

(** Whenever the simulator returns, the trajectory array has
    [num_trials] rows per parameter, every row has [floor(T/dt)] entries,
    and there is one summary vector of length [nbins - 1] per parameter. *)
Lemma simulator_shape (parameters : py_parameters) (num_trials : nat)
  (sigma T y0 a : Q) (nbins : Z) (dt : Q) (dW : nat -> nat -> nat -> Q)
  (rows : list (list Q)) (x_traces : traces) (stats : list (list Z)) :
  rows_of (coerce_parameters parameters) = Ok rows ->
  simulator parameters num_trials sigma T y0 a true nbins dt dW
  = Ok (TracesAndStats x_traces stats) ->
  length x_traces = length rows * num_trials
  /\ Forall (fun r => length r = Z.to_nat (Qfloor (T / dt))) x_traces
  /\ length stats = length rows
  /\ Forall (fun h => length h = Z.to_nat nbins - 1) stats.
Proof.
  intros Hrows. unfold simulator. rewrite Hrows. cbn [bind].
  destruct (simulator_loop 0 rows num_trials sigma T y0 a nbins dt dW)
    as [[xs ss]|e] eqn:Hl; [|discriminate]. cbn [bind].
  apply simulator_loop_shape in Hl.
  destruct xs as [|x xs]; [discriminate|].
  destruct ss as [|s ss]; [discriminate|].
  cbn [torch_cat bind]. intros H. injection H as <- <-. exact Hl.
Qed.

(** ** Conservation of the counts when every trial is decided *)

Lemma decision_row_sign (a : Q) (r : list Q) (d : Q) :
  In d (decision_row a r) -> exists v, d = Np.sign v.
Proof.
  unfold decision_row. destruct (first_crossing a r) as [j|]; [|contradiction].
  intros [<-|[]]. eexists. reflexivity.
Qed.

Lemma signed_rts_bounds (a T : Q) (tspan : list Q) (x : traces) :
  Forall (fun t => (0 <= t <= T)%Q) tspan ->
  Forall (fun r => length r <= length tspan) x ->
  Forall (fun v => (- T <= v <= T)%Q) (signed_rts a tspan x).
Proof.
  intros Ht Hx. unfold signed_rts. apply Forall_forall. intros v Hv.
  apply in_map_iff in Hv. destruct Hv as ([t d] & <- & Hin). simpl.
  pose proof (in_combine_l _ _ _ _ Hin) as Hrt.
  pose proof (in_combine_r _ _ _ _ Hin) as Hd.
  apply in_flat_map in Hrt. destruct Hrt as (r & Hr & Hrt).
  apply in_flat_map in Hd. destruct Hd as (r' & _ & Hd).
  rewrite Forall_forall in Hx, Ht.
  apply (rt_row_In a tspan r t (Hx r Hr)) in Hrt. specialize (Ht t Hrt).
  destruct (decision_row_sign a r' d Hd) as [w ->].
  destruct (sign_cases w) as [[_ ->]|[[_ ->]|[_ ->]]]; [lra|lra|].
  assert (E : (t * inject_Z (-1) == - t)%Q) by (unfold inject_Z; ring).
  rewrite E. lra.
Qed.

Lemma signed_rts_length (a : Q) (tspan : list Q) (x : traces) :
  Forall (decided a) x ->
  length (signed_rts a tspan (map (force_row a) x)) = length x.
Proof.
  intros H. unfold signed_rts. rewrite length_map, length_combine.
  assert (E : length (flat_map (decision_row a) (map (force_row a) x))
              = length (flat_map (rt_row a tspan) (map (force_row a) x))).
  { clear H. induction x as [|r x IH]; [reflexivity|]. simpl.
    rewrite !length_app, IH, (decision_row_length a tspan). reflexivity. }
  rewrite E, Nat.min_id. apply outcomes_all_decided. exact H.
Qed.

Lemma time_grid_bounds (T : Q) (n : Z) :
  (2 <= n)%Z -> (0 <= T)%Q ->
  Forall (fun t => (0 <= t <= T)%Q) (time_grid T n).
Proof.
  intros Hn HT. destruct (linspace_ge2 0 T n Hn) as [_ Hstop].
  unfold time_grid.
  set (div := Z.to_nat n - 1) in *.
  set (step := ((T - 0) / inject_Z (Z.of_nat div))%Q) in *.
  assert (Hdiv : (0 < inject_Z (Z.of_nat div))%Q).
  { change 0%Q with (inject_Z 0). rewrite <- Zlt_Qlt. unfold div. lia. }
  assert (Hstep : (0 <= step)%Q).
  { unfold step. apply Qle_shift_div_l; [exact Hdiv|]. lra. }
  eapply Forall_impl; [|apply (ramp_bounds 0 step T div Hstep 0 Hstop)].
  cbv beta. intros t [H1 H2]. split; [|exact H2].
  change (inject_Z (Z.of_nat 0)) with 0%Q in H1. lra.
Qed.

Lemma histogram_conserved (T : Q) (nbins : Z) (a : list Q) :
  (0 <= T)%Q -> (2 <= nbins)%Z ->
  Forall (fun v => (- T <= v <= T)%Q) a ->
  exists bins h,
    NpHist.linspace (- T) T nbins = Ok bins
    /\ NpHist.histogram a bins = Ok h
    /\ conserved (length a) nbins h.
Proof.
  intros HT Hnb Ha.
  destruct (linspace_ge2 (- T) T nbins Hnb) as [Hlin Hstop].
  set (div := Z.to_nat nbins - 1) in *.
  set (step := ((T - - T) / inject_Z (Z.of_nat div))%Q) in *.
  assert (Hdiv : (0 < inject_Z (Z.of_nat div))%Q).
  { change 0%Q with (inject_Z 0). rewrite <- Zlt_Qlt. unfold div. lia. }
  assert (Hstep : (0 <= step)%Q).
  { unfold step. apply Qle_shift_div_l; [exact Hdiv|]. lra. }
  pose proof (ramp_increasing (- T) step T div Hstep 0 Hstop) as Hinc.
  destruct (histogram_spec a _ Hinc) as (h & Hh & Hlen & Hpos & Hsum).
  exists (ramp (- T) step T 0 div), h.
  split; [exact Hlin|]. split; [exact Hh|].
  rewrite ramp_length in Hlen, Hsum.
  split; [unfold div in *; lia|]. split; [exact Hpos|].
  rewrite Hsum by (unfold div; lia).
  pose proof (ramp_head (- T) step T 0 div Hstop) as Hhd.
  assert (Hlast : last (ramp (- T) step T 0 div) 0%Q = T)
    by (unfold ramp; apply last_last).
  rewrite Hlast.
  destruct (searchsorted_all a (hd 0%Q (ramp (- T) step T 0 div)) T)
    as [E1 E2].
  { eapply Forall_impl; [|exact Ha]. simpl. intros v [H1 H2].
    split; [|exact H2]. rewrite Hhd.
    change (inject_Z (Z.of_nat 0)) with 0%Q. lra. }
  rewrite E1, E2. lia.
Qed.

Lemma simulate_param_conservation (mu0 : Q) (num_trials : nat)
  (sigma T y0 a : Q) (nbins : Z) (dt : Q) (dW : nat -> nat -> Q) (n : Z) :
  int_quotient T dt = Ok n -> (2 <= n)%Z -> 1 <= num_trials ->
  (0 <= T)%Q -> (2 <= nbins)%Z ->
  Forall (decided a) (euler_paths mu0 num_trials sigma T y0 n dW) ->
  exists x h,
    simulate_param [mu0] num_trials sigma T y0 a nbins dt dW = Ok (x, [h])
    /\ conserved num_trials nbins h.
Proof.
  intros Hq Hn Htrials HT Hnb Hdec.
  rewrite (simulate_param_spec mu0 num_trials sigma T y0 a nbins dt dW n
             Hq Hn Htrials).
  destruct (euler_paths_shape mu0 num_trials sigma T y0 n dW Hn)
    as [Hlen Hrows].
  set (x := map (force_row a) (euler_paths mu0 num_trials sigma T y0 n dW)).
  destruct (histogram_conserved T nbins (signed_rts a (time_grid T n) x) HT Hnb)
    as (bins & h & Hb & Hh & Hc).
  { apply signed_rts_bounds; [apply time_grid_bounds; assumption|].
    unfold x. rewrite Forall_map. eapply Forall_impl; [|exact Hrows]. simpl.
    intros r Hr. rewrite force_row_length, time_grid_length by exact Hn. lia. }
  rewrite Hb. cbn [bind]. rewrite Hh. cbn [bind].
  exists x, h. split; [reflexivity|].
  unfold x in Hc. rewrite signed_rts_length, Hlen in Hc by exact Hdec.
  exact Hc.
Qed.

Lemma simulator_loop_conservation (num_trials : nat) (sigma T y0 a : Q)
  (nbins : Z) (dt : Q) (dW : nat -> nat -> nat -> Q) (n : Z)
  (rows : list (list Q)) :
  int_quotient T dt = Ok n -> (2 <= n)%Z -> 1 <= num_trials ->
  (0 <= T)%Q -> (2 <= nbins)%Z ->
  Forall (fun mu => length mu = 1) rows ->
  forall idx,
    (forall k, k < length rows ->
       Forall (decided a)
         (euler_paths (hd 0%Q (nth k rows [])) num_trials sigma T y0 n
            (dW (idx + k)))) ->
    exists xs ss,
      simulator_loop idx rows num_trials sigma T y0 a nbins dt dW = Ok (xs, ss)
      /\ length xs = length rows
      /\ length (concat ss) = length rows
      /\ Forall (conserved num_trials nbins) (concat ss).
Proof.
  intros Hq Hn Htrials HT Hnb Hdim.
  induction Hdim as [|mu rows Hmu _ IH]; intros idx Hdec.
  - exists [], []. repeat split; constructor.
  - destruct mu as [|mu0 [|? ?]]; try discriminate.
    destruct (simulate_param_conservation mu0 num_trials sigma T y0 a nbins dt
                (dW idx) n Hq Hn Htrials HT Hnb) as (x & h & Hp & Hc).
    { specialize (Hdec 0). rewrite Nat.add_0_r in Hdec. apply Hdec.
      simpl. lia. }
    destruct (IH (S idx)) as (xs & ss & Hl & Hxs & Hss & Hcs).
    { intros k Hk. specialize (Hdec (S k)).
      rewrite Nat.add_succ_r in Hdec. apply Hdec. simpl. lia. }
    exists (x :: xs), ([h] :: ss). cbn [simulator_loop].
    rewrite Hp. cbn [bind]. rewrite Hl. cbn [bind].
    split; [reflexivity|]. split; [simpl; lia|]. split; [simpl; lia|].
    simpl. constructor; assumption.
Qed.

(** Conservation, for the runs in which every trial is decided: on a batch
    of parameters of dimension 1, with at least one parameter, one trial,
    two grid points and two bin edges, and [T >= 0], the simulator returns
    one summary vector per parameter, of length [nbins - 1], without
    negative entries and with the sum [num_trials]. *)
Lemma simulator_conservation (parameters : py_parameters) (num_trials : nat)
  (sigma T y0 a : Q) (return_traces : bool) (nbins : Z) (dt : Q)
  (dW : nat -> nat -> nat -> Q) (n : Z) (rows : list (list Q)) :
  rows_of (coerce_parameters parameters) = Ok rows ->
  rows <> [] -> Forall (fun mu => length mu = 1) rows ->
  int_quotient T dt = Ok n -> (2 <= n)%Z -> 1 <= num_trials ->
  (0 <= T)%Q -> (2 <= nbins)%Z ->
  (forall k, k < length rows ->
     Forall (decided a)
       (euler_paths (hd 0%Q (nth k rows [])) num_trials sigma T y0 n (dW k))) ->
  exists out,
    simulator parameters num_trials sigma T y0 a return_traces nbins dt dW
    = Ok out
    /\ length (stats_of out) = length rows
    /\ Forall (conserved num_trials nbins) (stats_of out).
Proof.
  intros Hrows Hne Hdim Hq Hn Htrials HT Hnb Hdec.
  destruct (simulator_loop_conservation num_trials sigma T y0 a nbins dt dW n
              rows Hq Hn Htrials HT Hnb Hdim 0 Hdec)
    as (xs & ss & Hl & Hxs & Hss & Hcs).
  unfold simulator. rewrite Hrows. cbn [bind]. rewrite Hl. cbn [bind].
  destruct xs as [|x xs]; [destruct rows; [contradiction|discriminate]|].
  destruct ss as [|s ss]; [destruct rows; [contradiction|discriminate]|].
  cbn [torch_cat bind].
  destruct return_traces; eexists; (split; [reflexivity|]); split; assumption.
Qed.

(** ** The claims on [simulator]: validation of the configuration *)

Lemma simulate_param_few_steps (num_trials : nat) (sigma T y0 a : Q)
  (nbins : Z) (dt : Q) :
  (forall n, int_quotient T dt = Ok n -> (n < 2)%Z) ->
  exists e, forall mu dW,
      simulate_param mu num_trials sigma T y0 a nbins dt dW = Raise e.
Proof.
  intros H. unfold simulate_param.
  destruct (int_quotient T dt) as [n|e]; [|exists e; reflexivity].
  specialize (H n eq_refl). exists ValueError. intros mu dW. cbn [bind].
  unfold NpHist.linspace. destruct (Z.ltb_spec n 0) as [_|Hn]; [reflexivity|].
  destruct (Z.to_nat n) as [|[|d]] eqn:E; [reflexivity|reflexivity|lia].
Qed.

Lemma nonpositive_boundary_decided (a : Q) (r : list Q) :
  (a <= 0)%Q -> r <> [] -> decided a r.
Proof.
  intros Ha Hr. destruct r as [|v r]; [contradiction|].
  assert (E : first_crossing a (v :: r) = Some 0).
  { unfold first_crossing. simpl. replace (Np.crossed a v) with true;
      [reflexivity|]. symmetry. apply Qle_bool_iff.
    pose proof (Qabs_nonneg v). lra. }
  unfold decided, force_row. rewrite E, E. discriminate.
Qed.

(** C3, as stated, fails: a boundary [a <= 0] is not rejected.  With
    [a = -1] the call below returns its summary vector. *)
Lemma nonpositive_boundary_accepted :
  (-1 <= 0)%Q
  /\ simulator (PyTensor (Tensor2 [[0.5]]%Q)) 2 default_sigma 4 0 (-1) false
       5 1 (fun _ _ _ => 0%Q)
     = Ok (Stats [[0; 0; 2; 0]%Z]).
Proof. split; [discriminate|]. vm_compute. reflexivity. Qed.

(** C3, amended.  The simulator validates nothing by itself.  A configuration
    whose [dt] and [T] give fewer than two time steps does fail, and before
    any trajectory exists: the exception does not depend on the random
    draws.  A boundary [a <= 0] is accepted: on a batch of parameters of
    dimension 1, with at least one parameter, one trial, two time steps and
    two bin edges, and [T >= 0], the call returns, with every trial counted
    in the summary vector of its parameter. *)
Theorem simulator_rejects_short_grids_only
  (parameters : py_parameters) (num_trials : nat) (sigma T y0 a : Q)
  (return_traces : bool) (nbins : Z) (dt : Q) :
  ((forall n, int_quotient T dt = Ok n -> (n < 2)%Z) ->
   exists e, forall dW,
       simulator parameters num_trials sigma T y0 a return_traces nbins dt dW
       = Raise e)
  /\
  (forall n rows dW,
      (a <= 0)%Q ->
      rows_of (coerce_parameters parameters) = Ok rows ->
      rows <> [] -> Forall (fun mu => length mu = 1) rows ->
      int_quotient T dt = Ok n -> (2 <= n)%Z -> 1 <= num_trials ->
      (0 <= T)%Q -> (2 <= nbins)%Z ->
      exists out,
        simulator parameters num_trials sigma T y0 a return_traces nbins dt dW
        = Ok out
        /\ length (stats_of out) = length rows
        /\ Forall (conserved num_trials nbins) (stats_of out)).
Proof.
  split.
  - intros H. unfold simulator.
    destruct (rows_of (coerce_parameters parameters)) as [rows|e];
      [|exists e; reflexivity].
    destruct rows as [|mu rows]; [exists RuntimeError; reflexivity|].
    destruct (simulate_param_few_steps num_trials sigma T y0 a nbins dt H)
      as [e He].
    exists e. intros dW. cbn [bind simulator_loop]. rewrite He. reflexivity.
  - intros n rows dW Ha Hrows Hne Hdim Hq Hn Htrials HT Hnb.
    apply (simulator_conservation parameters num_trials sigma T y0 a
             return_traces nbins dt dW n rows); try assumption.
    intros k _.
    destruct (euler_paths_shape (hd 0%Q (nth k rows [])) num_trials sigma T y0
                n (dW k) Hn) as [_ Hshape].
    eapply Forall_impl; [|exact Hshape]. simpl. intros r Hr.
    apply nonpositive_boundary_decided; [exact Ha|].
    destruct r; [simpl in Hr; lia|discriminate].
Qed.

Lemma simulator_rejects_short_grids_only_witness :
  ((forall n, int_quotient 1 1 = Ok n -> (n < 2)%Z)
   /\ exists e, forall dW,
        simulator (PyTensor (Tensor2 [[0.5]]%Q)) 2 0.2 1 0 1 false 5 1 dW
        = Raise e)
  /\
  (((-1 <= 0)%Q
    /\ rows_of (coerce_parameters (PyTensor (Tensor2 [[0.5]]%Q)))
       = Ok [[0.5]%Q]
    /\ [[0.5]%Q] <> []
    /\ Forall (fun mu => length mu = 1) [[0.5]%Q]
    /\ int_quotient 4 1 = Ok 4%Z /\ (2 <= 4)%Z /\ 1 <= 2
    /\ (0 <= 4)%Q /\ (2 <= 5)%Z)
   /\ exists out,
       simulator (PyTensor (Tensor2 [[0.5]]%Q)) 2 0.2 4 0 (-1) false 5 1
         (fun _ _ _ => 0%Q)
       = Ok out
       /\ length (stats_of out) = length [[0.5]%Q]
       /\ Forall (conserved 2 5) (stats_of out)).
Proof.
  assert (H1 : forall n, int_quotient 1 1 = Ok n -> (n < 2)%Z).
  { intros n H. vm_compute in H. injection H as <-. lia. }
  split; [split; [exact H1|]|].
  - exact (proj1 (simulator_rejects_short_grids_only
                    (PyTensor (Tensor2 [[0.5]]%Q)) 2 0.2 1 0 1 false 5 1) H1).
  - assert (Ha : (-1 <= 0)%Q) by discriminate.
    assert (Hd : Forall (fun mu => length mu = 1) [[0.5]%Q])
      by (repeat constructor).
    assert (Hne : [[0.5]%Q] <> []) by discriminate.
    assert (HT : (0 <= 4)%Q) by discriminate.
    split.
    + repeat split; try assumption; try reflexivity; lia.
    + apply (proj2 (simulator_rejects_short_grids_only
                      (PyTensor (Tensor2 [[0.5]]%Q)) 2 0.2 4 0 (-1) false 5 1)
               4%Z [[0.5]%Q] (fun _ _ _ => 0%Q) Ha eq_refl Hne Hd eq_refl);
        [lia|lia|exact HT|lia].
Defined.

(** ** The claims on [simulator]: coercion of the parameters *)

Lemma first_crossing_has_crossing (a : Q) (r : list Q) :
  first_crossing a r <> None <-> has_crossing a r = true.
Proof.
  unfold first_crossing, has_crossing.
  induction r as [|v r IH]; simpl.
  - split; [intros H; contradiction|discriminate].
  - destruct (Np.crossed a v); simpl.
    + split; [reflexivity|discriminate].
    + rewrite <- IH.
      destruct (first_true (map (Np.crossed a) r)); simpl;
        split; intros H; try discriminate; try contradiction; exact H.
Qed.

Lemma decisions_count (a : Q) (tspan : list Q) (x : traces) :
  length (flat_map (decision_row a) x) = length (flat_map (rt_row a tspan) x).
Proof.
  induction x as [|r x IH]; [reflexivity|].
  simpl. rewrite !length_app, IH, (decision_row_length a tspan). reflexivity.
Qed.

Lemma signed_rts_count (a : Q) (tspan : list Q) (x : traces) :
  length (signed_rts a tspan x) = length (filter (has_crossing a) x).
Proof.
  unfold signed_rts.
  rewrite length_map, length_combine, (decisions_count a tspan), Nat.min_id.
  induction x as [|r x IH]; [reflexivity|].
  cbn [flat_map filter]. rewrite length_app, IH, rt_row_length.
  pose proof (first_crossing_has_crossing a r) as H.
  destruct (first_crossing a r) as [j|], (has_crossing a r);
    try reflexivity; exfalso.
  - assert (E : false = true) by (apply H; discriminate). discriminate.
  - apply (proj2 H); reflexivity.
Qed.

Lemma filter_length_bound {A : Type} (f : A -> bool) (l : list A) :
  length (filter f l) <= length l.
Proof.
  induction l as [|v l IH]; [reflexivity|].
  simpl. destruct (f v); simpl; lia.
Qed.

Lemma block_concat (n : nat) (xs : list traces) :
  Forall (fun x => length x = n) xs ->
  forall p, p < length xs -> block (concat xs) n p = nth p xs [].
Proof.
  induction 1 as [|x xs Hx _ IH]; intros p Hp; [simpl in Hp; lia|].
  destruct p as [|p].
  - unfold block. cbn [Nat.mul skipn concat nth].
    rewrite firstn_app, Hx, Nat.sub_diag, firstn_0, app_nil_r.
    apply firstn_all2. lia.
  - rewrite block_succ. cbn [concat nth].
    rewrite skipn_app, Hx, Nat.sub_diag.
    rewrite skipn_all2 by lia. cbn [skipn app].
    apply IH. simpl in Hp. lia.
Qed.

Lemma concat_singletons {A : Type} (l : list A) :
  concat (map (fun h => [h]) l) = l.
Proof. induction l as [|h l IH]; [reflexivity|]. simpl. f_equal. exact IH. Qed.

(** One valid run of one parameter: the trajectories with the forced last
    entries, and the counts. *)
Lemma simulate_param_counts (mu0 : Q) (num_trials : nat)
  (sigma T y0 a : Q) (nbins : Z) (dt : Q) (dW : nat -> nat -> Q) (n : Z) :
  int_quotient T dt = Ok n -> (2 <= n)%Z -> 1 <= num_trials ->
  (0 <= T)%Q -> (2 <= nbins)%Z ->
  let x := map (force_row a) (euler_paths mu0 num_trials sigma T y0 n dW) in
  exists h,
    simulate_param [mu0] num_trials sigma T y0 a nbins dt dW = Ok (x, [h])
    /\ conserved (length (filter (has_crossing a) x)) nbins h.
Proof.
  intros Hq Hn Htrials HT Hnb x.
  rewrite (simulate_param_spec mu0 num_trials sigma T y0 a nbins dt dW n
             Hq Hn Htrials).
  destruct (euler_paths_shape mu0 num_trials sigma T y0 n dW Hn)
    as [Hlen Hrows].
  fold x.
  destruct (histogram_conserved T nbins (signed_rts a (time_grid T n) x) HT Hnb)
    as (bins & h & Hb & Hh & Hc).
  { apply signed_rts_bounds; [apply time_grid_bounds; assumption|].
    unfold x. rewrite Forall_map. eapply Forall_impl; [|exact Hrows]. simpl.
    intros r Hr. rewrite force_row_length, time_grid_length by exact Hn. lia. }
  rewrite Hb. cbn [bind]. rewrite Hh. cbn [bind].
  exists h. split; [reflexivity|].
  rewrite signed_rts_count in Hc. exact Hc.
Qed.

Lemma simulator_loop_counts (num_trials : nat) (sigma T y0 a : Q)
  (nbins : Z) (dt : Q) (dW : nat -> nat -> nat -> Q) (n : Z)
  (rows : list (list Q)) :
  int_quotient T dt = Ok n -> (2 <= n)%Z -> 1 <= num_trials ->
  (0 <= T)%Q -> (2 <= nbins)%Z ->
  Forall (fun mu => length mu = 1) rows ->
  forall idx,
    exists xs hs,
      simulator_loop idx rows num_trials sigma T y0 a nbins dt dW
      = Ok (xs, map (fun h => [h]) hs)
      /\ length xs = length rows
      /\ length hs = length rows
      /\ forall p, p < length rows ->
           nth p xs []
           = map (force_row a)
               (euler_paths (hd 0%Q (nth p rows [])) num_trials sigma T y0 n
                  (dW (idx + p)))
           /\ conserved (length (filter (has_crossing a) (nth p xs [])))
                nbins (nth p hs []).
Proof.
  intros Hq Hn Htrials HT Hnb Hdim.
  induction Hdim as [|mu rows Hmu _ IH]; intros idx.
  - exists [], []. split; [reflexivity|]. split; [reflexivity|].
    split; [reflexivity|]. intros p Hp. simpl in Hp. lia.
  - destruct mu as [|mu0 [|? ?]]; try discriminate.
    destruct (simulate_param_counts mu0 num_trials sigma T y0 a nbins dt
                (dW idx) n Hq Hn Htrials HT Hnb) as (h & Hp & Hc).
    destruct (IH (S idx)) as (xs & hs & Hl & Hxs & Hhs & Hall).
    eexists (_ :: xs), (h :: hs). cbn [simulator_loop].
    rewrite Hp. cbn [bind]. rewrite Hl. cbn [bind map].
    split; [reflexivity|]. split; [simpl; lia|]. split; [simpl; lia|].
    intros [|p] Hlt.
    + cbn [nth hd]. rewrite Nat.add_0_r. split; [reflexivity|exact Hc].
    + cbn [nth]. replace (idx + S p) with (S idx + p) by lia.
      apply Hall. simpl in Hlt. lia.
Qed.

(** The simulator on a valid configuration, in closed form. *)
Lemma simulator_valid (parameters : py_parameters) (num_trials : nat)
  (sigma T y0 a : Q) (nbins : Z) (dt : Q) (dW : nat -> nat -> nat -> Q)
  (n : Z) (rows : list (list Q)) :
  rows_of (coerce_parameters parameters) = Ok rows ->
  rows <> [] -> Forall (fun mu => length mu = 1) rows ->
  int_quotient T dt = Ok n -> (2 <= n)%Z -> 1 <= num_trials ->
  (0 <= T)%Q -> (2 <= nbins)%Z ->
  exists xs stats,
    (forall return_traces : bool,
        simulator parameters num_trials sigma T y0 a return_traces nbins dt dW
        = Ok (if return_traces then TracesAndStats (concat xs) stats
              else Stats stats))
    /\ length xs = length rows
    /\ length stats = length rows
    /\ forall p, p < length rows ->
         nth p xs []
         = map (force_row a)
             (euler_paths (hd 0%Q (nth p rows [])) num_trials sigma T y0 n
                (dW p))
         /\ conserved (length (filter (has_crossing a) (nth p xs [])))
              nbins (nth p stats []).
Proof.
  intros Hrows Hne Hdim Hq Hn Htrials HT Hnb.
  destruct (simulator_loop_counts num_trials sigma T y0 a nbins dt dW n rows
              Hq Hn Htrials HT Hnb Hdim 0)
    as (xs & hs & Hl & Hxs & Hhs & Hall).
  exists xs, hs. split; [|split; [exact Hxs|split; [exact Hhs|exact Hall]]].
  intros return_traces. unfold simulator. rewrite Hrows. cbn [bind].
  rewrite Hl. cbn [bind].
  destruct xs as [|x xs]; [destruct rows; [contradiction|discriminate]|].
  destruct hs as [|h hs]; [destruct rows; [contradiction|discriminate]|].
  cbn [map torch_cat bind concat app]. rewrite concat_singletons.
  destruct return_traces; reflexivity.
Qed.

Lemma simulator_valid_blocks (num_trials : nat) (sigma T y0 a : Q) (n : Z)
  (dW : nat -> nat -> nat -> Q) (rows : list (list Q)) (xs : list traces) :
  (2 <= n)%Z -> length xs = length rows ->
  (forall p, p < length rows ->
     nth p xs []
     = map (force_row a)
         (euler_paths (hd 0%Q (nth p rows [])) num_trials sigma T y0 n
            (dW p))) ->
  Forall (fun x => length x = num_trials
                   /\ Forall (fun r => length r = Z.to_nat n) x) xs.
Proof.
  intros Hn Hlen Hall. apply Forall_forall. intros x Hx.
  destruct (In_nth xs x [] Hx) as (p & Hp & <-).
  rewrite Hall by lia.
  destruct (euler_paths_shape (hd 0%Q (nth p rows [])) num_trials sigma T y0
              n (dW p) Hn) as [H1 H2].
  split; [rewrite length_map; exact H1|].
  rewrite Forall_map. eapply Forall_impl; [|exact H2]. simpl.
  intros r Hr. rewrite force_row_length. exact Hr.
Qed.

Example simulator_float :
  simulator (PyFloat 0.5) 2 0 4 0 1 true 5 1 (fun _ _ _ => 0%Q)
  = simulator (PyTensor (Tensor1 [0.5]%Q)) 2 0 4 0 1 true 5 1
      (fun _ _ _ => 0%Q)
  /\ exists x, simulator (PyFloat 0.5) 2 0 4 0 1 true 5 1 (fun _ _ _ => 0%Q)
               = Ok (TracesAndStats x [[0; 0; 0; 2]%Z]).
Proof. split; [reflexivity|]. eexists. vm_compute. reflexivity. Qed.

(** C10, as stated, fails: a one-dimensional tensor is not accepted at any
    length.  The tensor [[0.5, 1]] is made the single row [[0.5, 1]], one
    parameter of dimension 2, and the call raises [ValueError] on a
    configuration on which the tensor [[0.5]] is simulated. *)
Lemma vector_parameter_rejected :
  rows_of (coerce_parameters (PyTensor (Tensor1 [0.5; 1]%Q)))
  = Ok [[0.5; 1]%Q]
  /\ simulator (PyTensor (Tensor1 [0.5; 1]%Q)) 2 0 4 0 1 false 5 1
       (fun _ _ _ => 0%Q)
     = Raise ValueError
  /\ simulator (PyTensor (Tensor1 [0.5]%Q)) 2 0 4 0 1 false 5 1
       (fun _ _ _ => 0%Q)
     = Ok (Stats [[0; 0; 0; 2]%Z]).
Proof.
  split; [reflexivity|]. split; vm_compute; reflexivity.
Qed.

(** C10, amended.  A bare Python float [x] becomes the batch with the
    single row [[x]], a one-dimensional tensor [v] the batch with the
    single row [v]: never one parameter per entry.  On a configuration
    with at least one trial, [int(T/dt) = n >= 2], [T >= 0] and at least
    two bin edges, the float and the tensor of length 1 are accepted and
    simulated as one parameter, [num_trials] trajectories and one summary
    vector; a tensor of any other length raises [ValueError]. *)
Theorem simulator_coerces_scalar_and_vector
  (num_trials : nat) (sigma T y0 a : Q) (nbins : Z) (dt : Q)
  (dW : nat -> nat -> nat -> Q) (n : Z) :
  int_quotient T dt = Ok n -> (2 <= n)%Z -> 1 <= num_trials ->
  (0 <= T)%Q -> (2 <= nbins)%Z ->
  (forall x,
      rows_of (coerce_parameters (PyFloat x)) = Ok [[x]]
      /\ exists x_traces stats,
          simulator (PyFloat x) num_trials sigma T y0 a true nbins dt dW
          = Ok (TracesAndStats x_traces stats)
          /\ simulator (PyFloat x) num_trials sigma T y0 a false nbins dt dW
             = Ok (Stats stats)
          /\ length x_traces = num_trials
          /\ length stats = 1)
  /\ (forall v,
        rows_of (coerce_parameters (PyTensor (Tensor1 v))) = Ok [v]
        /\ (length v = 1 ->
            exists x_traces stats,
              simulator (PyTensor (Tensor1 v)) num_trials sigma T y0 a true
                nbins dt dW
              = Ok (TracesAndStats x_traces stats)
              /\ simulator (PyTensor (Tensor1 v)) num_trials sigma T y0 a
                   false nbins dt dW
                 = Ok (Stats stats)
              /\ length x_traces = num_trials
              /\ length stats = 1)
        /\ (length v <> 1 ->
            forall return_traces,
              simulator (PyTensor (Tensor1 v)) num_trials sigma T y0 a
                return_traces nbins dt dW
              = Raise ValueError)).
Proof.
  intros Hq Hn Htrials HT Hnb.
  assert (Hone : forall parameters mu,
             rows_of (coerce_parameters parameters) = Ok [mu] ->
             length mu = 1 ->
             exists x_traces stats,
               simulator parameters num_trials sigma T y0 a true nbins dt dW
               = Ok (TracesAndStats x_traces stats)
               /\ simulator parameters num_trials sigma T y0 a false nbins dt
                    dW
                  = Ok (Stats stats)
               /\ length x_traces = num_trials
               /\ length stats = 1).
  { intros parameters mu Hrows Hmu.
    assert (Hne : [mu] <> []) by discriminate.
    assert (Hdim : Forall (fun m => length m = 1) [mu])
      by (constructor; [exact Hmu|constructor]).
    destruct (simulator_valid parameters num_trials sigma T y0 a nbins dt dW
                n [mu] Hrows Hne Hdim Hq Hn Htrials HT Hnb)
      as (xs & stats & Hsim & Hxs & Hst & Hall).
    pose proof (simulator_valid_blocks num_trials sigma T y0 a n dW [mu] xs
                  Hn Hxs (fun p Hp => proj1 (Hall p Hp))) as Hshape.
    exists (concat xs), stats.
    split; [exact (Hsim true)|]. split; [exact (Hsim false)|].
    split; [|exact Hst].
    destruct xs as [|x0 [|x1 xs]]; try discriminate.
    inversion Hshape as [|? ? [Hx0 _] _]; subst.
    cbn [concat]. rewrite app_nil_r. reflexivity. }
  split.
  - intros x. split; [reflexivity|]. apply (Hone (PyFloat x) [x]); reflexivity.
  - intros v. split; [reflexivity|]. split.
    + intros Hv. apply (Hone (PyTensor (Tensor1 v)) v); [reflexivity|exact Hv].
    + intros Hv return_traces. unfold simulator.
      cbn [coerce_parameters ndim Nat.eqb reshape_row rows_of bind
             simulator_loop].
      rewrite (simulate_param_dimension v num_trials sigma T y0 a nbins dt
                 (dW 0) n Hq Hn Htrials Hv).
      reflexivity.
Qed.

Lemma simulator_coerces_scalar_and_vector_witness :
  (int_quotient 4 1 = Ok 4%Z /\ (2 <= 4)%Z /\ 1 <= 3 /\ (0 <= 4)%Q
   /\ (2 <= 5)%Z)
  /\ (exists x_traces stats,
         simulator (PyFloat 0.5) 3 0.2 4 0 1 true 5 1 (fun _ _ _ => 0%Q)
         = Ok (TracesAndStats x_traces stats)
         /\ length x_traces = 3 /\ length stats = 1)
  /\ (exists x_traces stats,
         simulator (PyTensor (Tensor1 [0.5]%Q)) 3 0.2 4 0 1 true 5 1
           (fun _ _ _ => 0%Q)
         = Ok (TracesAndStats x_traces stats)
         /\ length x_traces = 3 /\ length stats = 1)
  /\ simulator (PyTensor (Tensor1 [0.5; 1; 2]%Q)) 3 0.2 4 0 1 true 5 1
       (fun _ _ _ => 0%Q)
     = Raise ValueError.
Proof.
  assert (H2 : (2 <= 4)%Z) by lia.
  assert (H3 : 1 <= 3) by lia.
  assert (HT : (0 <= 4)%Q) by discriminate.
  assert (H5 : (2 <= 5)%Z) by lia.
  split; [repeat split; try assumption; reflexivity|].
  destruct (simulator_coerces_scalar_and_vector 3 0.2 4 0 1 5 1
              (fun _ _ _ => 0%Q) 4%Z eq_refl H2 H3 HT H5) as [Hf Hv].
  split; [|split].
  - destruct (Hf 0.5%Q) as (_ & x_traces & stats & E & _ & Hx & Hs).
    exists x_traces, stats. split; [exact E|]. split; [exact Hx|exact Hs].
  - destruct (Hv [0.5]%Q) as (_ & H1 & _).
    destruct (H1 eq_refl) as (x_traces & stats & E & _ & Hx & Hs).
    exists x_traces, stats. split; [exact E|]. split; [exact Hx|exact Hs].
  - destruct (Hv [0.5; 1; 2]%Q) as (_ & _ & Hbad).
    apply Hbad. simpl. lia.
Defined.

(** ** The sort and the acceptance rule of rejection ABC *)

Section RejectionABC.

Variables Param Summary : Type.
Variable prior : nat -> list Param.
Variable simulator : list Param -> list Summary.
Variable distance_fun : Summary -> Summary -> Q.

Lemma insert_by_distance_perm (x : Param * Q) (l : list (Param * Q)) :
  Permutation (insert_by_distance x l) (x :: l).
Proof.
  induction l as [|y l IH]; simpl; [reflexivity|].
  destruct (Qle_bool (snd x) (snd y)); [reflexivity|].
  rewrite IH. apply perm_swap.
Qed.

Lemma sort_by_distance_perm (l : list (Param * Q)) :
  Permutation (sort_by_distance l) l.
Proof.
  induction l as [|x l IH]; simpl; [reflexivity|].
  rewrite insert_by_distance_perm, IH. reflexivity.
Qed.

Lemma insert_by_distance_sorted (x : Param * Q) (l : list (Param * Q)) :
  StronglySorted closer l -> StronglySorted closer (insert_by_distance x l).
Proof.
  induction 1 as [|y l Hs IH Hy]; simpl.
  - constructor; constructor.
  - destruct (Qle_bool (snd x) (snd y)) eqn:E.
    + apply Qle_bool_iff in E. constructor; [constructor; assumption|].
      constructor; [exact E|]. eapply Forall_impl; [|exact Hy].
      unfold closer. simpl. intros z Hz. lra.
    + constructor; [exact IH|].
      assert (Hyx : closer y x).
      { unfold closer. apply not_true_iff_false in E.
        rewrite Qle_bool_iff in E. lra. }
      eapply Permutation_Forall;
        [apply Permutation_sym, insert_by_distance_perm|].
      constructor; assumption.
Qed.

Lemma sort_by_distance_sorted (l : list (Param * Q)) :
  StronglySorted closer (sort_by_distance l).
Proof.
  induction l as [|x l IH]; simpl; [constructor|].
  apply insert_by_distance_sorted. exact IH.
Qed.

Lemma insert_by_distance_stable (d : Q) (x : Param * Q) (l : list (Param * Q)) :
  filter (at_distance d) (insert_by_distance x l)
  = filter (at_distance d) (x :: l).
Proof.
  induction l as [|y l IH]; [reflexivity|].
  cbn [insert_by_distance].
  destruct (Qle_bool (snd x) (snd y)) eqn:E; [reflexivity|].
  cbn [filter] in *. rewrite IH.
  destruct (at_distance d x) eqn:Ex, (at_distance d y) eqn:Ey; try reflexivity.
  exfalso. unfold at_distance in Ex, Ey.
  apply Qeq_bool_iff in Ex, Ey. apply not_true_iff_false in E. apply E.
  apply Qle_bool_iff. rewrite Ex, Ey. apply Qle_refl.
Qed.

Lemma sort_by_distance_stable (d : Q) (l : list (Param * Q)) :
  filter (at_distance d) (sort_by_distance l) = filter (at_distance d) l.
Proof.
  induction l as [|x l IH]; [reflexivity|].
  cbn [sort_by_distance fold_right]. fold (sort_by_distance l).
  rewrite insert_by_distance_stable. cbn [filter]. rewrite IH. reflexivity.
Qed.

Lemma sorted_split (l : list (Param * Q)) :
  StronglySorted closer l ->
  forall k p r, In p (firstn k l) -> In r (skipn k l) -> closer p r.
Proof.
  induction 1 as [|y l Hs IH Hy]; intros k p r Hp Hr.
  - rewrite firstn_nil in Hp. contradiction.
  - destruct k as [|k]; [contradiction|]. simpl in Hp, Hr.
    destruct Hp as [<-|Hp].
    + rewrite Forall_forall in Hy. apply Hy.
      rewrite <- (firstn_skipn k l). apply in_or_app. right. exact Hr.
    + apply (IH k); assumption.
Qed.

Lemma valid_configuration_iff (budget : Z) (q : Q) :
  valid_configuration budget q = true <-> (1 <= budget)%Z /\ (0 < q <= 1)%Q.
Proof.
  unfold valid_configuration.
  rewrite !andb_true_iff, negb_true_iff, Z.leb_le, Qle_bool_iff.
  rewrite <- not_true_iff_false, Qle_bool_iff. split.
  - intros [[H1 H2] H3]. split; [exact H1|]. split; [lra|exact H3].
  - intros [H1 [H2 H3]]. split; [split; [exact H1|lra]|exact H3].
Qed.

Lemma acceptance_count_le (budget : Z) (q : Q) :
  (1 <= budget)%Z -> (0 < q <= 1)%Q ->
  acceptance_count budget q <= Z.to_nat budget.
Proof.
  intros Hb [Hq0 Hq1]. unfold acceptance_count. apply Z2Nat.inj_le.
  - rewrite <- (Qfloor_Z 0). apply Qfloor_resp_le.
    assert (H : (0 <= inject_Z budget)%Q).
    { change 0%Q with (inject_Z 0). rewrite <- Zle_Qle. lia. }
    change (inject_Z 0) with 0%Q. nra.
  - lia.
  - rewrite <- (Qfloor_Z budget) at 2. apply Qfloor_resp_le.
    assert (H : (0 <= inject_Z budget)%Q).
    { change 0%Q with (inject_Z 0). rewrite <- Zle_Qle. lia. }
    nra.
Qed.

Lemma scored_length (observed : Summary) (budget : Z) :
  length (prior (Z.to_nat budget)) = Z.to_nat budget ->
  length (simulator (prior (Z.to_nat budget))) = Z.to_nat budget ->
  length (scored prior simulator observed budget distance_fun)
  = Z.to_nat budget.
Proof.
  intros H1 H2. unfold scored. rewrite length_combine, length_map, H1, H2.
  apply Nat.min_id.
Qed.

(** ** The claims on [rejection_abc] *)

(** C4.  The acceptance rule.  For a prior and a simulator that return one
    value per requested draw, a budget of at least 1 and a quantile in
    (0, 1]: the call returns exactly [floor(budget * q)] parameters; they
    are the head of the drawn parameters sorted by distance, so every
    accepted distance is at most every rejected distance; the sort is
    stable, that is the parameters at any one distance keep the order in
    which they were simulated.  With a budget of 10000 and [q = 0.01]
    exactly 100 parameters are accepted. *)
Theorem rejection_abc_acceptance_rule (observed : Summary) (budget : Z)
  (q : Q) :
  (1 <= budget)%Z -> (0 < q <= 1)%Q ->
  length (prior (Z.to_nat budget)) = Z.to_nat budget ->
  length (simulator (prior (Z.to_nat budget))) = Z.to_nat budget ->
  exists accepted rejected,
    fst (rejection_abc prior simulator observed budget distance_fun q)
    = Accepted (map fst accepted)
    /\ length accepted = Z.to_nat (Qfloor (inject_Z budget * q))
    /\ length accepted + length rejected = Z.to_nat budget
    /\ Permutation (accepted ++ rejected)
         (scored prior simulator observed budget distance_fun)
    /\ (forall p r, In p accepted -> In r rejected -> (snd p <= snd r)%Q)
    /\ (forall d, filter (at_distance d) (accepted ++ rejected)
                  = filter (at_distance d)
                      (scored prior simulator observed budget distance_fun))
    /\ (budget = 10000%Z -> (q == 1 # 100)%Q -> length accepted = 100).
Proof.
  intros Hb Hq Hprior Hsim.
  set (ranked := sort_by_distance
                   (scored prior simulator observed budget distance_fun)).
  set (k := acceptance_count budget q).
  assert (Hlen : length ranked = Z.to_nat budget).
  { unfold ranked.
    rewrite (Permutation_length (sort_by_distance_perm _)).
    apply scored_length; assumption. }
  assert (Hk : k <= Z.to_nat budget) by (apply acceptance_count_le; assumption).
  assert (Hacc : length (firstn k ranked) = k)
    by (rewrite length_firstn; lia).
  exists (firstn k ranked), (skipn k ranked).
  split; [|split; [|split; [|split; [|split; [|split]]]]].
  - unfold rejection_abc.
    rewrite (proj2 (valid_configuration_iff budget q) (conj Hb Hq)).
    reflexivity.
  - exact Hacc.
  - rewrite Hacc, length_skipn. lia.
  - rewrite firstn_skipn. apply sort_by_distance_perm.
  - intros p r Hp Hr.
    exact (sorted_split ranked (sort_by_distance_sorted _) k p r Hp Hr).
  - intros d. rewrite firstn_skipn. apply sort_by_distance_stable.
  - intros -> Hq'. rewrite Hacc. unfold k, acceptance_count.
    rewrite (Qfloor_comp _ (inject_Z 10000 * (1 # 100))%Q)
      by (rewrite Hq'; reflexivity).
    reflexivity.
Qed.



End RejectionABC.

Example rejection_abc_example :
  rejection_abc ramp_prior identity_simulator 2%Q 6%Z abs_distance (1 # 2)%Q
  = (Accepted [2; 1; 3]%Q, [DrawPrior 6; Simulate 6; Score 6]).
Proof. reflexivity. Qed.

Example rejection_abc_stub_raises :
  rejection_abc_stub ramp_prior identity_simulator 2%Q 6%Z abs_distance
    (1 # 2)%Q = Raise NameError.
Proof. reflexivity. Qed.

Lemma rejection_abc_acceptance_rule_witness :
  ((1 <= 6)%Z /\ (0 < 1 # 2 <= 1)%Q
   /\ length (ramp_prior (Z.to_nat 6)) = Z.to_nat 6
   /\ length (identity_simulator (ramp_prior (Z.to_nat 6))) = Z.to_nat 6)
  /\ exists accepted rejected : list (Q * Q),
      fst (rejection_abc ramp_prior identity_simulator 2%Q 6%Z abs_distance
        (1 # 2)%Q)
      = Accepted (map fst accepted)
      /\ length accepted = 3
      /\ forall p r, In p accepted -> In r rejected -> (snd p <= snd r)%Q.
Proof.
  assert (Hb : (1 <= 6)%Z) by lia.
  assert (Hq : (0 < 1 # 2 <= 1)%Q) by (split; [reflexivity|discriminate]).
  split; [repeat split; try reflexivity; try lia; discriminate|].
  destruct (rejection_abc_acceptance_rule Q Q ramp_prior identity_simulator
              abs_distance 2%Q 6%Z (1 # 2)%Q Hb Hq eq_refl eq_refl)
    as (accepted & rejected & H1 & H2 & _ & _ & H5 & _).
  exists accepted, rejected. split; [exact H1|]. split; [exact H2|exact H5].
Defined.


(** * Further properties of the code *)

(** ** The extractor: how many outcomes, and which values *)

Lemma decided_decides (a : Q) (r : list Q) :
  r <> [] -> (0 < a)%Q -> (decided a r <-> decides a r = true).
Proof.
  intros Hr Ha. rewrite (decided_iff a r Hr Ha). unfold decides.
  rewrite orb_true_iff, negb_true_iff, first_crossing_has_crossing.
  rewrite <- not_true_iff_false, Qeq_bool_iff. reflexivity.
Qed.

Lemma outcomes_count (a : Q) (tspan : list Q) (x : traces) :
  (0 < a)%Q -> Forall (fun r => r <> []) x ->
  length (flat_map (rt_row a tspan) (map (force_row a) x))
  = length (filter (decides a) x).
Proof.
  intros Ha. induction 1 as [|r x Hr _ IH]; [reflexivity|].
  simpl. rewrite length_app, IH, rt_row_length.
  pose proof (decided_decides a r Hr Ha) as Hd. unfold decided in Hd.
  destruct (decides a r).
  - destruct (first_crossing a (force_row a r)); [reflexivity|].
    exfalso. apply (proj2 Hd); reflexivity.
  - destruct (first_crossing a (force_row a r)); [|reflexivity].
    assert (E : false = true) by (apply Hd; discriminate). discriminate.
Qed.

Lemma block_facts (x : traces) (num_parameters num_trials : nat)
  (P : list Q -> Prop) (p : nat) :
  length x = num_parameters * num_trials -> p < num_parameters ->
  Forall P x ->
  length (block x num_trials p) = num_trials
  /\ Forall P (block x num_trials p).
Proof.
  intros Hlen Hp H. split.
  - unfold block. rewrite length_firstn, length_skipn. nia.
  - apply Forall_forall. intros r Hr. rewrite Forall_forall in H.
    apply H. eapply block_In. exact Hr.
Qed.

Lemma array_Ok {A : Type} (rows : list (list A)) (n : nat) :
  Forall (fun r => length r = n) rows -> Np.array rows = Ok rows.
Proof.
  intros H. destruct rows as [|r rows]; [reflexivity|].
  inversion H as [|? ? Hr Hrows]; subst. unfold Np.array.
  replace (forallb _ rows) with true; [reflexivity|].
  symmetry. apply forallb_forall. intros r' Hr'. apply Nat.eqb_eq.
  rewrite Forall_forall in Hrows. exact (Hrows r' Hr').
Qed.

Lemma array_Raise {A : Type} (rows : list (list A)) (r : list A) :
  In r rows -> length r <> length (hd [] rows) ->
  Np.array rows = Raise ValueError.
Proof.
  intros Hin Hr. destruct rows as [|r0 rows]; [contradiction|].
  cbn [hd] in Hr. destruct Hin as [->|Hin]; [contradiction|].
  unfold Np.array.
  destruct (forallb (fun r' => length r' =? length r0) rows) eqn:E;
    [|reflexivity].
  exfalso. apply Hr. apply Nat.eqb_eq.
  exact (proj1 (forallb_forall _ rows) E r Hin).
Qed.

Lemma outcome_lengths (x : traces) (num_parameters num_trials : nat)
  (tspan : list Q) (a : Q) (p : nat) :
  length x = num_parameters * num_trials ->
  Forall (row_ok tspan) x -> (0 < a)%Q -> p < num_parameters ->
  length (flat_map (rt_row a tspan) (map (force_row a) (block x num_trials p)))
  = length (filter (decides a) (block x num_trials p))
  /\ length (flat_map (decision_row a)
               (map (force_row a) (block x num_trials p)))
     = length (filter (decides a) (block x num_trials p)).
Proof.
  intros Hlen Hok Ha Hp.
  destruct (block_facts x num_parameters num_trials (row_ok tspan) p
              Hlen Hp Hok) as [_ Hb].
  assert (Hne : Forall (fun r => r <> []) (block x num_trials p))
    by (eapply Forall_impl; [|exact Hb]; intros r [H _]; exact H).
  rewrite (decisions_count a tspan), outcomes_count by assumption.
  split; reflexivity.
Qed.

(** X1.  How many outcomes, and when the call returns at all.  With a
    positive boundary, on a batch that passes the shape assertion and whose
    rows the time grid covers, count for each parameter its trials that
    cross the boundary or end at a value other than 0.  If the count is
    the same for every parameter, the call returns two arrays with one row
    per parameter and that many entries per row.  If two parameters differ
    in the count, the lists cannot be made arrays and the call raises
    [ValueError] at its last line. *)
Theorem outcome_count_per_parameter
  (x : traces) (num_parameters num_trials : nat) (tspan : list Q) (a : Q) :
  length x = num_parameters * num_trials ->
  Forall (row_ok tspan) x ->
  (0 < a)%Q ->
  let count p := length (filter (decides a) (block x num_trials p)) in
  ((forall p, p < num_parameters -> count p = count 0) ->
   exists x' rts decisions,
     find_rts_and_decisions_arrays x num_parameters num_trials tspan a
     = Ok (x', rts, decisions)
     /\ length rts = num_parameters
     /\ length decisions = num_parameters
     /\ forall p, p < num_parameters ->
          length (nth p rts []) = count p
          /\ length (nth p decisions []) = count p)
  /\ ((exists p, p < num_parameters /\ count p <> count 0) ->
      find_rts_and_decisions_arrays x num_parameters num_trials tspan a
      = Raise ValueError).
Proof.
  intros Hlen Hok Ha count.
  unfold find_rts_and_decisions_arrays.
  rewrite (find_rts_and_decisions_spec x num_parameters num_trials tspan a
             Hlen Hok).
  cbn [bind].
  set (rts := map (fun p => flat_map (rt_row a tspan)
                              (map (force_row a) (block x num_trials p)))
                  (seq 0 num_parameters)).
  set (decisions := map (fun p => flat_map (decision_row a)
                                    (map (force_row a) (block x num_trials p)))
                        (seq 0 num_parameters)).
  assert (Hl : forall p, p < num_parameters ->
                 length (nth p rts []) = count p
                 /\ length (nth p decisions []) = count p).
  { intros p Hp. unfold rts, decisions. rewrite !nth_map_seq by exact Hp.
    exact (outcome_lengths x num_parameters num_trials tspan a p
             Hlen Hok Ha Hp). }
  split.
  - intros Hsame.
    assert (Hr : Forall (fun r => length r = count 0) rts).
    { apply Forall_forall. intros r Hr. apply in_map_iff in Hr.
      destruct Hr as (p & <- & Hp). apply in_seq in Hp.
      rewrite <- (Hsame p) by lia.
      exact (proj1 (outcome_lengths x num_parameters num_trials tspan a p
                      Hlen Hok Ha (proj2 Hp))). }
    assert (Hd : Forall (fun r => length r = count 0) decisions).
    { apply Forall_forall. intros r Hr'. apply in_map_iff in Hr'.
      destruct Hr' as (p & <- & Hp). apply in_seq in Hp.
      rewrite <- (Hsame p) by lia.
      exact (proj2 (outcome_lengths x num_parameters num_trials tspan a p
                      Hlen Hok Ha (proj2 Hp))). }
    rewrite (array_Ok rts _ Hr). cbn [bind].
    rewrite (array_Ok decisions _ Hd). cbn [bind].
    eexists _, _, _. split; [reflexivity|].
    split; [unfold rts; rewrite length_map, length_seq; reflexivity|].
    split; [unfold decisions; rewrite length_map, length_seq; reflexivity|].
    exact Hl.
  - intros (p & Hp & Hdiff).
    rewrite (array_Raise rts (nth p rts [])); [reflexivity| |].
    + apply nth_In. unfold rts. rewrite length_map, length_seq. exact Hp.
    + replace (hd [] rts) with (nth 0 rts []) by (destruct rts; reflexivity).
      rewrite (proj1 (Hl p Hp)), (proj1 (Hl 0 ltac:(lia))). exact Hdiff.
Qed.

Lemma outcome_count_per_parameter_witness :
  ((length [[0; 0.5; 1.2]; [0; 0.5; 0.3]; [0; 0.1; 0.2]; [0; 1; 2]]%Q = 2 * 2
    /\ Forall (row_ok [0; 2.5; 5]%Q)
         [[0; 0.5; 1.2]; [0; 0.5; 0.3]; [0; 0.1; 0.2]; [0; 1; 2]]%Q
    /\ (0 < 1)%Q)
   /\ exists x' rts decisions,
       find_rts_and_decisions_arrays
         [[0; 0.5; 1.2]; [0; 0.5; 0.3]; [0; 0.1; 0.2]; [0; 1; 2]]%Q
         2 2 [0; 2.5; 5]%Q 1
       = Ok (x', rts, decisions)
       /\ length (nth 1 rts []) = 2)
  /\ ((length [[0; 0.5; 1.2]; [0; 0.3; 0]; [0; 0.1; 0.2]; [0; 1; 2]]%Q = 2 * 2
       /\ Forall (row_ok [0; 2.5; 5]%Q)
            [[0; 0.5; 1.2]; [0; 0.3; 0]; [0; 0.1; 0.2]; [0; 1; 2]]%Q
       /\ (0 < 1)%Q)
      /\ find_rts_and_decisions_arrays
           [[0; 0.5; 1.2]; [0; 0.3; 0]; [0; 0.1; 0.2]; [0; 1; 2]]%Q
           2 2 [0; 2.5; 5]%Q 1
         = Raise ValueError).
Proof.
  assert (Hok : Forall (row_ok [0; 2.5; 5]%Q)
                  [[0; 0.5; 1.2]; [0; 0.3; 0]; [0; 0.1; 0.2]; [0; 1; 2]]%Q).
  { repeat constructor; simpl; try discriminate; lia. }
  assert (Hok' : Forall (row_ok [0; 2.5; 5]%Q)
                   [[0; 0.5; 1.2]; [0; 0.5; 0.3]; [0; 0.1; 0.2]; [0; 1; 2]]%Q).
  { repeat constructor; simpl; try discriminate; lia. }
  assert (Ha : (0 < 1)%Q) by reflexivity.
  split; (split; [repeat split; assumption|]).
  - destruct (proj1 (outcome_count_per_parameter
                       [[0; 0.5; 1.2]; [0; 0.5; 0.3]; [0; 0.1; 0.2];
                        [0; 1; 2]]%Q 2 2 [0; 2.5; 5]%Q 1 eq_refl Hok' Ha))
      as (x' & rts & decisions & E & _ & _ & H).
    { intros [|[|p]] Hp; [reflexivity|reflexivity|lia]. }
    exists x', rts, decisions. split; [exact E|].
    destruct (H 1) as [H1 _]; [lia|]. exact H1.
  - apply (proj2 (outcome_count_per_parameter
                    [[0; 0.5; 1.2]; [0; 0.3; 0]; [0; 0.1; 0.2]; [0; 1; 2]]%Q
                    2 2 [0; 2.5; 5]%Q 1 eq_refl Hok Ha)).
    exists 1. split; [lia|]. vm_compute. discriminate.
Defined.

(** X2.  With a positive boundary every decision the call returns is 1 or
    -1, and every reaction time it returns is a point of the time grid it
    was given. *)
Theorem outcomes_are_signs_and_grid_points
  (x : traces) (num_parameters num_trials : nat) (tspan : list Q) (a : Q) :
  length x = num_parameters * num_trials ->
  Forall (row_ok tspan) x ->
  (0 < a)%Q ->
  exists x' rts decisions,
    find_rts_and_decisions x num_parameters num_trials tspan a
    = Ok (x', rts, decisions)
    /\ Forall (Forall (fun t => In t tspan)) rts
    /\ Forall (Forall (fun d => d = 1%Q \/ d = inject_Z (-1))) decisions.
Proof.
  intros Hlen Hok Ha.
  rewrite (find_rts_and_decisions_spec x num_parameters num_trials tspan a
             Hlen Hok).
  eexists _, _, _. split; [reflexivity|].
  split; apply Forall_forall; intros l Hl; apply in_map_iff in Hl;
    destruct Hl as (p & <- & Hp); apply in_seq in Hp;
    apply Forall_forall; intros v Hv; apply in_flat_map in Hv;
    destruct Hv as (r & Hr & Hv).
  - apply in_map_iff in Hr. destruct Hr as (r0 & <- & Hr0).
    apply (block_In x num_trials p) in Hr0. rewrite Forall_forall in Hok.
    destruct (Hok r0 Hr0) as [_ Hle].
    apply (rt_row_In a tspan (force_row a r0) v);
      [rewrite force_row_length; exact Hle|exact Hv].
  - unfold decision_row in Hv.
    destruct (first_crossing a r) as [j|] eqn:E; [|contradiction].
    destruct Hv as [<-|[]].
    destruct (first_crossing_spec a r j E) as (_ & Hj & _).
    exact (sign_of_crossing a _ Ha Hj).
Qed.

Lemma outcomes_are_signs_and_grid_points_witness :
  (length [[0; 0.5; 1.2]; [0; -0.3; -0.1]]%Q = 1 * 2
   /\ Forall (row_ok [0; 2.5; 5]%Q) [[0; 0.5; 1.2]; [0; -0.3; -0.1]]%Q
   /\ (0 < 1)%Q)
  /\ exists x' rts decisions,
      find_rts_and_decisions [[0; 0.5; 1.2]; [0; -0.3; -0.1]]%Q 1 2
        [0; 2.5; 5]%Q 1
      = Ok (x', rts, decisions)
      /\ Forall (Forall (fun d => d = 1%Q \/ d = inject_Z (-1))) decisions.
Proof.
  assert (Hok : Forall (row_ok [0; 2.5; 5]%Q)
                  [[0; 0.5; 1.2]; [0; -0.3; -0.1]]%Q).
  { repeat constructor; simpl; try discriminate; lia. }
  assert (Ha : (0 < 1)%Q) by reflexivity.
  split; [repeat split; assumption|].
  destruct (outcomes_are_signs_and_grid_points
              [[0; 0.5; 1.2]; [0; -0.3; -0.1]]%Q 1 2 [0; 2.5; 5]%Q 1
              eq_refl Hok Ha)
    as (x' & rts & decisions & E & _ & H).
  exists x', rts, decisions. split; [exact E|exact H].
Defined.

(** ** The extractor with a boundary that is not positive *)

Lemma first_crossing_nonpositive (a : Q) (r : list Q) :
  (a <= 0)%Q -> r <> [] -> first_crossing a r = Some 0.
Proof.
  intros Ha Hr. destruct r as [|v r]; [contradiction|].
  unfold first_crossing. simpl.
  replace (Np.crossed a v) with true; [reflexivity|].
  symmetry. apply Qle_bool_iff. pose proof (Qabs_nonneg v). lra.
Qed.

Lemma flat_map_singleton {A B : Type} (f : A -> list B) (g : A -> B)
  (l : list A) :
  (forall v, In v l -> f v = [g v]) -> flat_map f l = map g l.
Proof.
  induction l as [|v l IH]; intros H; [reflexivity|].
  simpl. rewrite (H v (or_introl eq_refl)), IH; [reflexivity|].
  intros w Hw. apply H. right. exact Hw.
Qed.

(** X3.  With a boundary [a <= 0] every comparison [|X| >= a] holds, so no
    trial is forced and every trial is decided at the first time index: the
    array is returned as it was, every reaction time is [tspan[0]] and
    every decision is the sign of the trial's first sample (0 for a trial
    that starts at 0). *)
Theorem nonpositive_boundary_decides_at_start
  (x : traces) (num_parameters num_trials : nat) (tspan : list Q) (a : Q) :
  length x = num_parameters * num_trials ->
  Forall (row_ok tspan) x ->
  (a <= 0)%Q ->
  find_rts_and_decisions x num_parameters num_trials tspan a
  = Ok (x,
        map (fun p => map (fun _ => nth 0 tspan 0%Q) (block x num_trials p))
            (seq 0 num_parameters),
        map (fun p => map (fun r => Np.sign (hd 0%Q r)) (block x num_trials p))
            (seq 0 num_parameters)).
Proof.
  intros Hlen Hok Ha.
  rewrite (find_rts_and_decisions_spec x num_parameters num_trials tspan a
             Hlen Hok).
  assert (Hforce : forall r, In r x -> force_row a r = r).
  { intros r Hr. rewrite Forall_forall in Hok. destruct (Hok r Hr) as [Hne _].
    unfold force_row. rewrite first_crossing_nonpositive by assumption.
    reflexivity. }
  apply f_equal. apply f_equal2; [apply f_equal2|].
  - rewrite <- (map_id x) at 2. apply map_ext_in. exact Hforce.
  - apply map_ext. intros p.
    rewrite (map_ext_in (force_row a) (fun r => r))
      by (intros r Hr; apply Hforce; eapply block_In; exact Hr).
    rewrite map_id. apply flat_map_singleton. intros r Hr.
    apply (block_In x num_trials p) in Hr. rewrite Forall_forall in Hok.
    destruct (Hok r Hr) as [Hne _]. unfold rt_row.
    rewrite first_crossing_nonpositive by assumption. reflexivity.
  - apply map_ext. intros p.
    rewrite (map_ext_in (force_row a) (fun r => r))
      by (intros r Hr; apply Hforce; eapply block_In; exact Hr).
    rewrite map_id. apply flat_map_singleton. intros r Hr.
    apply (block_In x num_trials p) in Hr. rewrite Forall_forall in Hok.
    destruct (Hok r Hr) as [Hne _]. unfold decision_row.
    rewrite first_crossing_nonpositive by assumption.
    destruct r; [contradiction|reflexivity].
Qed.

Lemma nonpositive_boundary_decides_at_start_witness :
  (length [[0; 0.5]; [-0.2; 3]]%Q = 1 * 2
   /\ Forall (row_ok [0; 5]%Q) [[0; 0.5]; [-0.2; 3]]%Q
   /\ (0 <= 0)%Q)
  /\ find_rts_and_decisions [[0; 0.5]; [-0.2; 3]]%Q 1 2 [0; 5]%Q 0
     = Ok ([[0; 0.5]; [-0.2; 3]]%Q, [[0; 0]]%Q, [[0; -1]]%Q).
Proof.
  assert (Hok : Forall (row_ok [0; 5]%Q) [[0; 0.5]; [-0.2; 3]]%Q).
  { repeat constructor; simpl; try discriminate; lia. }
  assert (Ha : (0 <= 0)%Q) by discriminate.
  split; [repeat split; assumption|].
  exact (nonpositive_boundary_decides_at_start
           [[0; 0.5]; [-0.2; 3]]%Q 1 2 [0; 5]%Q 0 eq_refl Hok Ha).
Defined.

(** ** The extractor on its own output, and on mirrored trajectories *)

Lemma set_last_set_last {A : Type} (v w : A) (r : list A) :
  Np.set_last w (Np.set_last v r) = Np.set_last w r.
Proof.
  induction r as [|u r IH]; [reflexivity|].
  destruct r as [|u' r]; [reflexivity|].
  change (Np.set_last w (u :: Np.set_last v (u' :: r))
          = u :: Np.set_last w (u' :: r)).
  rewrite <- IH.
  destruct (Np.set_last v (u' :: r)) eqn:E; [|reflexivity].
  apply (f_equal (@length A)) in E. rewrite set_last_length in E.
  discriminate.
Qed.

Lemma sign_zero (v : Q) : (v == 0)%Q -> Np.sign v = 0%Q.
Proof.
  intros H. destruct (sign_cases v) as [[_ E]|[[H' _]|[H' _]]];
    [exact E|lra|lra].
Qed.

Lemma force_row_idempotent (a : Q) (r : list Q) :
  force_row a (force_row a r) = force_row a r.
Proof.
  destruct (first_crossing a r) eqn:E.
  - assert (Hrw : force_row a r = r)
      by (unfold force_row; rewrite E; reflexivity).
    rewrite Hrw. exact Hrw.
  - destruct r as [|u r0]; [reflexivity|].
    set (r := u :: r0) in *.
    assert (Hr : r <> []) by discriminate.
    set (v := (a * Np.sign (last r 0))%Q).
    assert (Hrw : force_row a r = Np.set_last v r)
      by (unfold force_row; rewrite E; reflexivity).
    rewrite Hrw. unfold force_row.
    destruct (first_crossing a (Np.set_last v r)) eqn:E'; [reflexivity|].
    rewrite set_last_set_last. f_equal.
    rewrite set_last_snoc in E' |- * by exact Hr.
    rewrite last_last.
    apply first_crossing_app_None in E'. destruct E' as [_ E'].
    unfold first_crossing in E'. simpl in E'.
    destruct (Np.crossed a v) eqn:C; [discriminate|].
    assert (Hz : (last r 0 == 0)%Q).
    { destruct (Qeq_dec (last r 0%Q) 0%Q) as [H|H]; [exact H|].
      unfold v in C. rewrite (crossed_forced a _ H) in C. discriminate. }
    unfold v. rewrite (sign_zero _ Hz).
    rewrite (sign_zero (a * 0)%Q) by ring. reflexivity.
Qed.

(** X4.  The forced decisions are stable.  The call rewrites its array in
    place; called again on the array it has left, with the same arguments,
    it rewrites nothing and returns the same reaction times and decisions. *)
Theorem find_rts_and_decisions_idempotent
  (x : traces) (num_parameters num_trials : nat) (tspan : list Q) (a : Q) :
  length x = num_parameters * num_trials ->
  Forall (row_ok tspan) x ->
  exists x' rts decisions,
    find_rts_and_decisions x num_parameters num_trials tspan a
    = Ok (x', rts, decisions)
    /\ find_rts_and_decisions x' num_parameters num_trials tspan a
       = Ok (x', rts, decisions).
Proof.
  intros Hlen Hok.
  rewrite (find_rts_and_decisions_spec x num_parameters num_trials tspan a
             Hlen Hok).
  eexists _, _, _. split; [reflexivity|].
  rewrite find_rts_and_decisions_spec.
  - rewrite map_map.
    rewrite (map_ext _ (force_row a) (force_row_idempotent a)).
    apply f_equal. apply f_equal2; [apply f_equal2; [reflexivity|]|];
      apply map_ext; intros p; rewrite block_map, map_map;
      rewrite (map_ext _ (force_row a) (force_row_idempotent a));
      reflexivity.
  - rewrite length_map. exact Hlen.
  - rewrite Forall_map. eapply Forall_impl; [|exact Hok].
    intros r [Hne Hle]. unfold row_ok. rewrite force_row_length.
    split; [|exact Hle]. intros E. apply Hne.
    apply (f_equal (@length Q)) in E. rewrite force_row_length in E.
    destruct r; [reflexivity|discriminate].
Qed.

Lemma find_rts_and_decisions_idempotent_witness :
  (length [[0; 0.5; 0.2]; [0; 0.3; 0]]%Q = 1 * 2
   /\ Forall (row_ok [0; 2.5; 5]%Q) [[0; 0.5; 0.2]; [0; 0.3; 0]]%Q)
  /\ exists x' rts decisions,
      find_rts_and_decisions [[0; 0.5; 0.2]; [0; 0.3; 0]]%Q 1 2
        [0; 2.5; 5]%Q 1
      = Ok (x', rts, decisions)
      /\ find_rts_and_decisions x' 1 2 [0; 2.5; 5]%Q 1
         = Ok (x', rts, decisions).
Proof.
  assert (Hok : Forall (row_ok [0; 2.5; 5]%Q) [[0; 0.5; 0.2]; [0; 0.3; 0]]%Q).
  { repeat constructor; simpl; try discriminate; lia. }
  split; [split; [reflexivity|exact Hok]|].
  exact (find_rts_and_decisions_idempotent
           [[0; 0.5; 0.2]; [0; 0.3; 0]]%Q 1 2 [0; 2.5; 5]%Q 1 eq_refl Hok).
Defined.

Lemma crossed_opp (a v : Q) : Np.crossed a (- v) = Np.crossed a v.
Proof.
  unfold Np.crossed. apply eq_true_iff_eq.
  rewrite !Qle_bool_iff, Qabs_opp. reflexivity.
Qed.

Lemma first_crossing_opp (a : Q) (r : list Q) :
  first_crossing a (map Qopp r) = first_crossing a r.
Proof.
  unfold first_crossing. rewrite map_map.
  rewrite (map_ext _ (Np.crossed a) (crossed_opp a)). reflexivity.
Qed.

Lemma sign_opp (v : Q) : Np.sign (- v) = (- Np.sign v)%Q.
Proof.
  destruct v as [n d]. unfold Np.sign, Qopp, inject_Z. simpl.
  rewrite Z.sgn_opp. reflexivity.
Qed.

Lemma Qmult_opp_r_eq (a s : Q) : (a * - s)%Q = (- (a * s))%Q.
Proof.
  destruct a as [an ad], s as [sn sd]. unfold Qmult, Qopp. simpl.
  rewrite Z.mul_opp_r. reflexivity.
Qed.

Lemma last_map_opp (r : list Q) : last (map Qopp r) 0%Q = (- last r 0)%Q.
Proof.
  induction r as [|v r IH]; [reflexivity|].
  destruct r as [|w r]; [reflexivity|]. exact IH.
Qed.

Lemma set_last_map {A B : Type} (f : A -> B) (v : A) (r : list A) :
  Np.set_last (f v) (map f r) = map f (Np.set_last v r).
Proof.
  induction r as [|u r IH]; [reflexivity|].
  destruct r as [|w r]; [reflexivity|].
  change (f u :: Np.set_last (f v) (map f (w :: r))
          = f u :: map f (Np.set_last v (w :: r))).
  rewrite IH. reflexivity.
Qed.

Lemma force_row_opp (a : Q) (r : list Q) :
  force_row a (map Qopp r) = map Qopp (force_row a r).
Proof.
  unfold force_row. rewrite first_crossing_opp.
  destruct (first_crossing a r); [reflexivity|].
  rewrite last_map_opp, sign_opp, Qmult_opp_r_eq. apply set_last_map.
Qed.

Lemma rt_row_opp (a : Q) (tspan r : list Q) :
  rt_row a tspan (map Qopp r) = rt_row a tspan r.
Proof. unfold rt_row. rewrite first_crossing_opp. reflexivity. Qed.

Lemma decision_row_opp (a : Q) (r : list Q) :
  decision_row a (map Qopp r) = map Qopp (decision_row a r).
Proof.
  unfold decision_row. rewrite first_crossing_opp.
  destruct (first_crossing a r) as [j|]; [|reflexivity].
  simpl. change 0%Q with (- 0)%Q at 1. rewrite map_nth, sign_opp. reflexivity.
Qed.

Lemma flat_map_map_opp (f : list Q -> list Q) (l : traces) :
  (forall r, f (map Qopp r) = map Qopp (f r)) ->
  flat_map f (map (map Qopp) l) = map Qopp (flat_map f l).
Proof.
  intros H. induction l as [|r l IH]; [reflexivity|].
  simpl. rewrite H, IH, map_app. reflexivity.
Qed.

Lemma map_force_row_opp (a : Q) (l : traces) :
  map (force_row a) (map (map Qopp) l) = map (map Qopp) (map (force_row a) l).
Proof. rewrite !map_map. apply map_ext. apply force_row_opp. Qed.

Lemma flat_map_rt_row_opp (a : Q) (tspan : list Q) (l : traces) :
  flat_map (rt_row a tspan) (map (map Qopp) l) = flat_map (rt_row a tspan) l.
Proof.
  induction l as [|r l IH]; [reflexivity|].
  simpl. rewrite rt_row_opp, IH. reflexivity.
Qed.

(** X5.  The extractor is symmetric under a change of sign.  On the batch
    with every sample negated the call leaves the negated array of what it
    leaves on the batch itself, and returns the same reaction times and the
    opposite decisions. *)
Theorem find_rts_and_decisions_mirror
  (x : traces) (num_parameters num_trials : nat) (tspan : list Q) (a : Q) :
  length x = num_parameters * num_trials ->
  Forall (row_ok tspan) x ->
  exists x' rts decisions,
    find_rts_and_decisions x num_parameters num_trials tspan a
    = Ok (x', rts, decisions)
    /\ find_rts_and_decisions (map (map Qopp) x) num_parameters num_trials
         tspan a
       = Ok (map (map Qopp) x', rts, map (map Qopp) decisions).
Proof.
  intros Hlen Hok.
  rewrite (find_rts_and_decisions_spec x num_parameters num_trials tspan a
             Hlen Hok).
  eexists _, _, _. split; [reflexivity|].
  rewrite find_rts_and_decisions_spec.
  - apply f_equal.
    apply f_equal2; [apply f_equal2; [apply map_force_row_opp|]|].
    + apply map_ext. intros p.
      rewrite block_map, map_force_row_opp. apply flat_map_rt_row_opp.
    + rewrite map_map. apply map_ext. intros p.
      rewrite block_map, map_force_row_opp.
      apply flat_map_map_opp. apply decision_row_opp.
  - rewrite length_map. exact Hlen.
  - rewrite Forall_map. eapply Forall_impl; [|exact Hok].
    intros r [Hne Hle]. unfold row_ok. rewrite length_map.
    split; [|exact Hle]. destruct r; [contradiction|discriminate].
Qed.

Lemma find_rts_and_decisions_mirror_witness :
  (length [[0; 0.5; 1.2]; [0; -0.3; -0.1]]%Q = 1 * 2
   /\ Forall (row_ok [0; 2.5; 5]%Q) [[0; 0.5; 1.2]; [0; -0.3; -0.1]]%Q)
  /\ exists x' rts decisions,
      find_rts_and_decisions [[0; 0.5; 1.2]; [0; -0.3; -0.1]]%Q 1 2
        [0; 2.5; 5]%Q 1
      = Ok (x', rts, decisions)
      /\ find_rts_and_decisions
           (map (map Qopp) [[0; 0.5; 1.2]; [0; -0.3; -0.1]]%Q) 1 2
           [0; 2.5; 5]%Q 1
         = Ok (map (map Qopp) x', rts, map (map Qopp) decisions).
Proof.
  assert (Hok : Forall (row_ok [0; 2.5; 5]%Q)
                  [[0; 0.5; 1.2]; [0; -0.3; -0.1]]%Q).
  { repeat constructor; simpl; try discriminate; lia. }
  split; [split; [reflexivity|exact Hok]|].
  exact (find_rts_and_decisions_mirror
           [[0; 0.5; 1.2]; [0; -0.3; -0.1]]%Q 1 2 [0; 2.5; 5]%Q 1
           eq_refl Hok).
Defined.

(** ** Raising the boundary *)

Lemma first_crossing_mono (a a' : Q) (r : list Q) :
  (a <= a')%Q ->
  forall j', first_crossing a' r = Some j' ->
             exists j, first_crossing a r = Some j /\ j <= j'.
Proof.
  intros Ha. unfold first_crossing.
  induction r as [|v r IH]; intros j' H; simpl in *; [discriminate|].
  destruct (Np.crossed a' v) eqn:C'.
  - injection H as <-. unfold Np.crossed in *. apply Qle_bool_iff in C'.
    replace (Qle_bool a (Qabs v)) with true
      by (symmetry; apply Qle_bool_iff; lra).
    exists 0. split; [reflexivity|lia].
  - destruct (first_true (map (Np.crossed a') r)) as [k'|]; [|discriminate].
    simpl in H. injection H as <-.
    destruct (Np.crossed a v); [exists 0; split; [reflexivity|lia]|].
    destruct (IH k' eq_refl) as (k & -> & Hk).
    exists (S k). split; [reflexivity|lia].
Qed.

Lemma first_crossing_snoc (a : Q) (l : list Q) (v : Q) :
  first_crossing a l = None -> Np.crossed a v = true ->
  first_crossing a (l ++ [v]) = Some (length l).
Proof.
  unfold first_crossing. intros Hl Hv.
  induction l as [|u l IH]; simpl in *; [rewrite Hv; reflexivity|].
  destruct (Np.crossed a u); [discriminate|].
  destruct (first_true (map (Np.crossed a) l)); [discriminate|].
  rewrite IH by reflexivity. reflexivity.
Qed.

Lemma forced_crossing_index (a : Q) (r : list Q) :
  r <> [] -> first_crossing a r = None -> ~ (last r 0 == 0)%Q ->
  first_crossing a (force_row a r) = Some (length r - 1).
Proof.
  intros Hr E Hz. unfold force_row. rewrite E, set_last_snoc by exact Hr.
  rewrite (removelast_snoc_last r Hr) in E at 1.
  apply first_crossing_app_None in E. destruct E as [E _].
  rewrite first_crossing_snoc;
    [|exact E|apply crossed_forced; exact Hz].
  f_equal. rewrite (removelast_snoc_last r Hr) at 2.
  rewrite length_app. simpl. lia.
Qed.

Lemma crossing_indices_mono (a a' : Q) (r : list Q) :
  (0 < a)%Q -> (a <= a')%Q -> r <> [] -> ~ (last r 0 == 0)%Q ->
  exists j j',
    first_crossing a (force_row a r) = Some j
    /\ first_crossing a' (force_row a' r) = Some j'
    /\ j <= j' /\ j' < length r.
Proof.
  intros Ha Hle Hr Hz.
  assert (Hlen : 0 < length r) by (destruct r; [contradiction|simpl; lia]).
  destruct (first_crossing a' r) as [j'|] eqn:E'.
  - destruct (first_crossing_mono a a' r Hle j' E') as (j & E & Hj).
    exists j, j'. unfold force_row. rewrite E, E', E, E'.
    repeat split; try reflexivity; [exact Hj|].
    apply (first_crossing_spec a' r j' E').
  - rewrite (forced_crossing_index a' r Hr E' Hz).
    destruct (first_crossing a r) as [j|] eqn:E.
    + exists j, (length r - 1). unfold force_row. rewrite E, E.
      repeat split; try reflexivity; [|lia].
      destruct (first_crossing_spec a r j E) as [Hj _]. lia.
    + exists (length r - 1), (length r - 1).
      rewrite (forced_crossing_index a r Hr E Hz).
      repeat split; try reflexivity; lia.
Qed.

Lemma sorted_nth_le (l : list Q) :
  StronglySorted Qle l ->
  forall i j, i <= j -> j < length l -> (nth i l 0 <= nth j l 0)%Q.
Proof.
  induction 1 as [|v l Hs IH Hv]; intros i j Hij Hj; [simpl in Hj; lia|].
  destruct j as [|j]; [replace i with 0 by lia; apply Qle_refl|].
  destruct i as [|i].
  - simpl. rewrite Forall_forall in Hv. apply Hv. apply nth_In.
    simpl in Hj. lia.
  - simpl. apply IH; [lia|simpl in Hj; lia].
Qed.

Lemma rts_mono (a a' : Q) (tspan : list Q) (x : traces) :
  (0 < a)%Q -> (a <= a')%Q -> StronglySorted Qle tspan ->
  Forall (row_ok tspan) x -> Forall (fun r => ~ (last r 0 == 0)%Q) x ->
  Forall2 Qle (flat_map (rt_row a tspan) (map (force_row a) x))
              (flat_map (rt_row a' tspan) (map (force_row a') x)).
Proof.
  intros Ha Hle Hs Hok Hz. induction x as [|r x IH]; [constructor|].
  inversion Hok as [|? ? [Hne Hlen] Hok']; subst.
  inversion Hz as [|? ? Hzr Hz']; subst.
  simpl. apply Forall2_app; [|apply IH; assumption].
  destruct (crossing_indices_mono a a' r Ha Hle Hne Hzr)
    as (j & j' & E & E' & Hj & Hj').
  unfold rt_row. rewrite E, E'. constructor; [|constructor].
  apply sorted_nth_le; [exact Hs|exact Hj|lia].
Qed.

Lemma Forall2_map_same {A B C : Type} (R : B -> C -> Prop) (f : A -> B)
  (g : A -> C) (l : list A) :
  (forall v, In v l -> R (f v) (g v)) -> Forall2 R (map f l) (map g l).
Proof.
  induction l as [|v l IH]; intros H; [constructor|].
  simpl. constructor; [apply H; left; reflexivity|].
  apply IH. intros w Hw. apply H. right. exact Hw.
Qed.

(** X6.  Raising the boundary never makes a trial faster.  On one batch
    whose trials all end at a value other than 0, with a time grid that does
    not decrease and two positive boundaries [a <= a']: the calls with [a]
    and with [a'] both return one reaction time per trial, and trial by
    trial the reaction time under [a] is at most the one under [a']. *)
Theorem reaction_times_grow_with_boundary
  (x : traces) (num_parameters num_trials : nat) (tspan : list Q) (a a' : Q) :
  length x = num_parameters * num_trials ->
  Forall (row_ok tspan) x ->
  StronglySorted Qle tspan ->
  Forall (fun r => ~ (last r 0 == 0)%Q) x ->
  (0 < a)%Q -> (a <= a')%Q ->
  exists x1 rts1 decisions1 x2 rts2 decisions2,
    find_rts_and_decisions x num_parameters num_trials tspan a
    = Ok (x1, rts1, decisions1)
    /\ find_rts_and_decisions x num_parameters num_trials tspan a'
       = Ok (x2, rts2, decisions2)
    /\ Forall (fun rt => length rt = num_trials) rts1
    /\ Forall (fun rt => length rt = num_trials) rts2
    /\ Forall2 (Forall2 Qle) rts1 rts2.
Proof.
  intros Hlen Hok Hs Hz Ha Hle.
  assert (Ha' : (0 < a')%Q) by lra.
  rewrite !(find_rts_and_decisions_spec x num_parameters num_trials tspan _
              Hlen Hok).
  eexists _, _, _, _, _, _. split; [reflexivity|]. split; [reflexivity|].
  assert (Hcount : forall b, (0 < b)%Q -> forall p, p < num_parameters ->
            length (flat_map (rt_row b tspan)
                      (map (force_row b) (block x num_trials p)))
            = num_trials).
  { intros b Hb p Hp.
    destruct (block_facts x num_parameters num_trials (row_ok tspan) p
                Hlen Hp Hok) as [Hbl Hbok].
    destruct (block_facts x num_parameters num_trials _ p Hlen Hp Hz)
      as [_ Hbz].
    rewrite outcomes_all_decided; [exact Hbl|].
    apply Forall_forall. intros r Hr. rewrite Forall_forall in Hbok, Hbz.
    destruct (Hbok r Hr) as [Hne _].
    apply (decided_iff b r Hne Hb). right. apply Hbz. exact Hr. }
  split; [|split].
  - apply Forall_forall. intros l Hl. apply in_map_iff in Hl.
    destruct Hl as (p & <- & Hp). apply in_seq in Hp.
    apply (Hcount a Ha). lia.
  - apply Forall_forall. intros l Hl. apply in_map_iff in Hl.
    destruct Hl as (p & <- & Hp). apply in_seq in Hp.
    apply (Hcount a' Ha'). lia.
  - apply Forall2_map_same. intros p Hp. apply in_seq in Hp.
    destruct (block_facts x num_parameters num_trials (row_ok tspan) p
                Hlen) as [_ Hbok]; [lia|exact Hok|].
    destruct (block_facts x num_parameters num_trials
                (fun r => ~ (last r 0 == 0)%Q) p Hlen) as [_ Hbz];
      [lia|exact Hz|].
    apply rts_mono; assumption.
Qed.

Lemma reaction_times_grow_with_boundary_witness :
  (length [[0; 0.6; 1.2]; [0; -0.3; -0.1]]%Q = 1 * 2
   /\ Forall (row_ok [0; 2.5; 5]%Q) [[0; 0.6; 1.2]; [0; -0.3; -0.1]]%Q
   /\ StronglySorted Qle [0; 2.5; 5]%Q
   /\ Forall (fun r => ~ (last r 0 == 0)%Q)
        [[0; 0.6; 1.2]; [0; -0.3; -0.1]]%Q
   /\ (0 < 0.5)%Q /\ (0.5 <= 1)%Q)
  /\ exists x1 rts1 decisions1 x2 rts2 decisions2,
      find_rts_and_decisions [[0; 0.6; 1.2]; [0; -0.3; -0.1]]%Q 1 2
        [0; 2.5; 5]%Q 0.5
      = Ok (x1, rts1, decisions1)
      /\ find_rts_and_decisions [[0; 0.6; 1.2]; [0; -0.3; -0.1]]%Q 1 2
           [0; 2.5; 5]%Q 1
         = Ok (x2, rts2, decisions2)
      /\ Forall2 (Forall2 Qle) rts1 rts2.
Proof.
  assert (Hok : Forall (row_ok [0; 2.5; 5]%Q)
                  [[0; 0.6; 1.2]; [0; -0.3; -0.1]]%Q).
  { repeat constructor; simpl; try discriminate; lia. }
  assert (Hs : StronglySorted Qle [0; 2.5; 5]%Q).
  { repeat constructor; discriminate. }
  assert (Hz : Forall (fun r => ~ (last r 0 == 0)%Q)
                 [[0; 0.6; 1.2]; [0; -0.3; -0.1]]%Q).
  { repeat constructor; discriminate. }
  assert (Ha : (0 < 0.5)%Q) by reflexivity.
  assert (Hle : (0.5 <= 1)%Q) by discriminate.
  split; [repeat split; assumption|].
  destruct (reaction_times_grow_with_boundary
              [[0; 0.6; 1.2]; [0; -0.3; -0.1]]%Q 1 2 [0; 2.5; 5]%Q 0.5 1
              eq_refl Hok Hs Hz Ha Hle)
    as (x1 & rts1 & d1 & x2 & rts2 & d2 & E1 & E2 & _ & _ & H).
  exists x1, rts1, d1, x2, rts2, d2. repeat split; assumption.
Defined.

(** ** The extractor at its edges *)

Lemma decided_from_empty_rows (a : Q) (x : traces) :
  Forall (fun r => r = []) x ->
  forall i, decided_from i (Np.abs_ge a x) = [].
Proof.
  induction 1 as [|r x -> _ IH]; intros i; [reflexivity|].
  simpl. apply IH.
Qed.

Lemma decide_param_no_columns (x : traces) (num_trials : nat)
  (tspan : list Q) (a : Q) :
  length x = num_trials -> 1 <= num_trials ->
  Forall (fun r => r = []) x ->
  decide_param x num_trials tspan a = Raise IndexError.
Proof.
  intros Hlen Hn Hx. unfold decide_param, Np.nonzero.
  rewrite unique_nonzero, (decided_from_empty_rows a x Hx).
  rewrite (filter_ext_in _ (fun _ => true)) by reflexivity.
  assert (Hall : forall l : list nat, filter (fun _ => true) l = l).
  { induction l as [|v l IH]; [reflexivity|]. simpl. rewrite IH. reflexivity. }
  rewrite Hall. unfold Np.update_last_col.
  replace (existsb (fun i => length x <=? i) (seq 0 num_trials)) with false.
  2:{ symmetry. apply not_true_iff_false. rewrite existsb_exists.
      intros (i & Hi & Hle). apply in_seq in Hi. apply Nat.leb_le in Hle.
      lia. }
  replace (existsb _ (seq 0 num_trials)) with true; [reflexivity|].
  symmetry. apply existsb_exists. exists 0. split; [apply in_seq; lia|].
  destruct x as [|r x]; [reflexivity|].
  inversion Hx as [|? ? -> _]. reflexivity.
Qed.

(** X7.  An array without columns cannot be forced.  When the batch passes
    the shape assertion, has at least one trial, and its rows have no time
    step at all, the write to the last column raises [IndexError]. *)
Theorem find_rts_and_decisions_no_columns
  (x : traces) (num_parameters num_trials : nat) (tspan : list Q) (a : Q) :
  length x = num_parameters * num_trials ->
  x <> [] ->
  Forall (fun r => r = []) x ->
  find_rts_and_decisions x num_parameters num_trials tspan a
  = Raise IndexError.
Proof.
  intros Hlen Hne Hx. unfold find_rts_and_decisions.
  rewrite Hlen, Nat.eqb_refl.
  destruct num_parameters as [|P]; [destruct x; [contradiction|discriminate]|].
  assert (Hn : 1 <= num_trials).
  { destruct num_trials; [|lia]. rewrite Nat.mul_0_r in Hlen.
    destruct x; [contradiction|discriminate]. }
  cbn [seq find_loop]. rewrite slice_block.
  destruct (block_facts x (S P) num_trials (fun r => r = []) 0 Hlen)
    as [Hbl Hbx]; [lia|exact Hx|].
  fold (block x num_trials 0).
  rewrite (decide_param_no_columns _ num_trials tspan a Hbl Hn Hbx).
  reflexivity.
Qed.

Lemma find_rts_and_decisions_no_columns_witness :
  (length [@nil Q; []] = 1 * 2 /\ [@nil Q; []] <> []
   /\ Forall (fun r => r = []) [@nil Q; []])
  /\ find_rts_and_decisions [[]; []] 1 2 [] 1 = Raise IndexError.
Proof.
  assert (Hne : [@nil Q; []] <> []) by discriminate.
  assert (Hx : Forall (fun r => r = []) [@nil Q; []])
    by (repeat constructor).
  split; [repeat split; assumption|].
  exact (find_rts_and_decisions_no_columns [[]; []] 1 2 [] 1
           eq_refl Hne Hx).
Defined.

Lemma take_out_of_range {A : Type} (l : list A) (idx : list nat) (j : nat) :
  In j idx -> length l <= j -> Np.take l idx = Raise IndexError.
Proof.
  intros Hin Hj. destruct (Np.take l idx) as [r|e] eqn:E.
  - exfalso. unfold Np.take in E. revert r E.
    induction idx as [|i idx IH]; intros r E; [contradiction|].
    simpl in E. destruct (Np.item l i) as [v|e] eqn:Ei; [|discriminate].
    simpl in E. destruct (mapM (Np.item l) idx) as [vs|e]; [|discriminate].
    destruct Hin as [->|Hin].
    + unfold Np.item in Ei.
      rewrite (proj2 (nth_error_None l j) Hj) in Ei. discriminate.
    + apply (IH Hin vs). reflexivity.
  - f_equal. eapply take_Raise. exact E.
Qed.

Lemma decide_param_before_tspan (x : traces) (num_trials : nat)
  (tspan : list Q) (a : Q) :
  length x = num_trials ->
  Forall (fun r => r <> []) x ->
  decide_param x num_trials tspan a
  = (rt_param <-
       Np.take tspan (first_cols (Np.abs_ge a (map (force_row a) x))) ;;
     Ok (map (force_row a) x, rt_param,
         flat_map (decision_row a) (map (force_row a) x))).
Proof.
  intros Hlen Hne. unfold decide_param, Np.nonzero.
  rewrite unique_nonzero.
  rewrite update_last_col_undecided by assumption.
  cbn [bind]. set (x' := map (force_row a) x).
  unfold Np.unique_return_index. rewrite unique_nonzero.
  pose proof (take_first_cols (Np.abs_ge a x') 0) as Hcols.
  pose proof (take2_first_cols a x' []) as Hvals.
  cbn zeta in Hcols. cbn [app length] in Hvals.
  rewrite Hcols. cbn [bind]. rewrite Hvals. cbn [bind].
  replace (map Np.sign _) with (flat_map (decision_row a) x');
    [reflexivity|].
  unfold decision_row. clear. induction x' as [|r x' IH]; [reflexivity|].
  simpl. rewrite map_app, <- IH. destruct (first_crossing a r); reflexivity.
Qed.

(** X8.  A time grid that is too short.  For one parameter, on rows with at
    least one time step: when some trial, after the forced decisions, has
    its first crossing at an index the time grid does not have, the lookup
    [tspan[decision_idx]] raises [IndexError]. *)
Theorem find_rts_and_decisions_short_grid
  (x : traces) (num_trials : nat) (tspan : list Q) (a : Q) (r : list Q)
  (j : nat) :
  length x = num_trials ->
  Forall (fun r => r <> []) x ->
  In r x ->
  first_crossing a (force_row a r) = Some j ->
  length tspan <= j ->
  find_rts_and_decisions x 1 num_trials tspan a = Raise IndexError.
Proof.
  intros Hlen Hne Hr Hj Hshort. unfold find_rts_and_decisions.
  rewrite Hlen, Nat.mul_1_l, Nat.eqb_refl.
  cbn [seq find_loop]. rewrite slice_block.
  fold (block x num_trials 0). rewrite (block_whole x num_trials Hlen).
  rewrite (decide_param_before_tspan x num_trials tspan a Hlen Hne).
  rewrite (take_out_of_range tspan _ j); [reflexivity| |exact Hshort].
  unfold first_cols. apply in_flat_map.
  exists (map (Np.crossed a) (force_row a r)). split.
  - unfold Np.abs_ge. apply in_map. apply in_map. exact Hr.
  - unfold first_crossing in Hj. rewrite Hj. left. reflexivity.
Qed.

Lemma find_rts_and_decisions_short_grid_witness :
  (length [[0; 2]]%Q = 1 /\ Forall (fun r => r <> []) [[0; 2]]%Q
   /\ In [0; 2]%Q [[0; 2]]%Q
   /\ first_crossing 1 (force_row 1 [0; 2]%Q) = Some 1
   /\ length [0%Q] <= 1)
  /\ find_rts_and_decisions [[0; 2]]%Q 1 1 [0]%Q 1 = Raise IndexError.
Proof.
  assert (Hne : Forall (fun r => r <> []) [[0; 2]]%Q)
    by (repeat constructor; discriminate).
  assert (Hin : In [0; 2]%Q [[0; 2]]%Q) by (left; reflexivity).
  assert (Hlen : length [0%Q] <= 1) by (simpl; lia).
  split; [repeat split; try reflexivity; assumption|].
  exact (find_rts_and_decisions_short_grid [[0; 2]]%Q 1 [0]%Q 1 [0; 2]%Q 1
           eq_refl Hne Hin eq_refl Hlen).
Defined.

(** X9.  A call without parameters.  With [num_parameters = 0] the loop
    runs no turn: an array without rows passes the assertion and the call
    returns two empty arrays, whatever [num_trials], the time grid and the
    boundary are; an array with rows fails the assertion. *)
Theorem find_rts_and_decisions_no_parameters
  (x : traces) (num_trials : nat) (tspan : list Q) (a : Q) :
  find_rts_and_decisions_arrays x 0 num_trials tspan a
  = match x with
    | [] => Ok ([], [], [])
    | _ :: _ => Raise AssertionError
    end.
Proof. destruct x as [|r x]; reflexivity. Qed.

(** ** The histogram of signed reaction times *)

Lemma count_closed (a : list Q) (lo hi : Q) :
  (lo <= hi)%Q ->
  (NpHist.searchsorted_right a hi - NpHist.searchsorted_left a lo)%Z
  = Z.of_nat (length (filter (in_bin true lo hi) a)).
Proof.
  intros H. unfold NpHist.searchsorted_right, NpHist.searchsorted_left,
              in_bin.
  induction a as [|v a IH]; [reflexivity|]. cbn [filter].
  destruct (Qle_bool v hi) eqn:Ehi, (Qle_bool lo v) eqn:Elo;
    cbn [negb andb length]; rewrite ?Nat2Z.inj_succ; try lia.
  exfalso.
  assert (H1 : ~ (v <= hi)%Q)
    by (intros Hc; apply Qle_bool_iff in Hc; congruence).
  assert (H2 : ~ (lo <= v)%Q)
    by (intros Hc; apply Qle_bool_iff in Hc; congruence).
  lra.
Qed.

Lemma count_half_open (a : list Q) (lo hi : Q) :
  (lo <= hi)%Q ->
  (NpHist.searchsorted_left a hi - NpHist.searchsorted_left a lo)%Z
  = Z.of_nat (length (filter (in_bin false lo hi) a)).
Proof.
  intros H. unfold NpHist.searchsorted_left, in_bin.
  induction a as [|v a IH]; [reflexivity|]. cbn [filter].
  destruct (Qle_bool hi v) eqn:Ehi, (Qle_bool lo v) eqn:Elo;
    cbn [negb andb length]; rewrite ?Nat2Z.inj_succ; try lia.
  exfalso. apply Qle_bool_iff in Ehi.
  assert (H2 : ~ (lo <= v)%Q)
    by (intros Hc; apply Qle_bool_iff in Hc; congruence).
  lra.
Qed.

Lemma within_in_bin (T lo : Q) (a : list Q) :
  (lo == - T)%Q ->
  filter (in_bin true lo T) a = filter (within T) a.
Proof.
  intros H. apply filter_ext. intros v. unfold in_bin, within. f_equal.
  apply eq_true_iff_eq. rewrite !Qle_bool_iff, H. reflexivity.
Qed.

Lemma linspace_edges (T : Q) (nbins : Z) :
  (0 <= T)%Q -> (2 <= nbins)%Z ->
  exists bins,
    NpHist.linspace (- T) T nbins = Ok bins
    /\ length bins = Z.to_nat nbins
    /\ NpHist.increasing bins = true
    /\ (hd 0 bins == - T)%Q
    /\ last bins 0%Q = T.
Proof.
  intros HT Hnb.
  destruct (linspace_ge2 (- T) T nbins Hnb) as [Hlin Hstop].
  set (div := Z.to_nat nbins - 1) in *.
  set (step := ((T - - T) / inject_Z (Z.of_nat div))%Q) in *.
  assert (Hdiv : (0 < inject_Z (Z.of_nat div))%Q).
  { change 0%Q with (inject_Z 0). rewrite <- Zlt_Qlt. unfold div. lia. }
  assert (Hstep : (0 <= step)%Q).
  { unfold step. apply Qle_shift_div_l; [exact Hdiv|]. lra. }
  exists (ramp (- T) step T 0 div). split; [exact Hlin|].
  split; [rewrite ramp_length; unfold div; lia|].
  split; [apply ramp_increasing; assumption|]. split.
  - rewrite (ramp_head (- T) step T 0 div Hstop).
    change (inject_Z (Z.of_nat 0)) with 0%Q. ring.
  - unfold ramp. apply last_last.
Qed.

Lemma mapM_Ok_nth {A B : Type} (f : A -> result B) (l : list A) (r : list B)
  (da : A) (db : B) :
  mapM f l = Ok r ->
  forall k, k < length l -> f (nth k l da) = Ok (nth k r db).
Proof.
  revert r; induction l as [|v l IH]; intros r H k Hk; [simpl in Hk; lia|].
  simpl in H. destruct (f v) as [b|e] eqn:Ev; [|discriminate]. simpl in H.
  destruct (mapM f l) as [bs|e]; [|discriminate]. injection H as <-.
  destruct k as [|k]; [exact Ev|]. simpl. apply IH; [reflexivity|].
  simpl in Hk. lia.
Qed.

Lemma mapM_total {A B : Type} (f : A -> result B) (l : list A) :
  (forall v, In v l -> exists b, f v = Ok b) -> exists r, mapM f l = Ok r.
Proof.
  induction l as [|v l IH]; intros H; [exists []; reflexivity|].
  destruct (H v (or_introl eq_refl)) as [b Hb].
  destruct IH as [bs Hbs]; [intros w Hw; apply H; right; exact Hw|].
  exists (b :: bs). simpl. rewrite Hb. simpl. rewrite Hbs. reflexivity.
Qed.

Lemma sign_rts_rows (rts decisions : list (list Q)) (k : nat) :
  length rts = length decisions -> k < length rts ->
  nth k (map (fun rd => map (fun p => (fst p * snd p)%Q)
                          (combine (fst rd) (snd rd)))
             (combine rts decisions)) []
  = sign_rts_row (nth k rts []) (nth k decisions []).
Proof.
  intros Hlen Hk.
  change (@nil Q) with
    ((fun rd : list Q * list Q =>
        map (fun p => (fst p * snd p)%Q) (combine (fst rd) (snd rd)))
       ([], [])) at 1.
  rewrite map_nth, combine_nth by exact Hlen. reflexivity.
Qed.

Lemma calculate_histogram_stats_rows (rts decisions : list (list Q)) (T : Q)
  (nbins : Z) :
  (0 <= T)%Q -> (2 <= nbins)%Z -> length rts = length decisions ->
  exists bins stats,
    NpHist.linspace (- T) T nbins = Ok bins
    /\ length bins = Z.to_nat nbins
    /\ NpHist.increasing bins = true
    /\ (hd 0 bins == - T)%Q
    /\ last bins 0%Q = T
    /\ calculate_histogram_stats rts decisions T nbins = Ok stats
    /\ length stats = length rts
    /\ forall k, k < length rts ->
         NpHist.histogram
           (sign_rts_row (nth k rts []) (nth k decisions [])) bins
         = Ok (nth k stats []).
Proof.
  intros HT Hnb Hlen.
  destruct (linspace_edges T nbins HT Hnb)
    as (bins & Hlin & Hbl & Hinc & Hhd & Hlast).
  unfold calculate_histogram_stats. rewrite Hlin. cbn [bind].
  set (rows := map _ (combine rts decisions)).
  destruct (mapM_total (fun row => NpHist.histogram row bins) rows)
    as [stats Hstats].
  { intros v _. destruct (histogram_spec v bins Hinc) as (h & Hh & _).
    exists h. exact Hh. }
  assert (Hrows : length rows = length rts).
  { unfold rows. rewrite length_map, length_combine. lia. }
  exists bins, stats. repeat split; try assumption.
  - rewrite (mapM_length _ _ _ Hstats). exact Hrows.
  - intros k Hk.
    rewrite <- (mapM_Ok_nth _ rows stats [] [] Hstats k) by lia.
    unfold rows. rewrite sign_rts_rows by assumption. reflexivity.
Qed.

(** X10.  The counts of [calculate_histogram_stats].  For [T >= 0], at
    least two bin edges and [rts] and [decisions] two arrays of the same
    shape: the call returns one vector per row, each of length [nbins - 1]
    with no negative entry, and the entries of a row's vector sum to the
    number of its products [rt * decision] that lie in [[-T, T]]; products
    outside are dropped without notice. *)
Theorem histogram_stats_count_what_is_in_range
  (m : nat) (rts decisions : list (list Q)) (T : Q) (nbins : Z) :
  (0 <= T)%Q -> (2 <= nbins)%Z -> same_shape m rts decisions ->
  exists stats,
    calculate_histogram_stats rts decisions T nbins = Ok stats
    /\ length stats = length rts
    /\ forall k, k < length rts ->
         length (nth k stats []) = Z.to_nat nbins - 1
         /\ Forall (fun c => (0 <= c)%Z) (nth k stats [])
         /\ sumZ (nth k stats [])
            = Z.of_nat
                (length
                   (filter (within T)
                      (sign_rts_row (nth k rts []) (nth k decisions [])))).
Proof.
  intros HT Hnb Hshape. pose proof (Forall2_length Hshape) as Hlen.
  destruct (calculate_histogram_stats_rows rts decisions T nbins HT Hnb Hlen)
    as (bins & stats & _ & Hbl & Hinc & Hhd & Hlast & Hcalc & Hsl & Hrow).
  exists stats. split; [exact Hcalc|]. split; [exact Hsl|].
  intros k Hk. specialize (Hrow k Hk).
  destruct (histogram_spec
              (sign_rts_row (nth k rts []) (nth k decisions [])) bins Hinc)
    as (h & Hh & Hhl & Hpos & Hsum).
  rewrite Hrow in Hh. injection Hh as <-.
  split; [lia|]. split; [exact Hpos|].
  rewrite Hsum by lia. rewrite Hlast.
  rewrite count_closed by (rewrite Hhd; lra).
  rewrite (within_in_bin T _ _ Hhd). reflexivity.
Qed.

Lemma histogram_stats_count_what_is_in_range_witness :
  ((0 <= 5)%Q /\ (2 <= 5)%Z /\ same_shape 3 [[2; 3; 7]]%Q [[1; -1; 1]]%Q)
  /\ exists stats,
      calculate_histogram_stats [[2; 3; 7]]%Q [[1; -1; 1]]%Q 5 5 = Ok stats
      /\ sumZ (nth 0 stats []) = 2%Z.
Proof.
  assert (HT : (0 <= 5)%Q) by discriminate.
  assert (Hnb : (2 <= 5)%Z) by lia.
  assert (Hsh : same_shape 3 [[2; 3; 7]]%Q [[1; -1; 1]]%Q)
    by (repeat constructor).
  split; [repeat split; assumption|].
  destruct (histogram_stats_count_what_is_in_range 3
              [[2; 3; 7]]%Q [[1; -1; 1]]%Q 5 5 HT Hnb Hsh)
    as (stats & E & _ & H).
  exists stats. split; [exact E|].
  destruct (H 0) as (_ & _ & Hs); [simpl; lia|]. exact Hs.
Defined.

Lemma nth_diff (l : list Z) :
  forall i, S i < length l ->
            nth i (NpHist.diff l) 0%Z = (nth (S i) l 0 - nth i l 0)%Z.
Proof.
  induction l as [|u l IH]; intros i Hi; [simpl in Hi; lia|].
  destruct l as [|w l]; [simpl in Hi; lia|].
  change (NpHist.diff (u :: w :: l)) with ((w - u)%Z :: NpHist.diff (w :: l)).
  destruct i as [|i]; [reflexivity|].
  change (nth i (NpHist.diff (w :: l)) 0%Z
          = (nth (S i) (w :: l) 0 - nth i (w :: l) 0)%Z).
  apply IH. simpl in *. lia.
Qed.

Lemma nth_cum_counts (a bins : list Q) :
  forall i, i < length bins ->
    nth i (cum_counts a bins) 0%Z
    = if S i =? length bins
      then NpHist.searchsorted_right a (nth i bins 0%Q)
      else NpHist.searchsorted_left a (nth i bins 0%Q).
Proof.
  induction bins as [|b bins IH]; intros i Hi; [simpl in Hi; lia|].
  destruct bins as [|b' bins].
  - destruct i as [|i]; [reflexivity|simpl in Hi; lia].
  - change (cum_counts a (b :: b' :: bins))
      with (NpHist.searchsorted_left a b :: cum_counts a (b' :: bins)).
    destruct i as [|i]; [reflexivity|].
    change (nth i (cum_counts a (b' :: bins)) 0%Z
            = if S i =? length (b' :: bins)
              then NpHist.searchsorted_right a (nth i (b' :: bins) 0%Q)
              else NpHist.searchsorted_left a (nth i (b' :: bins) 0%Q)).
    apply IH. simpl in *. lia.
Qed.

Lemma increasing_nth (bins : list Q) :
  NpHist.increasing bins = true ->
  forall i, S i < length bins -> (nth i bins 0 <= nth (S i) bins 0)%Q.
Proof.
  induction bins as [|b bins IH]; intros H i Hi; [simpl in Hi; lia|].
  destruct bins as [|b' bins]; [simpl in Hi; lia|].
  change (NpHist.increasing (b :: b' :: bins))
    with (Qle_bool b b' && NpHist.increasing (b' :: bins)) in H.
  apply andb_true_iff in H. destruct H as [Hb H].
  destruct i as [|i]; [apply Qle_bool_iff; exact Hb|].
  change ((nth i (b' :: bins) 0 <= nth (S i) (b' :: bins) 0)%Q).
  apply IH; [exact H|simpl in *; lia].
Qed.

(** X11.  The bin rule.  For [T >= 0], at least two bin edges and two
    arrays of the same shape, the entry [i] of a
    row's vector is the number of products [rt * decision] of the row with
    [edge i <= v < edge (i+1)]; in the last bin, and only there, the right
    edge is included, so a product equal to [T] is counted and a product on
    an inner edge goes to the bin on its right. *)
Theorem histogram_stats_bin_rule
  (m : nat) (rts decisions : list (list Q)) (T : Q) (nbins : Z) :
  (0 <= T)%Q -> (2 <= nbins)%Z -> same_shape m rts decisions ->
  exists bins stats,
    NpHist.linspace (- T) T nbins = Ok bins
    /\ calculate_histogram_stats rts decisions T nbins = Ok stats
    /\ forall k i, k < length rts -> S i < length bins ->
         nth i (nth k stats []) 0%Z
         = Z.of_nat
             (length
                (filter
                   (in_bin (S (S i) =? length bins)
                      (nth i bins 0%Q) (nth (S i) bins 0%Q))
                   (sign_rts_row (nth k rts []) (nth k decisions [])))).
Proof.
  intros HT Hnb Hshape. pose proof (Forall2_length Hshape) as Hlen.
  destruct (calculate_histogram_stats_rows rts decisions T nbins HT Hnb Hlen)
    as (bins & stats & Hlin & Hbl & Hinc & _ & _ & Hcalc & _ & Hrow).
  exists bins, stats. split; [exact Hlin|]. split; [exact Hcalc|].
  intros k i Hk Hi. specialize (Hrow k Hk).
  unfold NpHist.histogram in Hrow. rewrite Hinc, cum_counts_eq in Hrow.
  injection Hrow as <-.
  rewrite nth_diff by (rewrite cum_counts_length; exact Hi).
  rewrite !nth_cum_counts by lia.
  destruct (Nat.eqb_spec (S i) (length bins)) as [E|_]; [lia|].
  pose proof (increasing_nth bins Hinc i Hi) as Hle.
  destruct (S (S i) =? length bins).
  - apply count_closed. exact Hle.
  - apply count_half_open. exact Hle.
Qed.

Lemma histogram_stats_bin_rule_witness :
  ((0 <= 4)%Q /\ (2 <= 5)%Z /\ same_shape 3 [[2; 4; 1]]%Q [[1; 1; -1]]%Q)
  /\ exists bins stats,
      NpHist.linspace (- (4)) 4 5 = Ok bins
      /\ calculate_histogram_stats [[2; 4; 1]]%Q [[1; 1; -1]]%Q 4 5 = Ok stats
      /\ nth 3 (nth 0 stats []) 0%Z
         = Z.of_nat
             (length
                (filter (in_bin (5 =? length bins)
                           (nth 3 bins 0%Q) (nth 4 bins 0%Q))
                   (sign_rts_row (nth 0 [[2; 4; 1]]%Q [])
                      (nth 0 [[1; 1; -1]]%Q [])))).
Proof.
  assert (HT : (0 <= 4)%Q) by discriminate.
  assert (Hnb : (2 <= 5)%Z) by lia.
  assert (Hsh : same_shape 3 [[2; 4; 1]]%Q [[1; 1; -1]]%Q)
    by (repeat constructor).
  split; [repeat split; assumption|].
  destruct (histogram_stats_bin_rule 3 [[2; 4; 1]]%Q [[1; 1; -1]]%Q 4 5
              HT Hnb Hsh)
    as (bins & stats & E1 & E2 & H).
  exists bins, stats. split; [exact E1|]. split; [exact E2|].
  assert (Hb : 4 < length bins).
  { vm_compute in E1. injection E1 as <-. simpl. lia. }
  apply (H 0 3); [simpl; lia|exact Hb].
Defined.

Example histogram_edges :
  calculate_histogram_stats [[2; 4; 1; 4]]%Q [[1; 1; -1; -1]]%Q 4 5
  = Ok [[1; 1; 0; 2]%Z].
Proof. reflexivity. Qed.

(** X12.  What [calculate_histogram_stats] refuses, for two arrays of the
    same shape.  A negative [nbins] raises [ValueError] from [np.linspace],
    whatever the rows.  A negative [T] with at least two bin edges gives
    decreasing edges: the call raises [ValueError] as soon as there is one
    row to bin. *)
Theorem histogram_stats_refusals
  (m : nat) (rts decisions : list (list Q)) (T : Q) (nbins : Z) :
  same_shape m rts decisions ->
  ((nbins < 0)%Z ->
   calculate_histogram_stats rts decisions T nbins = Raise ValueError)
  /\ ((T < 0)%Q -> (2 <= nbins)%Z -> rts <> [] ->
      calculate_histogram_stats rts decisions T nbins = Raise ValueError).
Proof.
  intros Hshape. unfold calculate_histogram_stats. split.
  - intros H. rewrite linspace_negative by exact H. reflexivity.
  - intros HT Hnb Hr.
    destruct (linspace_ge2 (- T) T nbins Hnb) as [Hlin Hstop].
    set (n := Z.to_nat nbins - 1) in *.
    set (step := ((T - - T) / inject_Z (Z.of_nat n))%Q) in *.
    rewrite Hlin. cbn [bind].
    destruct Hshape as [|rt d rts decisions _ _]; [contradiction|].
    cbn [combine map mapM fst snd]. unfold NpHist.histogram.
    assert (Hn : (0 < inject_Z (Z.of_nat n))%Q).
    { change 0%Q with (inject_Z 0). rewrite <- Zlt_Qlt. unfold n. lia. }
    assert (Hstep : (step < 0)%Q).
    { unfold step. apply Qlt_shift_div_r; [exact Hn|]. lra. }
    assert (Hdec : NpHist.increasing (ramp (- T) step T 0 n) = false).
    { destruct n as [|n'] eqn:En; [unfold n in En; lia|].
      rewrite ramp_cons.
      assert (H' : (T == inject_Z (Z.of_nat (1 + n')) * step + - T)%Q)
        by exact Hstop.
      pose proof (ramp_head (- T) step T 1 n' H') as Hhd.
      pose proof (ramp_length (- T) step T 1 n') as Hl.
      destruct (ramp (- T) step T 1 n') as [|b bins]; [discriminate|].
      cbn [NpHist.increasing].
      replace (Qle_bool _ b) with false; [reflexivity|].
      symmetry. apply not_true_iff_false. rewrite Qle_bool_iff.
      cbn [hd] in Hhd. rewrite Hhd.
      change (inject_Z (Z.of_nat 0)) with 0%Q.
      change (inject_Z (Z.of_nat 1)) with 1%Q. lra. }
    rewrite Hdec. reflexivity.
Qed.

Lemma histogram_stats_refusals_witness :
  same_shape 1 [[1]]%Q [[1]]%Q
  /\ ((-1 < 0)%Z
      /\ calculate_histogram_stats [[1]]%Q [[1]]%Q 5 (-1) = Raise ValueError)
  /\ ((- (5) < 0)%Q /\ (2 <= 20)%Z /\ [[1]]%Q <> [])
  /\ calculate_histogram_stats [[1]]%Q [[1]]%Q (- (5)) 20 = Raise ValueError.
Proof.
  assert (Hsh : same_shape 1 [[1]]%Q [[1]]%Q) by (repeat constructor).
  assert (H1 : (-1 < 0)%Z) by lia.
  assert (HT : (- (5) < 0)%Q) by reflexivity.
  assert (Hnb : (2 <= 20)%Z) by lia.
  assert (Hne : [[1]]%Q <> []) by discriminate.
  split; [exact Hsh|]. split; [split; [exact H1|]|split].
  - exact (proj1 (histogram_stats_refusals 1 [[1]]%Q [[1]]%Q 5 (-1) Hsh) H1).
  - repeat split; assumption.
  - exact (proj2 (histogram_stats_refusals 1 [[1]]%Q [[1]]%Q (- (5)) 20 Hsh)
             HT Hnb Hne).
Defined.

(** ** The simulator on a valid configuration *)

(** X13.  A valid configuration is simulated, whatever the drift values,
    the noise level, the start, the boundary and the random draws.  On a
    batch with at least one parameter, all of dimension 1, with at least
    one trial, [int(T/dt) = n >= 2] time steps, [T >= 0] and at least two
    bin edges, the call returns; [return_traces] only selects what is
    handed back, the summary statistics are the same; the trajectories have
    [num_trials] rows per parameter and [n] columns, and there is one
    summary vector of [nbins - 1] counts per parameter. *)
Theorem simulator_returns_with_shape
  (parameters : py_parameters) (num_trials : nat) (sigma T y0 a : Q)
  (nbins : Z) (dt : Q) (dW : nat -> nat -> nat -> Q) (n : Z)
  (rows : list (list Q)) :
  rows_of (coerce_parameters parameters) = Ok rows ->
  rows <> [] -> Forall (fun mu => length mu = 1) rows ->
  int_quotient T dt = Ok n -> (2 <= n)%Z -> 1 <= num_trials ->
  (0 <= T)%Q -> (2 <= nbins)%Z ->
  exists x_traces stats,
    simulator parameters num_trials sigma T y0 a true nbins dt dW
    = Ok (TracesAndStats x_traces stats)
    /\ simulator parameters num_trials sigma T y0 a false nbins dt dW
       = Ok (Stats stats)
    /\ length x_traces = length rows * num_trials
    /\ Forall (fun r => length r = Z.to_nat n) x_traces
    /\ length stats = length rows
    /\ Forall (fun h => length h = Z.to_nat nbins - 1) stats.
Proof.
  intros Hrows Hne Hdim Hq Hn Htrials HT Hnb.
  destruct (simulator_valid parameters num_trials sigma T y0 a nbins dt dW n
              rows Hrows Hne Hdim Hq Hn Htrials HT Hnb)
    as (xs & stats & Hsim & Hxs & Hst & Hall).
  pose proof (simulator_valid_blocks num_trials sigma T y0 a n dW rows xs Hn
                Hxs (fun p Hp => proj1 (Hall p Hp))) as Hshape.
  exists (concat xs), stats.
  split; [exact (Hsim true)|]. split; [exact (Hsim false)|].
  split; [|split; [|split; [exact Hst|]]].
  - rewrite <- Hxs. clear - Hshape.
    induction Hshape as [|x xs [Hx _] _ IH]; [reflexivity|].
    simpl. rewrite length_app, IH, Hx. reflexivity.
  - clear - Hshape.
    induction Hshape as [|x xs [_ Hx] _ IH]; [constructor|].
    simpl. apply Forall_app. split; assumption.
  - apply Forall_forall. intros h Hh.
    destruct (In_nth stats h [] Hh) as (p & Hp & <-).
    destruct (Hall p) as [_ (Hc & _)]; [lia|]. exact Hc.
Qed.

Lemma simulator_returns_with_shape_witness :
  (rows_of (coerce_parameters (PyTensor (Tensor2 [[0.5]; [-1]]%Q)))
   = Ok [[0.5]; [-1]]%Q
   /\ [[0.5]; [-1]]%Q <> []
   /\ Forall (fun mu => length mu = 1) [[0.5]; [-1]]%Q
   /\ int_quotient 4 1 = Ok 4%Z /\ (2 <= 4)%Z /\ 1 <= 3
   /\ (0 <= 4)%Q /\ (2 <= 5)%Z)
  /\ exists x_traces stats,
      simulator (PyTensor (Tensor2 [[0.5]; [-1]]%Q)) 3 0.2 4 0 1 true 5 1
        (fun _ _ _ => 0%Q)
      = Ok (TracesAndStats x_traces stats)
      /\ length x_traces = 2 * 3
      /\ length stats = 2.
Proof.
  assert (Hd : Forall (fun mu => length mu = 1) [[0.5]; [-1]]%Q)
    by (repeat constructor).
  assert (Hne : [[0.5]; [-1]]%Q <> []) by discriminate.
  assert (HT : (0 <= 4)%Q) by discriminate.
  assert (H2 : (2 <= 4)%Z) by lia.
  assert (H3 : 1 <= 3) by lia.
  assert (H5 : (2 <= 5)%Z) by lia.
  split; [repeat split; try assumption; reflexivity|].
  destruct (simulator_returns_with_shape (PyTensor (Tensor2 [[0.5]; [-1]]%Q)) 3
              0.2 4 0 1 5 1 (fun _ _ _ => 0%Q) 4%Z [[0.5]; [-1]]%Q
              eq_refl Hne Hd eq_refl H2 H3 HT H5)
    as (x_traces & stats & E & _ & Hx & _ & Hs & _).
  exists x_traces, stats. split; [exact E|]. split; [exact Hx|exact Hs].
Defined.

(** X14.  What the counts count.  On a valid configuration (as in X13) the
    summary vector of parameter [p] has no negative entry and sums to the
    number of the returned trajectories of [p] that reach the boundary,
    the forced last entries included; so it never exceeds [num_trials],
    and it falls short by the trials left without a decision. *)
Theorem simulator_counts_crossing_trials
  (parameters : py_parameters) (num_trials : nat) (sigma T y0 a : Q)
  (nbins : Z) (dt : Q) (dW : nat -> nat -> nat -> Q) (n : Z)
  (rows : list (list Q)) :
  rows_of (coerce_parameters parameters) = Ok rows ->
  rows <> [] -> Forall (fun mu => length mu = 1) rows ->
  int_quotient T dt = Ok n -> (2 <= n)%Z -> 1 <= num_trials ->
  (0 <= T)%Q -> (2 <= nbins)%Z ->
  exists x_traces stats,
    simulator parameters num_trials sigma T y0 a true nbins dt dW
    = Ok (TracesAndStats x_traces stats)
    /\ forall p, p < length rows ->
         Forall (fun c => (0 <= c)%Z) (nth p stats [])
         /\ sumZ (nth p stats [])
            = Z.of_nat
                (length (filter (has_crossing a)
                           (block x_traces num_trials p)))
         /\ (sumZ (nth p stats []) <= Z.of_nat num_trials)%Z.
Proof.
  intros Hrows Hne Hdim Hq Hn Htrials HT Hnb.
  destruct (simulator_valid parameters num_trials sigma T y0 a nbins dt dW n
              rows Hrows Hne Hdim Hq Hn Htrials HT Hnb)
    as (xs & stats & Hsim & Hxs & Hst & Hall).
  pose proof (simulator_valid_blocks num_trials sigma T y0 a n dW rows xs Hn
                Hxs (fun p Hp => proj1 (Hall p Hp))) as Hshape.
  exists (concat xs), stats. split; [exact (Hsim true)|].
  intros p Hp. destruct (Hall p Hp) as [_ (_ & Hpos & Hsum)].
  assert (Hb : block (concat xs) num_trials p = nth p xs []).
  { apply block_concat; [|rewrite <- Hxs in Hp; exact Hp].
    eapply Forall_impl; [|exact Hshape]. simpl. intros x [Hx _]. exact Hx. }
  rewrite Hb. split; [exact Hpos|]. split; [exact Hsum|].
  rewrite Hsum. apply inj_le.
  etransitivity; [apply filter_length_bound|].
  rewrite Forall_forall in Hshape.
  destruct (Hshape (nth p xs [])) as [Hx _]; [apply nth_In; lia|]. lia.
Qed.

Lemma simulator_counts_crossing_trials_witness :
  (rows_of (coerce_parameters (PyFloat 0.5)) = Ok [[0.5]]%Q
   /\ [[0.5]]%Q <> []
   /\ Forall (fun mu => length mu = 1) [[0.5]]%Q
   /\ int_quotient 4 1 = Ok 4%Z /\ (2 <= 4)%Z /\ 1 <= 2
   /\ (0 <= 4)%Q /\ (2 <= 5)%Z)
  /\ exists x_traces stats,
      simulator (PyFloat 0.5) 2 0 4 0 1 true 5 1 (fun _ _ _ => 0%Q)
      = Ok (TracesAndStats x_traces stats)
      /\ sumZ (nth 0 stats [])
         = Z.of_nat
             (length (filter (has_crossing 1) (block x_traces 2 0))).
Proof.
  assert (Hd : Forall (fun mu => length mu = 1) [[0.5]]%Q)
    by (repeat constructor).
  assert (Hne : [[0.5]]%Q <> []) by discriminate.
  assert (HT : (0 <= 4)%Q) by discriminate.
  assert (H2 : (2 <= 4)%Z) by lia.
  assert (H3 : 1 <= 2) by lia.
  assert (H5 : (2 <= 5)%Z) by lia.
  split; [repeat split; try assumption; reflexivity|].
  destruct (simulator_counts_crossing_trials (PyFloat 0.5) 2 0 4 0 1 5 1
              (fun _ _ _ => 0%Q) 4%Z [[0.5]]%Q
              eq_refl Hne Hd eq_refl H2 H3 HT H5)
    as (x_traces & stats & E & H).
  exists x_traces, stats. split; [exact E|].
  destruct (H 0) as (_ & Hs & _); [simpl; lia|]. exact Hs.
Defined.

(** ** Batches *)

Lemma simulator_loop_shift (rows : list (list Q)) (num_trials : nat)
  (sigma T y0 a : Q) (nbins : Z) (dt : Q) (dW : nat -> nat -> nat -> Q)
  (k : nat) :
  forall idx,
    simulator_loop (k + idx) rows num_trials sigma T y0 a nbins dt dW
    = simulator_loop idx rows num_trials sigma T y0 a nbins dt
        (fun i => dW (k + i)).
Proof.
  induction rows as [|mu rows IH]; intros idx; [reflexivity|].
  cbn [simulator_loop]. rewrite <- IH.
  replace (S (k + idx)) with (k + S idx) by lia. reflexivity.
Qed.

Lemma simulator_loop_app (m1 m2 : list (list Q)) (num_trials : nat)
  (sigma T y0 a : Q) (nbins : Z) (dt : Q) (dW : nat -> nat -> nat -> Q) :
  forall idx,
    simulator_loop idx (m1 ++ m2) num_trials sigma T y0 a nbins dt dW
    = ('(x1, s1) <-
         simulator_loop idx m1 num_trials sigma T y0 a nbins dt dW ;;
       '(x2, s2) <-
         simulator_loop (length m1 + idx) m2 num_trials sigma T y0 a nbins dt
           dW ;;
       Ok (x1 ++ x2, s1 ++ s2)).
Proof.
  induction m1 as [|mu m1 IH]; intros idx.
  - cbn [app simulator_loop bind length Nat.add].
    destruct (simulator_loop idx m2 num_trials sigma T y0 a nbins dt dW)
      as [[x2 s2]|e]; reflexivity.
  - cbn [app simulator_loop length].
    destruct (simulate_param mu num_trials sigma T y0 a nbins dt (dW idx))
      as [[x s]|e]; [|reflexivity].
    cbn [bind]. rewrite IH.
    replace (length m1 + S idx) with (S (length m1) + idx) by lia.
    destruct (simulator_loop (S idx) m1 num_trials sigma T y0 a nbins dt dW)
      as [[x1 s1]|e]; [|reflexivity].
    cbn [bind].
    destruct (simulator_loop (S (length m1) + idx) m2 num_trials sigma T y0 a
                nbins dt dW) as [[x2 s2]|e]; reflexivity.
Qed.

Lemma simulator_loop_length (rows : list (list Q)) (num_trials : nat)
  (sigma T y0 a : Q) (nbins : Z) (dt : Q) (dW : nat -> nat -> nat -> Q) :
  forall idx xs ss,
    simulator_loop idx rows num_trials sigma T y0 a nbins dt dW = Ok (xs, ss) ->
    length xs = length rows /\ length ss = length rows.
Proof.
  induction rows as [|mu rows IH]; intros idx xs ss; cbn [simulator_loop].
  - intros H. injection H as <- <-. split; reflexivity.
  - destruct (simulate_param mu num_trials sigma T y0 a nbins dt (dW idx))
      as [[x s]|e]; [|discriminate]. cbn [bind].
    destruct (simulator_loop (S idx) rows num_trials sigma T y0 a nbins dt dW)
      as [[xs' ss']|e] eqn:Hl; [|discriminate]. cbn [bind].
    intros H. injection H as <- <-. destruct (IH _ _ _ Hl) as [H1 H2].
    simpl. split; lia.
Qed.

Lemma torch_cat_app {A : Type} (l1 l2 : list (list A)) :
  l1 <> [] -> torch_cat (l1 ++ l2) = Ok (concat l1 ++ concat l2).
Proof.
  intros H. destruct l1 as [|x l1]; [contradiction|].
  cbn [app torch_cat]. rewrite <- concat_app. reflexivity.
Qed.

Lemma simulator_Ok_loop (m : list (list Q)) (num_trials : nat)
  (sigma T y0 a : Q) (nbins : Z) (dt : Q) (dW : nat -> nat -> nat -> Q)
  (x : traces) (s : list (list Z)) :
  simulator (PyTensor (Tensor2 m)) num_trials sigma T y0 a true nbins dt dW
  = Ok (TracesAndStats x s) ->
  exists xs ss,
    simulator_loop 0 m num_trials sigma T y0 a nbins dt dW = Ok (xs, ss)
    /\ xs <> [] /\ ss <> [] /\ x = concat xs /\ s = concat ss.
Proof.
  unfold simulator. cbn [coerce_parameters ndim Nat.eqb rows_of bind].
  destruct (simulator_loop 0 m num_trials sigma T y0 a nbins dt dW)
    as [[xs ss]|e]; [|discriminate]. cbn [bind].
  destruct xs as [|x0 xs]; [discriminate|].
  destruct ss as [|s0 ss]; [discriminate|].
  cbn [torch_cat bind]. intros H. injection H as <- <-.
  exists (x0 :: xs), (s0 :: ss).
  split; [reflexivity|]. repeat split; discriminate.
Qed.

(** X15.  A batch is its parts, run one after the other.  If the call on
    the parameter rows [m1] returns, and the call on the rows [m2] returns
    with the random draws that follow those of [m1], then the call on
    [m1] followed by [m2] returns the trajectories of [m1] followed by
    those of [m2], and likewise the summary vectors.  If the loop fails on
    [m1], the batch fails with the same exception and nothing of [m2] is
    simulated. *)
Theorem simulator_batch_is_concatenation
  (m1 m2 : list (list Q)) (num_trials : nat) (sigma T y0 a : Q) (nbins : Z)
  (dt : Q) (dW : nat -> nat -> nat -> Q) :
  (forall x1 s1 x2 s2,
      simulator (PyTensor (Tensor2 m1)) num_trials sigma T y0 a true nbins dt
        dW
      = Ok (TracesAndStats x1 s1) ->
      simulator (PyTensor (Tensor2 m2)) num_trials sigma T y0 a true nbins dt
        (fun k => dW (length m1 + k))
      = Ok (TracesAndStats x2 s2) ->
      simulator (PyTensor (Tensor2 (m1 ++ m2))) num_trials sigma T y0 a true
        nbins dt dW
      = Ok (TracesAndStats (x1 ++ x2) (s1 ++ s2)))
  /\ (forall e,
        m1 <> [] ->
        simulator (PyTensor (Tensor2 m1)) num_trials sigma T y0 a true nbins
          dt dW
        = Raise e ->
        simulator (PyTensor (Tensor2 (m1 ++ m2))) num_trials sigma T y0 a true
          nbins dt dW
        = Raise e).
Proof.
  split.
  - intros x1 s1 x2 s2 H1 H2.
    apply simulator_Ok_loop in H1, H2.
    destruct H1 as (xs1 & ss1 & Hl1 & Hx1 & Hs1 & -> & ->).
    destruct H2 as (xs2 & ss2 & Hl2 & _ & _ & -> & ->).
    rewrite <- simulator_loop_shift in Hl2.
    unfold simulator. cbn [coerce_parameters ndim Nat.eqb rows_of bind].
    rewrite simulator_loop_app, Hl1. cbn [bind]. rewrite Hl2. cbn [bind].
    unfold traces in *.
    rewrite (torch_cat_app xs1 xs2 Hx1), (torch_cat_app ss1 ss2 Hs1).
    reflexivity.
  - intros e Hne. unfold simulator.
    cbn [coerce_parameters ndim Nat.eqb rows_of bind].
    rewrite simulator_loop_app.
    destruct (simulator_loop 0 m1 num_trials sigma T y0 a nbins dt dW)
      as [[xs ss]|e'] eqn:Hl; cbn [bind].
    + apply simulator_loop_length in Hl. destruct Hl as [Hx Hs].
      destruct xs as [|x xs]; [destruct m1; [contradiction|discriminate]|].
      destruct ss as [|s ss]; [destruct m1; [contradiction|discriminate]|].
      cbn [torch_cat bind]. discriminate.
    + intros H. exact H.
Qed.

Lemma simulator_batch_is_concatenation_witness :
  exists x1 s1 x2 s2,
    (simulator (PyTensor (Tensor2 [[0.5]]%Q)) 2 0 4 0 1 true 5 1
       (fun _ _ _ => 0%Q)
     = Ok (TracesAndStats x1 s1)
     /\ simulator (PyTensor (Tensor2 [[-1]]%Q)) 2 0 4 0 1 true 5 1
          (fun _ _ _ => 0%Q)
        = Ok (TracesAndStats x2 s2))
    /\ simulator (PyTensor (Tensor2 ([[0.5]] ++ [[-1]])%Q)) 2 0 4 0 1 true 5 1
         (fun _ _ _ => 0%Q)
       = Ok (TracesAndStats (x1 ++ x2) (s1 ++ s2))
    /\ s1 ++ s2 = [[0; 0; 0; 2]; [0; 2; 0; 0]]%Z.
Proof.
  assert (H1 : exists x1,
             simulator (PyTensor (Tensor2 [[0.5]]%Q)) 2 0 4 0 1 true 5 1
               (fun _ _ _ => 0%Q)
             = Ok (TracesAndStats x1 [[0; 0; 0; 2]%Z]))
    by (vm_compute; eexists; reflexivity).
  assert (H2 : exists x2,
             simulator (PyTensor (Tensor2 [[-1]]%Q)) 2 0 4 0 1 true 5 1
               (fun _ _ _ => 0%Q)
             = Ok (TracesAndStats x2 [[0; 2; 0; 0]%Z]))
    by (vm_compute; eexists; reflexivity).
  destruct H1 as [x1 H1]. destruct H2 as [x2 H2].
  exists x1, [[0; 0; 0; 2]%Z], x2, [[0; 2; 0; 0]%Z].
  split; [split; assumption|]. split; [|reflexivity].
  apply (proj1 (simulator_batch_is_concatenation [[0.5]%Q] [[-1]%Q] 2 0 4 0 1
                  5 1 (fun _ _ _ => 0%Q))); assumption.
Defined.

(** ** What the simulator refuses, and with which exception *)

Lemma int_quotient_zero (T dt : Q) :
  (dt == 0)%Q -> int_quotient T dt = Raise ZeroDivisionError.
Proof.
  intros H. unfold int_quotient.
  replace (Qeq_bool dt 0) with true; [reflexivity|].
  symmetry. apply Qeq_bool_iff. exact H.
Qed.

Lemma simulate_param_short_grid (mu : list Q) (num_trials : nat)
  (sigma T y0 a : Q) (nbins : Z) (dt : Q) (dW : nat -> nat -> Q) (n : Z) :
  int_quotient T dt = Ok n -> (n < 2)%Z ->
  simulate_param mu num_trials sigma T y0 a nbins dt dW = Raise ValueError.
Proof.
  intros Hq Hn. unfold simulate_param. rewrite Hq. cbn [bind].
  unfold NpHist.linspace. destruct (Z.ltb_spec n 0) as [_|H0]; [reflexivity|].
  destruct (Z.to_nat n) as [|[|d]] eqn:E; [reflexivity|reflexivity|lia].
Qed.

(** X16.  The exceptions of a non-empty batch.  With [dt = 0] the call
    raises [ZeroDivisionError]; with [int(T/dt) < 2] it raises [ValueError];
    with a grid of at least two points and at least one trial, parameters
    of a dimension other than 1 raise [ValueError].  In each case the first
    parameter's run fails, before any trajectory is extracted. *)
Theorem simulator_exceptions
  (parameters : py_parameters) (num_trials : nat) (sigma T y0 a : Q)
  (return_traces : bool) (nbins : Z) (dt : Q) (dW : nat -> nat -> nat -> Q)
  (rows : list (list Q)) :
  rows_of (coerce_parameters parameters) = Ok rows -> rows <> [] ->
  ((dt == 0)%Q ->
   simulator parameters num_trials sigma T y0 a return_traces nbins dt dW
   = Raise ZeroDivisionError)
  /\ (forall n, int_quotient T dt = Ok n -> (n < 2)%Z ->
        simulator parameters num_trials sigma T y0 a return_traces nbins dt dW
        = Raise ValueError)
  /\ (forall n d, int_quotient T dt = Ok n -> (2 <= n)%Z -> 1 <= num_trials ->
        d <> 1 -> Forall (fun mu => length mu = d) rows ->
        simulator parameters num_trials sigma T y0 a return_traces nbins dt dW
        = Raise ValueError).
Proof.
  intros Hrows Hne. unfold simulator. rewrite Hrows. cbn [bind].
  destruct rows as [|mu rows]; [contradiction|]. cbn [simulator_loop].
  split; [|split].
  - intros Hdt. unfold simulate_param.
    rewrite (int_quotient_zero T dt Hdt). reflexivity.
  - intros n Hq Hn.
    rewrite (simulate_param_short_grid mu num_trials sigma T y0 a nbins dt
               (dW 0) n Hq Hn). reflexivity.
  - intros n d Hq Hn Htrials Hd Hdim. inversion Hdim as [|? ? Hmu _]; subst.
    rewrite (simulate_param_dimension mu num_trials sigma T y0 a nbins dt
               (dW 0) n Hq Hn Htrials Hd). reflexivity.
Qed.

Lemma simulator_exceptions_witness :
  (rows_of (coerce_parameters (PyTensor (Tensor1 [0.5; 1]%Q)))
   = Ok [[0.5; 1]%Q]
   /\ [[0.5; 1]%Q] <> [])
  /\ ((0 == 0)%Q
      /\ simulator (PyTensor (Tensor1 [0.5; 1]%Q)) 2 0.2 5 0 1 false 20 0
           (fun _ _ _ => 0%Q)
         = Raise ZeroDivisionError)
  /\ ((int_quotient 1 1 = Ok 1%Z /\ (1 < 2)%Z)
      /\ simulator (PyTensor (Tensor1 [0.5; 1]%Q)) 2 0.2 1 0 1 false 20 1
           (fun _ _ _ => 0%Q)
         = Raise ValueError)
  /\ ((int_quotient 5 1 = Ok 5%Z /\ (2 <= 5)%Z /\ 1 <= 2 /\ 2 <> 1
       /\ Forall (fun mu => length mu = 2) [[0.5; 1]%Q])
      /\ simulator (PyTensor (Tensor1 [0.5; 1]%Q)) 2 0.2 5 0 1 false 20 1
           (fun _ _ _ => 0%Q)
         = Raise ValueError).
Proof.
  assert (Hne : [[0.5; 1]%Q] <> []) by discriminate.
  assert (H0 : (0 == 0)%Q) by reflexivity.
  assert (H1 : (1 < 2)%Z) by lia.
  assert (H2 : (2 <= 5)%Z) by lia.
  assert (H3 : 1 <= 2) by lia.
  assert (H4 : 2 <> 1) by lia.
  assert (Hd : Forall (fun mu => length mu = 2) [[0.5; 1]%Q])
    by (repeat constructor).
  split; [split; [reflexivity|exact Hne]|].
  split; [split; [exact H0|]|split; [split; [split; [reflexivity|exact H1]|]|]].
  - exact (proj1 (simulator_exceptions (PyTensor (Tensor1 [0.5; 1]%Q)) 2 0.2
                    5 0 1 false 20 0 (fun _ _ _ => 0%Q) [[0.5; 1]%Q]
                    eq_refl Hne) H0).
  - exact (proj1 (proj2 (simulator_exceptions (PyTensor (Tensor1 [0.5; 1]%Q))
                           2 0.2 1 0 1 false 20 1 (fun _ _ _ => 0%Q)
                           [[0.5; 1]%Q] eq_refl Hne)) 1%Z eq_refl H1).
  - split; [repeat split; try assumption; reflexivity|].
    exact (proj2 (proj2 (simulator_exceptions (PyTensor (Tensor1 [0.5; 1]%Q))
                           2 0.2 5 0 1 false 20 1 (fun _ _ _ => 0%Q)
                           [[0.5; 1]%Q] eq_refl Hne))
             5%Z 2 eq_refl H2 H3 H4 Hd).
Defined.


(** ** [prior] and the simulator *)

Lemma prior_length (num_samples : nat) (rand : nat -> Q) :
  length (prior num_samples rand) = num_samples.
Proof. unfold prior. rewrite length_map, length_seq. reflexivity. Qed.


(** X18.  [prior] returns [num_samples] rows of one entry each, and with
    draws in [[0, 1)] every entry lies in [[-2, 2)]: the lower end of the
    support can be drawn, the upper end cannot. *)
Theorem prior_shape_and_support (num_samples : nat) (rand : nat -> Q) :
  (forall i, (0 <= rand i < 1)%Q) ->
  length (prior num_samples rand) = num_samples
  /\ forall i, i < num_samples ->
       exists v, nth i (prior num_samples rand) [] = [v]
                 /\ (v == - (2) + 4 * rand i)%Q
                 /\ (- (2) <= v < 2)%Q.
Proof.
  intros Hrand. split; [apply prior_length|].
  intros i Hi. unfold prior. rewrite nth_map_seq by exact Hi.
  eexists. split; [reflexivity|]. specialize (Hrand i).
  split; [ring|]. lra.
Qed.

Lemma prior_shape_and_support_witness :
  (forall i : nat, (0 <= (fun _ => 1 # 4) i < 1)%Q)
  /\ length (prior 3 (fun _ => 1 # 4)%Q) = 3
  /\ exists v, nth 2 (prior 3 (fun _ => 1 # 4)%Q) [] = [v]
               /\ (- (2) <= v < 2)%Q.
Proof.
  assert (H : forall i : nat, (0 <= (fun _ => 1 # 4) i < 1)%Q).
  { intros i. split; [discriminate|reflexivity]. }
  split; [exact H|].
  destruct (prior_shape_and_support 3 (fun _ => 1 # 4)%Q H) as [Hl Hall].
  split; [exact Hl|].
  destruct (Hall 2) as (v & Hv & _ & Hr); [lia|].
  exists v. split; [exact Hv|exact Hr].
Defined.


